(** * Medical insurance pipeline: cleaning, correlation analysis and tests

    A shallow embedding of [data_loader.py] (class
    [MedicalInsuranceDataLoader]) and of [data_analyzer.py] (class
    [MedicalInsuranceAnalyzer]).

    Conventions of the embedding.
    - A pandas [Series] with the default integer index is the list of its
      cells; a [DataFrame] is the ordered list of its named columns.
    - A numeric cell carries its value as a rational: an [int64] cell and a
      [float64] cell of the same value are the same cell, as Python's [==]
      has it.  Floating point rounding, overflow and infinities read from
      text are not part of the model.
    - The strings the standard output receives are abstracted into the
      [event]s of a log, one constructor per [print] of the source.
    - Methods run in a monad that threads the object and the log and stops
      at the first exception, keeping the object as mutated so far. *)

From Stdlib Require Import ZArith QArith Qround List String Ascii Bool Arith Lia.
From Stdlib Require Import Reals Lra.
From Stdlib Require Import Sorted Permutation.
Import ListNotations.

Local Open Scope string_scope.
Local Open Scope list_scope.
Local Open Scope nat_scope.

(** ** Python exceptions and results *)

Inductive exn : Type :=
| KeyError (key : string)
| IndexError
| ValueError
| TypeError.

(** The class name of an exception, as [type(e).__name__] gives it. *)
Definition exn_name (e : exn) : string :=
  match e with
  | KeyError _ => "KeyError"
  | IndexError => "IndexError"
  | ValueError => "ValueError"
  | TypeError => "TypeError"
  end.

Inductive result (A : Type) : Type :=
| Ok (a : A)
| Raise (e : exn).

Arguments Ok {A} a.
Arguments Raise {A} e.

Definition result_bind {A B} (r : result A) (f : A -> result B) : result B :=
  match r with
  | Ok a => f a
  | Raise e => Raise e
  end.

Fixpoint traverse {A B} (f : A -> result B) (l : list A) : result (list B) :=
  match l with
  | [] => Ok []
  | x :: l' =>
      result_bind (f x) (fun y =>
      result_bind (traverse f l') (fun ys => Ok (y :: ys)))
  end.

(** ** Stable insertion sort, the order numpy gives to short arrays *)

Section Sort.
Variable A : Type.
Variable leb : A -> A -> bool.

Fixpoint insert (x : A) (l : list A) : list A :=
  match l with
  | [] => [x]
  | y :: l' => if leb x y then x :: l else y :: insert x l'
  end.

Definition sort (l : list A) : list A := fold_right insert [] l.
End Sort.

Arguments insert {A} leb x l.
Arguments sort {A} leb l.

(** ** Methods: a state, a log and an exception *)

(** A method of an object of type [S] that prints events of type [E]: from
    the object before the call, the object after it, what was printed, and
    the value returned or the exception raised.  A method that raises keeps
    the mutations made up to there. *)
Definition method (S E A : Type) : Type := S -> S * list E * result A.

Definition ret {S E A} (a : A) : method S E A := fun self => (self, [], Ok a).

Definition bind {S E A B} (m : method S E A) (f : A -> method S E B)
  : method S E B :=
  fun self =>
    match m self with
    | (self1, out1, Ok a) =>
        match f a self1 with
        | (self2, out2, r) => (self2, out1 ++ out2, r)
        end
    | (self1, out1, Raise e) => (self1, out1, Raise e)
    end.

Notation "x <- m ;; k" := (bind m (fun x => k))
  (at level 61, m at next level, right associativity).
Notation "m ;; k" := (bind m (fun _ => k))
  (at level 61, right associativity).

Definition print {S E} (e : E) : method S E unit := fun self => (self, [e], Ok tt).

Definition lift {S E A} (r : result A) : method S E A := fun self => (self, [], r).

(** A run ends in an exception of the given class. *)
Definition raises_named {S E A} (name : string) (run : S * list E * result A)
  : Prop :=
  exists e, snd run = Raise e /\ exn_name e = name.

(** ** The part of pandas the two classes call *)

Module Pandas.

Inductive cell : Type :=
| Num (q : Q)
| NaN
| Str (s : string).

Definition Series := list cell.
Definition DataFrame := list (string * Series).

(** [df[name]] on the right of an assignment: the first column of that
    name. *)
Fixpoint get_col (name : string) (df : DataFrame) : option Series :=
  match df with
  | [] => None
  | (n, s) :: df' => if String.eqb n name then Some s else get_col name df'
  end.

Definition getitem (name : string) (df : DataFrame) : result Series :=
  match get_col name df with
  | Some s => Ok s
  | None => Raise (KeyError name)
  end.

(** [df[name] = s]: the column is replaced where it stands, or appended as
    the last column when the name is new. *)
Fixpoint set_col (name : string) (s : Series) (df : DataFrame) : DataFrame :=
  match df with
  | [] => [(name, s)]
  | (n, s0) :: df' =>
      if String.eqb n name then (n, s) :: df' else (n, s0) :: set_col name s df'
  end.

Definition is_null (c : cell) : bool :=
  match c with
  | NaN => true
  | _ => false
  end.

(** [s.isnull().sum()] *)
Definition isnull_sum (s : Series) : nat := List.length (filter is_null s).

(** [df.isnull().sum().sum()] *)
Definition frame_isnull_sum (df : DataFrame) : nat :=
  fold_right (fun col acc => isnull_sum (snd col) + acc) 0 df.

(** Python equality of two cells; a missing value equals nothing. *)
Definition cell_eqb (a b : cell) : bool :=
  match a, b with
  | Num p, Num q => Qeq_bool p q
  | Str s, Str t => String.eqb s t
  | _, _ => false
  end.

Definition numeric_values (s : Series) : list Q :=
  flat_map (fun c => match c with Num q => [q] | _ => [] end) s.

Definition is_str (c : cell) : bool :=
  match c with
  | Str _ => true
  | _ => false
  end.

(** The median of a list of numbers: the middle one of the sorted list, the
    mean of the two middle ones for an even count, missing for none. *)
Definition median_of (vs : list Q) : cell :=
  let sorted := sort Qle_bool vs in
  let n := List.length sorted in
  if n =? 0 then NaN
  else if Nat.odd n then Num (nth (n / 2) sorted 0%Q)
  else Num (Qred ((nth (n / 2 - 1) sorted 0 + nth (n / 2) sorted 0) / 2)%Q).

(** [s.median()]: missing values are skipped; text cannot be ordered with
    numbers. *)
Definition median (s : Series) : result cell :=
  if existsb is_str s then Raise TypeError
  else Ok (median_of (numeric_values s)).

(** [s.fillna(value)] *)
Definition fillna (value : cell) (s : Series) : Series :=
  map (fun c => if is_null c then value else c) s.

(** [s.replace(to_replace, value)] *)
Definition replace (to_replace value : cell) (s : Series) : Series :=
  map (fun c => if cell_eqb c to_replace then value else c) s.

(** *** [s.mode()] *)

Definition count (c : cell) (s : Series) : nat :=
  List.length (filter (cell_eqb c) s).

Definition max_count (s : Series) : nat :=
  fold_right Nat.max 0 (map (fun c => count c s) s).

(** The distinct values of a series, in the order of their first
    appearance. *)
Fixpoint unique (s : Series) : Series :=
  match s with
  | [] => []
  | c :: s' => c :: filter (fun d => negb (cell_eqb c d)) (unique s')
  end.

Definition cell_leb (a b : cell) : bool :=
  match a, b with
  | Num p, Num q => Qle_bool p q
  | Str s, Str t => String.leb s t
  | _, _ => true
  end.

Definition is_num (c : cell) : bool :=
  match c with
  | Num _ => true
  | _ => false
  end.

(** The modal values are sorted when they can be compared with each other
    (all numbers, or all text); otherwise pandas warns and leaves them in
    the order of first appearance. *)
Definition sort_modes (ms : Series) : Series :=
  if forallb is_num ms || forallb is_str ms then sort cell_leb ms else ms.

Definition dropna (s : Series) : Series :=
  filter (fun c => negb (is_null c)) s.

Definition mode (s : Series) : Series :=
  let vals := dropna s in
  sort_modes (filter (fun c => count c vals =? max_count vals) (unique vals)).

(** [s[0]] on a series with the default index. *)
Definition series_getitem0 (s : Series) : result cell :=
  match s with
  | c :: _ => Ok c
  | [] => Raise (KeyError "0")
  end.

Fixpoint contains_char (a : ascii) (s : string) : bool :=
  match s with
  | EmptyString => false
  | String b s' => Ascii.eqb a b || contains_char a s'
  end.

(** ['?' in str(s.values)]: the printed form of an array of numbers holds
    digits, signs, points, blanks and brackets only, and the printed form
    of a text value holds the text, so the question mark is found exactly
    when some text value holds one.  (The abbreviation numpy makes of an
    array of more than 1000 values is not modelled.) *)
Definition question_mark_in_str (s : Series) : bool :=
  existsb (fun c => match c with
                    | Str t => contains_char "?"%char t
                    | _ => false
                    end) s.

(** [mapping.get(c, nan)] for a dict with integer keys; a float that equals
    a key finds it, as in Python. *)
Definition dict_get (mapping : list (Z * string)) (c : cell) : cell :=
  match c with
  | Num q =>
      match find (fun kv => Qeq_bool q (inject_Z (fst kv))) mapping with
      | Some kv => Str (snd kv)
      | None => NaN
      end
  | _ => NaN
  end.

(** [s.map(mapping)]: a cell that is no key of the dict becomes missing. *)
Definition map_dict (mapping : list (Z * string)) (s : Series) : Series :=
  map (dict_get mapping) s.

(** A column of integers. *)
Definition ints (l : list Z) : Series := map (fun z => Num (inject_Z z)) l.

(** Truncation toward zero, what a cast of a float to [int] does. *)
Definition Qtrunc (q : Q) : Z := Z.quot (Qnum q) (Zpos (Qden q)).

Inductive errors_arg : Type := errors_raise | errors_coerce.

Section Parsers.
(** How text is read as a number is the business of numpy and of Python's
    [int]; both are taken as given.  [str_to_num] is the reading
    [pd.to_numeric] makes of a text cell, [py_int] is [int(text)]; [None]
    is a failure to parse.  (Text that reads as nan or inf does not
    survive [read_csv] as text and is not considered.) *)
Variable str_to_num : string -> option Q.
Variable py_int : string -> option Z.

Definition to_numeric_cell (errors : errors_arg) (c : cell) : result cell :=
  match c with
  | Str s =>
      match str_to_num s with
      | Some q => Ok (Num q)
      | None =>
          match errors with
          | errors_coerce => Ok NaN
          | errors_raise => Raise ValueError
          end
      end
  | _ => Ok c
  end.

(** [pd.to_numeric(s, errors=...)] *)
Definition to_numeric (errors : errors_arg) (s : Series) : result Series :=
  traverse (to_numeric_cell errors) s.

(** The cast of one cell by [astype(int)]: a number loses its fractional
    part, text goes through [int()], a missing value is refused.  The
    integer is kept whatever its size: the model covers the values of
    [int64], beyond which numpy wraps a float and refuses a Python integer.
    Statements about the value a cast yields carry that range as a
    premise. *)
Definition astype_int_cell (c : cell) : result cell :=
  match c with
  | Num q => Ok (Num (inject_Z (Qtrunc q)))
  | NaN => Raise ValueError
  | Str s =>
      match py_int s with
      | Some z => Ok (Num (inject_Z z))
      | None => Raise ValueError
      end
  end.

(** [s.astype(int)] *)
Definition astype_int (s : Series) : result Series :=
  traverse astype_int_cell s.
End Parsers.

End Pandas.

(** ** data_loader.py: class MedicalInsuranceDataLoader *)

Module Loader.
Import Pandas.

Record MedicalInsuranceDataLoader : Type := {
  url : option string;
  local_path : option string;
  df_raw : option DataFrame;
  df_clean : option DataFrame;
  label_mappings : list (string * list (Z * string))
}.

(** [__init__] *)
Definition init (url local_path : option string) : MedicalInsuranceDataLoader :=
  {| url := url;
     local_path := local_path;
     df_raw := None;
     df_clean := None;
     label_mappings :=
       [("sex", [(1%Z, "male"); (2%Z, "female")]);
        ("smoker", [(0%Z, "no"); (1%Z, "yes")]);
        ("region", [(1%Z, "northeast"); (2%Z, "northwest");
                    (3%Z, "southeast"); (4%Z, "southwest")])] |}.

(** What the methods print. *)
Inductive event : Type :=
| NoRawData                                   (* No raw data available. Load data first. *)
| StartingCleaning                            (* Starting data cleaning... *)
| CleaningAge                                 (* Cleaning age column... *)
| FilledAge (age_missing : nat) (age_median : cell)
                                              (* Filled .. missing values with median: .. *)
| CleaningSmoker                              (* Cleaning smoker column... *)
| ConvertingTypes                             (* Converting data types... *)
| CleaningComplete (missing : nat)            (* Cleaning complete. Missing values: .. *)
| NoCleanData.                                (* No clean data available. Clean data first. *)

(** *** The methods of the loader *)

Definition M (A : Type) : Type := method MedicalInsuranceDataLoader event A.

Definition get_df_raw : M (option DataFrame) :=
  fun self => (self, [], Ok (df_raw self)).

Definition get_df_clean : M (option DataFrame) :=
  fun self => (self, [], Ok (df_clean self)).

Definition with_df_clean (self : MedicalInsuranceDataLoader) (df : DataFrame)
  : MedicalInsuranceDataLoader :=
  {| url := url self;
     local_path := local_path self;
     df_raw := df_raw self;
     df_clean := Some df;
     label_mappings := label_mappings self |}.

(** [self.df_clean = df] *)
Definition set_df_clean (df : DataFrame) : M unit :=
  fun self => (with_df_clean self df, [], Ok tt).

(** [self.df_clean[name]]; subscripting [None] is a [TypeError]. *)
Definition clean_getitem (name : string) : M Series :=
  df <- get_df_clean ;;
  match df with
  | Some df => lift (getitem name df)
  | None => lift (Raise TypeError)
  end.

(** [self.df_clean[name] = s] *)
Definition clean_setitem (name : string) (s : Series) : M unit :=
  df <- get_df_clean ;;
  match df with
  | Some df => set_df_clean (set_col name s df)
  | None => lift (Raise TypeError)
  end.

(** [self.label_mappings[name]] *)
Definition get_label_mapping (name : string) : M (list (Z * string)) :=
  fun self =>
    (self, [],
     match find (fun kv => String.eqb (fst kv) name) (label_mappings self) with
     | Some kv => Ok (snd kv)
     | None => Raise (KeyError name)
     end).

Section Methods.
Variable str_to_num : string -> option Q.
Variable py_int : string -> option Z.

(** Lines 119-126, the block headed [# Clean age column]. *)
Definition clean_age : M unit :=
  print CleaningAge ;;
  age <- clean_getitem "age" ;;
  age <- lift (to_numeric str_to_num errors_coerce age) ;;
  clean_setitem "age" age ;;
  age <- clean_getitem "age" ;;
  let age_missing := isnull_sum age in
  if 0 <? age_missing then
    age <- clean_getitem "age" ;;
    age_median <- lift (median age) ;;
    age <- clean_getitem "age" ;;
    clean_setitem "age" (fillna age_median age) ;;
    print (FilledAge age_missing age_median)
  else ret tt.

(** Lines 128-132, the block headed [# Clean smoker column]. *)
Definition clean_smoker : M unit :=
  print CleaningSmoker ;;
  smoker <- clean_getitem "smoker" ;;
  smoker_mode <-
    (if negb (question_mark_in_str (mode smoker)) then
       smoker <- clean_getitem "smoker" ;;
       lift (series_getitem0 (mode smoker))
     else ret (Str "0")) ;;
  smoker <- clean_getitem "smoker" ;;
  clean_setitem "smoker" (replace (Str "?") smoker_mode smoker) ;;
  smoker <- clean_getitem "smoker" ;;
  smoker <- lift (to_numeric str_to_num errors_raise smoker) ;;
  clean_setitem "smoker" smoker.

(** [self.df_clean[name] = self.df_clean[name].astype(int)] *)
Definition convert_column (name : string) : M unit :=
  col <- clean_getitem name ;;
  col <- lift (astype_int py_int col) ;;
  clean_setitem name col.

(** Lines 134-140, the block headed [# Convert data types]. *)
Definition convert_types : M unit :=
  print ConvertingTypes ;;
  convert_column "age" ;;
  convert_column "sex" ;;
  convert_column "children" ;;
  convert_column "smoker" ;;
  convert_column "region".

Definition clean_data : M (option DataFrame) :=
  raw <- get_df_raw ;;
  match raw with
  | None =>
      print NoRawData ;;
      ret None
  | Some raw =>
      print StartingCleaning ;;
      set_df_clean raw ;;
      clean_age ;;
      clean_smoker ;;
      convert_types ;;
      df <- get_df_clean ;;
      print (CleaningComplete
               (match df with Some df => frame_isnull_sum df | None => 0 end)) ;;
      get_df_clean
  end.

Definition create_labeled_data : M (option DataFrame) :=
  clean <- get_df_clean ;;
  match clean with
  | None =>
      print NoCleanData ;;
      ret None
  | Some df_labeled =>
      sex <- lift (getitem "sex" df_labeled) ;;
      sex_map <- get_label_mapping "sex" ;;
      let df_labeled := set_col "sex_label" (map_dict sex_map sex) df_labeled in
      smoker <- lift (getitem "smoker" df_labeled) ;;
      smoker_map <- get_label_mapping "smoker" ;;
      let df_labeled :=
        set_col "smoker_label" (map_dict smoker_map smoker) df_labeled in
      region <- lift (getitem "region" df_labeled) ;;
      region_map <- get_label_mapping "region" ;;
      let df_labeled :=
        set_col "region_label" (map_dict region_map region) df_labeled in
      ret (Some df_labeled)
  end.
End Methods.

(** What [pd.to_numeric(.., errors='coerce')] leaves in a cell: a number
    where there is one to read, a missing value elsewhere.  A raw value is
    unparseable when this is missing. *)
Definition coerced (str_to_num : string -> option Q) (c : cell) : cell :=
  match c with
  | Str s => match str_to_num s with Some q => Num q | None => NaN end
  | _ => c
  end.

(** A reader of text for the examples: an optional minus sign and decimal
    digits.  pandas and Python read more (blanks, a decimal point, an
    exponent); the theorems hold for every reader. *)
Definition digit_of (a : ascii) : option Z :=
  let n := nat_of_ascii a in
  if (48 <=? n) && (n <=? 57) then Some (Z.of_nat (n - 48)) else None.

Fixpoint parse_digits (acc : Z) (s : string) : option Z :=
  match s with
  | EmptyString => Some acc
  | String a s' =>
      match digit_of a with
      | Some d => parse_digits (10 * acc + d)%Z s'
      | None => None
      end
  end.

Definition parse_int (s : string) : option Z :=
  match s with
  | EmptyString => None
  | String "-"%char EmptyString => None
  | String "-"%char s' => option_map Z.opp (parse_digits 0%Z s')
  | _ => parse_digits 0%Z s
  end.

Definition parse_num (s : string) : option Q := option_map inject_Z (parse_int s).

(** A loader that has loaded the raw table [df]. *)
Definition loaded (df : DataFrame) : MedicalInsuranceDataLoader :=
  {| url := None;
     local_path := Some "medical_insurance.csv";
     df_raw := Some df;
     df_clean := None;
     label_mappings := label_mappings (init None None) |}.

(** A raw table whose smoker column is the one of the specification's
    example, and the same column as [read_csv] gives it, as text. *)
Definition spec_example : DataFrame :=
  [("age", ints [19; 18; 28; 33; 32]%Z);
   ("sex", ints [2; 1; 1; 1; 1]%Z);
   ("bmi", [Num (279 # 10); Num (3377 # 100); Num 33; Num (22705 # 1000); Num (2888 # 100)]);
   ("children", ints [0; 1; 3; 0; 0]%Z);
   ("smoker", [Num 0; Num 1; Num 0; Str "?"; Num 1]);
   ("region", ints [4; 3; 3; 2; 2]%Z);
   ("charges", [Num 16884; Num 1725; Num 4449; Num 21984; Num 3866])].

Definition spec_example_text : DataFrame :=
  set_col "smoker" [Str "0"; Str "1"; Str "0"; Str "?"; Str "1"] spec_example.

(** A table whose age column has two readable and two unreadable values. *)
Definition unreadable_ages : DataFrame :=
  [("age", [Str "12"; Str "x"; NaN; Str "15"])].

(** A raw table, read from text, in which the sentinel is the most frequent
    smoker value while the other values have the single mode 1. *)
Definition sentinel_majority : DataFrame :=
  [("age", [Str "19"; Str "18"; Str "28"]);
   ("sex", ints [2; 1; 1]%Z);
   ("bmi", [Num (279 # 10); Num (3377 # 100); Num 33]);
   ("children", ints [0; 1; 3]%Z);
   ("smoker", [Str "?"; Str "?"; Str "1"]);
   ("region", ints [4; 3; 3]%Z);
   ("charges", [Num 16884; Num 1725; Num 4449])].

(** A raw table with a missing bmi, a missing charge and a region code 9. *)
Definition null_bmi_region_9 : DataFrame :=
  [("age", ints [19; 18; 28]%Z);
   ("sex", ints [2; 1; 1]%Z);
   ("bmi", [Num (279 # 10); NaN; Num 33]);
   ("children", ints [0; 1; 3]%Z);
   ("smoker", ints [1; 0; 0]%Z);
   ("region", ints [4; 3; 9]%Z);
   ("charges", [Num 16884; Num 1725; NaN])].

(** A clean table whose last row holds codes outside every domain. *)
Definition out_of_domain : DataFrame :=
  [("age", ints [19; 18; 28]%Z);
   ("sex", ints [1; 2; 3]%Z);
   ("bmi", [Num (279 # 10); Num (3377 # 100); Num 33]);
   ("children", ints [0; 1; 3]%Z);
   ("smoker", ints [0; 1; 2]%Z);
   ("region", ints [1; 4; 9]%Z);
   ("charges", [Num 16884; Num 1725; Num 4449])].

End Loader.

(** ** Floating point values, idealised *)

(** The values of the statistics are modelled as exact real numbers with
    the two infinities and nan added: no rounding, no overflow, no signed
    zero.  Comparisons with nan are false, as in IEEE 754. *)
Module Float.
Local Open Scope R_scope.

Inductive float : Type :=
| Fin (r : R)
| PInf
| NInf
| FNaN.

Definition is_nan (x : float) : bool :=
  match x with
  | FNaN => true
  | _ => false
  end.

Definition Rltb (a b : R) : bool := if Rlt_dec a b then true else false.
Definition Rleb (a b : R) : bool := if Rle_dec a b then true else false.

(** [x < y] *)
Definition ltb (x y : float) : bool :=
  match x, y with
  | FNaN, _ | _, FNaN => false
  | _, NInf => false
  | NInf, _ => true
  | PInf, _ => false
  | Fin _, PInf => true
  | Fin a, Fin b => Rltb a b
  end.

(** [x <= y] *)
Definition leb (x y : float) : bool :=
  match x, y with
  | FNaN, _ | _, FNaN => false
  | NInf, _ => true
  | _, PInf => true
  | _, NInf => false
  | PInf, _ => false
  | Fin a, Fin b => Rleb a b
  end.

(** [x >= y] *)
Definition geb (x y : float) : bool := leb y x.

(** [abs(x)] *)
Definition abs (x : float) : float :=
  match x with
  | Fin r => Fin (Rabs r)
  | PInf | NInf => PInf
  | FNaN => FNaN
  end.

(** [x - y] *)
Definition sub (x y : float) : float :=
  match x, y with
  | FNaN, _ | _, FNaN => FNaN
  | Fin a, Fin b => Fin (a - b)
  | PInf, PInf | NInf, NInf => FNaN
  | PInf, _ | _, NInf => PInf
  | NInf, _ | _, PInf => NInf
  end.

(** [x / y] on numpy floats: a division by zero is an infinity or nan, not
    an exception. *)
Definition div (x y : float) : float :=
  match x, y with
  | FNaN, _ | _, FNaN => FNaN
  | Fin a, Fin b =>
      if Req_dec_T b 0 then
        if Req_dec_T a 0 then FNaN else if Rlt_dec 0 a then PInf else NInf
      else Fin (a / b)
  | Fin _, _ => Fin 0
  | PInf, Fin b => if Rlt_dec b 0 then NInf else PInf
  | NInf, Fin b => if Rlt_dec b 0 then PInf else NInf
  | _, _ => FNaN
  end.

End Float.

(** ** data_analyzer.py: class MedicalInsuranceAnalyzer *)

Module Analyzer.
Import Pandas Float.
Local Open Scope R_scope.

(** A series of floats indexed by labels, and a table of floats indexed by
    column labels, each column a series indexed by row labels. *)
Definition FSeries := list (string * float).
Definition FFrame := list (string * FSeries).

(** A Python dict with text keys, in insertion order. *)
Fixpoint dict_get {V : Type} (key : string) (d : list (string * V)) : option V :=
  match d with
  | [] => None
  | (k, v) :: d' => if String.eqb k key then Some v else dict_get key d'
  end.

Fixpoint dict_set {V : Type} (key : string) (v : V) (d : list (string * V))
  : list (string * V) :=
  match d with
  | [] => [(key, v)]
  | (k, v0) :: d' =>
      if String.eqb k key then (k, v) :: d' else (k, v0) :: dict_set key v d'
  end.

(** *** [DataFrame.corr()] *)

Definition sum (l : list R) : R := fold_right Rplus 0 l.

Definition mean (l : list R) : R := sum l / INR (List.length l).

(** The rows in which both columns hold a finite number. *)
Definition complete_pairs (xs ys : list float) : list (R * R) :=
  flat_map (fun p => match p with
                     | (Fin x, Fin y) => [(x, y)]
                     | _ => []
                     end) (combine xs ys).

(** The sum of the squared deviations of a list from its mean. *)
Definition ssqdm (l : list R) : R :=
  sum (map (fun x => (x - mean l) * (x - mean l)) l).

(** The sum of the products of the deviations of the two components. *)
Definition covxy (ps : list (R * R)) : R :=
  sum (map (fun p => (fst p - mean (map fst ps)) * (snd p - mean (map snd ps))) ps).

(** Pearson's coefficient over the complete rows, as pandas 2 computes an
    entry of the matrix: nan with a zero divisor, the quotient otherwise,
    without clipping.  The arithmetic is exact here; in [float64] the
    quotient is rounded, and sums that overflow or underflow give nan or
    zero.  The statements about the matrix are those that hold of both. *)
Definition coefficient (ps : list (R * R)) : float :=
  let divisor := sqrt (ssqdm (map fst ps) * ssqdm (map snd ps)) in
  if Req_dec_T divisor 0 then FNaN else Fin (covxy ps / divisor).

(** The entry for two columns: nan when they have no complete row. *)
Definition pearson (xs ys : list float) : float :=
  match complete_pairs xs ys with
  | [] => FNaN
  | ps => coefficient ps
  end.

Section Corr.
(** [float(text)], taken as given; [None] is a failure to parse. *)
Variable py_float : string -> option Q.

Definition to_float (c : cell) : result float :=
  match c with
  | Num q => Ok (Fin (Q2R q))
  | NaN => Ok FNaN
  | Str s =>
      match py_float s with
      | Some q => Ok (Fin (Q2R q))
      | None => Raise ValueError
      end
  end.

Definition to_float_column (col : string * Series)
  : result (string * list float) :=
  result_bind (traverse to_float (snd col)) (fun xs => Ok (fst col, xs)).

Definition corr_of_floats (cols : list (string * list float)) : FFrame :=
  map (fun cj =>
         (fst cj, map (fun ci => (fst ci, pearson (snd ci) (snd cj))) cols))
      cols.

(** [df.corr()] (pandas 2: every column is cast to float, and text that
    is no number is a [ValueError]). *)
Definition corr (df : DataFrame) : result FFrame :=
  result_bind (traverse to_float_column df) (fun cols => Ok (corr_of_floats cols)).
End Corr.

(** *** Operations on a labelled series of floats *)

(** [frame[name]] *)
Definition fframe_getitem (name : string) (m : FFrame) : result FSeries :=
  match dict_get name m with
  | Some s => Ok s
  | None => Raise (KeyError name)
  end.

(** [s.drop(label)]: every entry of that label goes; a label that is not
    there is a [KeyError]. *)
Definition drop (label : string) (s : FSeries) : result FSeries :=
  if existsb (fun e => String.eqb (fst e) label) s
  then Ok (filter (fun e => negb (String.eqb (fst e) label)) s)
  else Raise (KeyError label).

(** [s.abs()] *)
Definition series_abs (s : FSeries) : FSeries :=
  map (fun e => (fst e, abs (snd e))) s.

(** [s.sort_values(ascending=False)]: the entries that are not nan in
    descending order, then the nan entries in their original order.
    Entries of equal value stand here in their original order, as an
    insertion sort leaves them; numpy's default sort does not fix the order
    of equal values, and no statement below depends on it. *)
Definition sort_values_descending (s : FSeries) : FSeries :=
  sort (fun a b => geb (snd a) (snd b)) (filter (fun e => negb (is_nan (snd e))) s)
  ++ filter (fun e => is_nan (snd e)) s.

(** [s.index[0]] and [s.iloc[0]] *)
Definition index0 (s : FSeries) : result string :=
  match s with
  | e :: _ => Ok (fst e)
  | [] => Raise IndexError
  end.

Definition iloc0 (s : FSeries) : result float :=
  match s with
  | e :: _ => Ok (snd e)
  | [] => Raise IndexError
  end.

(** [s.max()], [s.min()]: nan entries are skipped; nan when nothing is
    left. *)
Definition series_max (s : FSeries) : float :=
  fold_right (fun e acc =>
                if is_nan (snd e) then acc
                else if is_nan acc then snd e
                else if ltb acc (snd e) then snd e else acc) FNaN s.

Definition series_min (s : FSeries) : float :=
  fold_right (fun e acc =>
                if is_nan (snd e) then acc
                else if is_nan acc then snd e
                else if ltb (snd e) acc then snd e else acc) FNaN s.

(** [s.idxmax()], [s.idxmin()]: the label of the first entry that holds the
    extreme value.  When every entry is nan the outcome depends on the
    version of pandas (nan with a warning in pandas 2, a [ValueError] from
    pandas 3); the [ValueError] stands here, and the statements about the
    extreme groups are about series with a value. *)
Definition idx_of (v : float) (s : FSeries) : result string :=
  match find (fun e => negb (is_nan (snd e)) && negb (ltb (snd e) v)
                       && negb (ltb v (snd e))) s with
  | Some e => Ok (fst e)
  | None => Raise ValueError
  end.

Definition idxmax (s : FSeries) : result string := idx_of (series_max s) s.
Definition idxmin (s : FSeries) : result string := idx_of (series_min s) s.

(** *** The bundle of results *)

Record CorrelationResult : Type := {
  matrix : FFrame;
  charges_correlations : FSeries;
  strongest_predictor : string;
  strongest_correlation : float
}.

(** A row of a table of group statistics. *)
Record GroupStats : Type := {
  stat_count : nat;
  stat_mean : float;
  stat_median : float;
  stat_std : float;
  stat_min : float;
  stat_max : float
}.

Definition GroupTable := list (string * GroupStats).

Record TestResult : Type := {
  statistic : float;
  p_value : float;
  significant : bool
}.

Inductive Insight : Type :=
| CorrelationInsight (strongest_predictor : string) (correlation_value : float)
    (interpretation : string)
| SmokingImpact (multiplier difference : float) (high_group low_group : string)
| SignificantFactors (factors : list string).

Definition Insights := list (string * Insight).

(** The value stored under a key of [analysis_results]. *)
Inductive PhaseResult : Type :=
| BasicStats
| Correlation (c : CorrelationResult)
| Groups (g : list (string * GroupTable))
| StatisticalTests (t : list (string * TestResult))
| InsightsResult (i : Insights).

Definition Bundle := list (string * PhaseResult).

Record MedicalInsuranceAnalyzer : Type := {
  df_clean : DataFrame;
  df_labeled : DataFrame;
  analysis_results : Bundle
}.

(** [__init__] *)
Definition init (df_clean : DataFrame) (df_labeled : option DataFrame)
  : MedicalInsuranceAnalyzer :=
  {| df_clean := df_clean;
     df_labeled := match df_labeled with Some df => df | None => df_clean end;
     analysis_results := [] |}.

Inductive event : Type :=
| PerformingCorrelation                       (* Performing correlation analysis... *)
| PerformingTests                             (* Performing statistical tests... *)
| GeneratingInsights.                         (* Generating insights... *)

Definition M (A : Type) : Type := method MedicalInsuranceAnalyzer event A.

Definition get_df_clean : M DataFrame :=
  fun self => (self, [], Ok (df_clean self)).

Definition get_df_labeled : M DataFrame :=
  fun self => (self, [], Ok (df_labeled self)).

Definition get_analysis_results : M Bundle :=
  fun self => (self, [], Ok (analysis_results self)).

Definition with_analysis_results (self : MedicalInsuranceAnalyzer) (b : Bundle)
  : MedicalInsuranceAnalyzer :=
  {| df_clean := df_clean self;
     df_labeled := df_labeled self;
     analysis_results := b |}.

(** [self.analysis_results[key] = value] *)
Definition set_result (key : string) (value : PhaseResult) : M unit :=
  fun self =>
    (with_analysis_results self (dict_set key value (analysis_results self)),
     [], Ok tt).

(** The values the methods read back from the bundle have the shape the
    methods stored; any other shape fails on its first subscript. *)
Definition as_correlation (v : PhaseResult) : result CorrelationResult :=
  match v with
  | Correlation c => Ok c
  | _ => Raise TypeError
  end.

Definition as_groups (v : PhaseResult) : result (list (string * GroupTable)) :=
  match v with
  | Groups g => Ok g
  | _ => Raise TypeError
  end.

Definition as_tests (v : PhaseResult) : result (list (string * TestResult)) :=
  match v with
  | StatisticalTests t => Ok t
  | _ => Raise TypeError
  end.

Section Methods.
Variable py_float : string -> option Q.

Definition correlation_analysis : M CorrelationResult :=
  print PerformingCorrelation ;;
  df <- get_df_clean ;;
  corr_matrix <- lift (corr py_float df) ;;
  charges <- lift (fframe_getitem "charges" corr_matrix) ;;
  dropped <- lift (drop "charges" charges) ;;
  let charges_corr := sort_values_descending (series_abs dropped) in
  predictor <- lift (index0 charges_corr) ;;
  correlation <- lift (iloc0 charges_corr) ;;
  let correlation_result :=
    {| matrix := corr_matrix;
       charges_correlations := charges_corr;
       strongest_predictor := predictor;
       strongest_correlation := correlation |} in
  set_result "correlation" (Correlation correlation_result) ;;
  ret correlation_result.
End Methods.

(** *** [scipy.stats]: the two tests, as the library documents them *)

(** The numbers of a sample, when every value of it is a finite number. *)
Fixpoint finite_sample (xs : list float) : option (list R) :=
  match xs with
  | [] => Some []
  | Fin r :: xs' => option_map (cons r) (finite_sample xs')
  | _ :: _ => None
  end.

Fixpoint finite_samples (samples : list (list float)) : option (list (list R)) :=
  match samples with
  | [] => Some []
  | xs :: samples' =>
      match finite_sample xs, finite_samples samples' with
      | Some g, Some gs => Some (g :: gs)
      | _, _ => None
      end
  end.

Section Scipy.
(** [float(text)], and the upper tail probabilities of Student's t
    distribution and of the F distribution, [stats.t.sf(x, df)] and
    [stats.f.sf(x, dfn, dfd)], taken as given. *)
Variable py_float : string -> option Q.
Variable t_sf : R -> R -> R.
Variable f_sf : R -> R -> R -> R.

(** The two-sided p-value of a t statistic. *)
Definition t_pvalue (df : R) (t : float) : float :=
  match t with
  | Fin x => Fin (2 * t_sf (Rabs x) df)
  | PInf | NInf => Fin 0
  | FNaN => FNaN
  end.

(** The t statistic of two independent samples with the pooled variance,
    and its two-sided p-value.  A missing value propagates; an empty
    sample, or two samples of one value each, give nan; a zero denominator
    gives an infinity or nan, not an exception. *)
Definition t_statistic (a b : list float) : float * float :=
  match finite_sample a, finite_sample b with
  | Some xs, Some ys =>
      if ((List.length xs =? 0) || (List.length ys =? 0))%nat then (FNaN, FNaN)
      else if (List.length xs + List.length ys =? 2)%nat then (FNaN, FNaN)
      else
        let n1 := INR (List.length xs) in
        let n2 := INR (List.length ys) in
        let df := n1 + n2 - 2 in
        let svar := (ssqdm xs + ssqdm ys) / df in
        let denom := sqrt (svar * (1 / n1 + 1 / n2)) in
        let t := div (Fin (mean xs - mean ys)) (Fin denom) in
        (t, t_pvalue df t)
  | _, _ => (FNaN, FNaN)
  end.

(** The p-value of an F statistic. *)
Definition f_pvalue (dfn dfd : R) (f : float) : float :=
  match f with
  | Fin x => Fin (f_sf x dfn dfd)
  | PInf => Fin 0
  | _ => FNaN
  end.

(** The F statistic of two samples or more, the ratio of the mean square
    between the groups to the mean square within them, and its p-value.  A
    missing value propagates; an empty sample gives nan; a zero denominator
    gives an infinity or nan, not an exception. *)
Definition f_statistic (samples : list (list float)) : float * float :=
  match finite_samples samples with
  | None => (FNaN, FNaN)
  | Some gs =>
      if existsb (fun g => (List.length g =? 0)%nat) gs then (FNaN, FNaN)
      else
        let alldata := List.concat gs in
        let bign := INR (List.length alldata) in
        let k := INR (List.length gs) in
        let ssbn :=
          sum (map (fun g => INR (List.length g)
                             * ((mean g - mean alldata) * (mean g - mean alldata)))
                 gs) in
        let sswn := sum (map ssqdm gs) in
        let dfbn := k - 1 in
        let dfwn := bign - k in
        let msb := ssbn / dfbn in
        let msw := div (Fin sswn) (Fin dfwn) in
        let f := div (Fin msb) msw in
        (f, f_pvalue dfbn dfwn f)
  end.

(** ['name' in df.columns] *)
Definition columns_contain (name : string) (df : DataFrame) : bool :=
  existsb (fun col => String.eqb (fst col) name) df.

(** The rows of [charges] whose label is the given value. *)
Definition rows_where (value : cell) (labels charges : Series) : Series :=
  map snd (filter (fun lc => cell_eqb (fst lc) value) (combine labels charges)).

(** [df[df[label] == value]['charges']] *)
Definition charges_where (label value : string) (df : DataFrame) : result Series :=
  result_bind (getitem label df) (fun labels =>
  result_bind (getitem "charges" df) (fun charges =>
  Ok (rows_where (Str value) labels charges))).

(** The keys of [df.groupby(label)]: the distinct values of the column that
    are not missing, sorted, numbers before text. *)
Definition group_keys (labels : Series) : Series :=
  let keys := unique (dropna labels) in
  sort cell_leb (filter is_num keys) ++ sort cell_leb (filter is_str keys).

(** [[group['charges'].values for name, group in df.groupby(label)]] *)
Definition groupby_charges (label : string) (df : DataFrame)
  : result (list Series) :=
  result_bind (getitem label df) (fun labels =>
  traverse (fun key =>
              result_bind (getitem "charges" df) (fun charges =>
              Ok (rows_where key labels charges)))
           (group_keys labels)).

(** A sample as the array [ttest_ind] computes on: the values as they
    are, on which the arithmetic refuses text. *)
Definition sample_cell (c : cell) : result float :=
  match c with
  | Num q => Ok (Fin (Q2R q))
  | NaN => Ok FNaN
  | Str _ => Raise TypeError
  end.

Definition sample_of (s : Series) : result (list float) :=
  traverse sample_cell s.

(** [stats.ttest_ind(a, b)] *)
Definition ttest_ind (a b : Series) : result (float * float) :=
  result_bind (sample_of a) (fun xs =>
  result_bind (sample_of b) (fun ys =>
  Ok (t_statistic xs ys))).

(** [stats.f_oneway], given the samples: fewer than two samples are a
    [TypeError]; every sample is cast to an array of floats, text through
    [float()], before the statistic is computed. *)
Definition f_oneway (samples : list Series) : result (float * float) :=
  if (List.length samples <? 2)%nat then Raise TypeError
  else
    result_bind (traverse (traverse (to_float py_float)) samples) (fun arrays =>
    Ok (f_statistic arrays)).

(** The entry of a t-test between the rows of two labels. *)
Definition ttest_of (label value1 value2 : string) (df : DataFrame)
  : result TestResult :=
  result_bind (charges_where label value1 df) (fun charges1 =>
  result_bind (charges_where label value2 df) (fun charges2 =>
  result_bind (ttest_ind charges1 charges2) (fun tp =>
  Ok {| statistic := fst tp;
        p_value := snd tp;
        significant := ltb (snd tp) (Fin (5 / 100)) |}))).

(** The entry of the analysis of variance between the groups of a label. *)
Definition anova_of (label : string) (df : DataFrame) : result TestResult :=
  result_bind (groupby_charges label df) (fun groups =>
  result_bind (f_oneway groups) (fun fp =>
  Ok {| statistic := fst fp;
        p_value := snd fp;
        significant := ltb (snd fp) (Fin (5 / 100)) |})).

Definition statistical_tests : M (list (string * TestResult)) :=
  print PerformingTests ;;
  let test_results : list (string * TestResult) := [] in
  df <- get_df_labeled ;;
  test_results <-
    (if columns_contain "smoker_label" df then
       entry <- lift (ttest_of "smoker_label" "yes" "no" df) ;;
       ret (dict_set "smoker_ttest" entry test_results)
     else ret test_results) ;;
  df <- get_df_labeled ;;
  test_results <-
    (if columns_contain "sex_label" df then
       entry <- lift (ttest_of "sex_label" "male" "female" df) ;;
       ret (dict_set "sex_ttest" entry test_results)
     else ret test_results) ;;
  df <- get_df_labeled ;;
  test_results <-
    (if columns_contain "region_label" df then
       entry <- lift (anova_of "region_label" df) ;;
       ret (dict_set "region_anova" entry test_results)
     else ret test_results) ;;
  set_result "statistical_tests" (StatisticalTests test_results) ;;
  ret test_results.
End Scipy.

(** [_interpret_correlation] *)
Definition _interpret_correlation (corr_value : float) : string :=
  let abs_corr := abs corr_value in
  if geb abs_corr (Fin (7 / 10)) then "Strong"
  else if geb abs_corr (Fin (5 / 10)) then "Moderate"
  else if geb abs_corr (Fin (3 / 10)) then "Weak"
  else "Very weak".

(** [s.replace(old, '')] on text: every occurrence of [old] goes, from the
    left, without overlap. *)
Fixpoint remove_all_from (fuel : nat) (old s : string) : string :=
  match fuel with
  | O => s
  | S fuel' =>
      if String.prefix old s
      then remove_all_from fuel' old
             (String.substring (String.length old)
                (String.length s - String.length old) s)
      else match s with
           | EmptyString => EmptyString
           | String c s' => String c (remove_all_from fuel' old s')
           end
  end.

Definition remove_all (old s : string) : string :=
  remove_all_from (S (String.length s)) old s.

(** The loop over [test_data.items()]. *)
Definition significant_factors_of (test_data : list (string * TestResult))
  : list string :=
  map (fun kv => remove_all "_anova" (remove_all "_ttest" (fst kv)))
      (filter (fun kv => significant (snd kv)) test_data).

Definition generate_insights : M Insights :=
  print GeneratingInsights ;;
  let insights : Insights := [] in
  results <- get_analysis_results ;;
  insights <-
    match dict_get "correlation" results with
    | Some v =>
        corr_data <- lift (as_correlation v) ;;
        ret (dict_set "correlations"
               (CorrelationInsight
                  (strongest_predictor corr_data)
                  (strongest_correlation corr_data)
                  (_interpret_correlation (strongest_correlation corr_data)))
               insights)
    | None => ret insights
    end ;;
  results <- get_analysis_results ;;
  insights <-
    match dict_get "groups" results with
    | Some v =>
        group_data <- lift (as_groups v) ;;
        match dict_get "smoker" group_data with
        | Some smoker_table =>
            let smoker_means :=
              map (fun row => (fst row, stat_mean (snd row))) smoker_table in
            if (2 <=? List.length smoker_means)%nat then
              let smoker_multiplier :=
                div (series_max smoker_means) (series_min smoker_means) in
              high_group <- lift (idxmax smoker_means) ;;
              low_group <- lift (idxmin smoker_means) ;;
              ret (dict_set "smoking_impact"
                     (SmokingImpact smoker_multiplier
                        (sub (series_max smoker_means) (series_min smoker_means))
                        high_group low_group)
                     insights)
            else ret insights
        | None => ret insights
        end
    | None => ret insights
    end ;;
  results <- get_analysis_results ;;
  insights <-
    match dict_get "statistical_tests" results with
    | Some v =>
        test_data <- lift (as_tests v) ;;
        ret (dict_set "significant_factors"
               (SignificantFactors (significant_factors_of test_data))
               insights)
    | None => ret insights
    end ;;
  set_result "insights" (InsightsResult insights) ;;
  ret insights.

End Analyzer.

(** ** The statements of the specification about the cleaner *)

Module CleanerSpec.
Import Pandas Loader.

(** The sequencing errors as the specification words them: cleaning before
    loading is a [NotLoadedError], labeling before cleaning is a
    [NotCleanedError]. *)
Definition sequencing_errors_as_specified
  (str_to_num : string -> option Q) (py_int : string -> option Z)
  (self : MedicalInsuranceDataLoader) : Prop :=
  (df_raw self = None ->
   raises_named "NotLoadedError" (clean_data str_to_num py_int self)) /\
  (df_clean self = None ->
   raises_named "NotCleanedError" (create_labeled_data self)).

(** A raw value is unparseable when [pd.to_numeric] finds no number in
    it. *)
Definition unparseable (str_to_num : string -> option Q) (c : cell) : bool :=
  is_null (coerced str_to_num c).

(** The numbers of the parseable values of a raw column. *)
Definition parseable_values (str_to_num : string -> option Q) (raw : Series)
  : list Q :=
  numeric_values (map (coerced str_to_num) raw).

(** The number of unparseable values of a raw column. *)
Definition missing_count (str_to_num : string -> option Q) (raw : Series) : nat :=
  List.length (filter (unparseable str_to_num) raw).

(** The raw column with every parseable value parsed and every unparseable
    one replaced by the median of the parseable ones. *)
Definition imputed_age (str_to_num : string -> option Q) (raw : Series) : Series :=
  map (fun c => if unparseable str_to_num c
                then median_of (parseable_values str_to_num raw)
                else coerced str_to_num c) raw.

(** The value line 130 binds to [smoker_mode], for the smoker column as it
    stands then. *)
Definition smoker_mode_of (smoker : Series) : result cell :=
  if negb (question_mark_in_str (mode smoker)) then series_getitem0 (mode smoker)
  else Ok (Str "0").

(** The sentinel of the smoker column, and the values that are not it. *)
Definition sentinel : cell := Str "?".

Definition non_sentinel (s : Series) : Series :=
  filter (fun c => negb (cell_eqb c sentinel)) s.

(** What the rest of the cleaning makes of a value put into the smoker
    column: [pd.to_numeric], then the cast to [int]. *)
Definition cleaned_value (str_to_num : string -> option Q)
  (py_int : string -> option Z) (c : cell) : result cell :=
  result_bind (to_numeric_cell str_to_num errors_raise c) (astype_int_cell py_int).

(** The replacement of the sentinel as the specification words it: when the
    non-sentinel values have one mode, every sentinel of the raw column
    holds, in the cleaned column, what cleaning makes of that mode. *)
Definition sentinel_replacement_as_specified
  (str_to_num : string -> option Q) (py_int : string -> option Z)
  (raw : DataFrame) : Prop :=
  forall smoker m self' out cleaned,
    get_col "smoker" raw = Some smoker ->
    mode (non_sentinel smoker) = [m] ->
    clean_data str_to_num py_int (loaded raw) = (self', out, Ok (Some cleaned)) ->
    exists cleaned_smoker v,
      get_col "smoker" cleaned = Some cleaned_smoker /\
      cleaned_value str_to_num py_int m = Ok v /\
      forall i, nth_error smoker i = Some sentinel ->
                nth_error cleaned_smoker i = Some v.


(** The path of a run of [clean_data] that returns: the columns it reads,
    the values it computes on the way, and the table it returns. *)
Inductive cleans (str_to_num : string -> option Q) (py_int : string -> option Z)
  (raw : DataFrame) : DataFrame -> Prop :=
| cleans_intro
    (raw_age smoker smoker_num age_int sex sex_int children children_int
       smoker_int region region_int : Series) (m : cell) :
    get_col "age" raw = Some raw_age ->
    get_col "smoker" raw = Some smoker ->
    smoker_mode_of smoker = Ok m ->
    to_numeric str_to_num errors_raise (replace sentinel m smoker) = Ok smoker_num ->
    astype_int py_int (imputed_age str_to_num raw_age) = Ok age_int ->
    get_col "sex" raw = Some sex ->
    astype_int py_int sex = Ok sex_int ->
    get_col "children" raw = Some children ->
    astype_int py_int children = Ok children_int ->
    astype_int py_int smoker_num = Ok smoker_int ->
    get_col "region" raw = Some region ->
    astype_int py_int region = Ok region_int ->
    cleans str_to_num py_int raw
      (set_col "region" region_int
         (set_col "smoker" smoker_int
            (set_col "children" children_int
               (set_col "sex" sex_int
                  (set_col "age" age_int
                     (set_col "smoker" smoker_num
                        (set_col "age" (imputed_age str_to_num raw_age) raw))))))).

(** The cell holds an integer. *)
Definition is_integer (c : cell) : Prop := exists z, c = Num (inject_Z z).

(** The columns the cleaner casts to [int]. *)
Definition integer_columns : list string :=
  ["age"; "sex"; "children"; "smoker"; "region"].

(** The cell holds the integer code [k]. *)
Definition has_code (c : cell) (k : Z) : Prop :=
  exists q, c = Num q /\ (q == inject_Z k)%Q.

(** [l] is the label of the cell [c] under a code-to-label mapping: the
    label of its code when the code is in the mapping, missing otherwise. *)
Definition labelled_by (mapping : list (Z * string)) (c l : cell) : Prop :=
  (forall k v, In (k, v) mapping -> has_code c k -> l = Str v) /\
  ((forall k v, In (k, v) mapping -> ~ has_code c k) -> l = NaN).

(** Row by row, the column [labels] is the labeling of the column [codes]. *)
Definition column_labelled_by (mapping : list (Z * string))
  (codes labels : Series) : Prop :=
  List.length labels = List.length codes /\
  forall i c, nth_error codes i = Some c ->
    exists l, nth_error labels i = Some l /\ labelled_by mapping c l.

(** No column of the table holds a missing value. *)
Definition no_nulls (df : DataFrame) : Prop :=
  forall name col, In (name, col) df -> isnull_sum col = 0.

(** Every cell of the column holds a code of the domain. *)
Definition codes_in (domain : list Z) (col : Series) : Prop :=
  forall c, In c col -> exists k, In k domain /\ has_code c k.

(** The categorical codes of the table lie in their declared domains. *)
Definition codes_in_domain (df : DataFrame) : Prop :=
  (forall col, get_col "sex" df = Some col -> codes_in [1; 2]%Z col) /\
  (forall col, get_col "smoker" df = Some col -> codes_in [0; 1]%Z col) /\
  (forall col, get_col "region" df = Some col -> codes_in [1; 2; 3; 4]%Z col).

(** The invariant of the clean table as the specification words it, in its
    two parts: a raw table that [clean_data] accepts comes out with no
    missing value in any column, and with every categorical code in its
    domain. *)
Definition no_nulls_after_clean
  (str_to_num : string -> option Q) (py_int : string -> option Z)
  (raw : DataFrame) : Prop :=
  forall self' out cleaned,
    clean_data str_to_num py_int (loaded raw) = (self', out, Ok (Some cleaned)) ->
    no_nulls cleaned.

Definition codes_in_domain_after_clean
  (str_to_num : string -> option Q) (py_int : string -> option Z)
  (raw : DataFrame) : Prop :=
  forall self' out cleaned,
    clean_data str_to_num py_int (loaded raw) = (self', out, Ok (Some cleaned)) ->
    codes_in_domain cleaned.

Definition sex_labels : list (Z * string) := [(1%Z, "male"); (2%Z, "female")].
Definition smoker_labels : list (Z * string) := [(0%Z, "no"); (1%Z, "yes")].
Definition region_labels : list (Z * string) :=
  [(1%Z, "northeast"); (2%Z, "northwest"); (3%Z, "southeast"); (4%Z, "southwest")].

End CleanerSpec.

(** ** The statements of the specification about the analyzer *)

Module AnalyzerSpec.
Import Pandas Float Analyzer.

(** The entry of a matrix in its i-th column and j-th row. *)
Definition entry (m : FFrame) (i j : nat) : option float :=
  match nth_error m i with
  | Some col => option_map snd (nth_error (snd col) j)
  | None => None
  end.





(** The list holds at most one value. *)
Definition all_equal (vs : list R) : Prop :=
  forall a b, In a vs -> In b vs -> a = b.

(** The failure on a missing [charges] column as the specification words
    it. *)
Definition missing_charges_as_specified (py_float : string -> option Q)
  (self : MedicalInsuranceAnalyzer) : Prop :=
  get_col "charges" (df_clean self) = None ->
  raises_named "MissingColumnError" (correlation_analysis py_float self).

(** The reported correlation as the specification words it: the signed
    correlation of the strongest predictor with [charges], that is, the
    entry of the matrix in the column [charges] and the row of the
    predictor. *)
Definition strongest_correlation_signed_as_specified
  (py_float : string -> option Q) (self : MedicalInsuranceAnalyzer) : Prop :=
  forall self' out res m charges r,
    correlation_analysis py_float self = (self', out, Ok res) ->
    corr py_float (df_clean self) = Ok m ->
    dict_get "charges" m = Some charges ->
    dict_get (strongest_predictor res) charges = Some r ->
    strongest_correlation res = r.

(** The order of two correlations by absolute value, a nan below every
    number. *)
Definition abs_le (a b : float) : Prop :=
  is_nan a = true \/ (is_nan b = false /\ leb (abs a) (abs b) = true).



(** Tables of the examples. *)
Definition decreasing_charges : DataFrame :=
  [("age", ints [1; 2; 3]%Z); ("charges", ints [3; 2; 1]%Z)].


Definition no_charges : DataFrame :=
  [("age", ints [19; 18]%Z); ("bmi", [Num (279 # 10); Num 33])].

(** The columns of [constant_sex] as floats, and its correlation matrix. *)
Definition floats (l : list Z) : list float :=
  map (fun z => Fin (Q2R (inject_Z z))) l.


Definition decreasing_charges_matrix : FFrame :=
  corr_of_floats [("age", floats [1; 2; 3]%Z); ("charges", floats [3; 2; 1]%Z)].

(** The example of the specification: smokers and non-smokers with the
    charges 100, 100, 100 each. *)
Definition constant_groups : DataFrame :=
  [("charges", [Num 100; Num 100; Num 100; Num 100; Num 100; Num 100]);
   ("smoker_label",
    [Str "yes"; Str "yes"; Str "yes"; Str "no"; Str "no"; Str "no"])].

(** Smokers and non-smokers, and two regions, with the charges 100, 200,
    300 each. *)
Definition identical_groups : DataFrame :=
  [("charges", [Num 100; Num 200; Num 300; Num 100; Num 200; Num 300]);
   ("smoker_label",
    [Str "yes"; Str "yes"; Str "yes"; Str "no"; Str "no"; Str "no"]);
   ("region_label",
    [Str "northeast"; Str "northeast"; Str "northeast";
     Str "southwest"; Str "southwest"; Str "southwest"])].

(** A labeled table of one region. *)
Definition one_region : DataFrame :=
  [("charges", [Num 100; Num 200; Num 300]);
   ("region_label", [Str "northeast"; Str "northeast"; Str "northeast"])].

(** A table with two predictors, and its correlation matrix. *)
Definition two_predictors : DataFrame :=
  [("age", ints [1; 2; 3]%Z); ("bmi", ints [1; 3; 2]%Z);
   ("charges", ints [3; 2; 1]%Z)].

Definition two_predictors_matrix : FFrame :=
  corr_of_floats [("age", floats [1; 2; 3]%Z); ("bmi", floats [1; 3; 2]%Z);
                  ("charges", floats [3; 2; 1]%Z)].

End AnalyzerSpec.

(** ** Notions used in the further properties of the cleaner *)

Module CleanerFrame.
Import Pandas Loader.

(** A method keeps a relation between the object before the call and the
    object after it, however the call ends. *)
Definition keeps {S E A : Type} (R : S -> S -> Prop) (m : method S E A) : Prop :=
  forall self self' out r, m self = (self', out, r) -> R self self'.

(** Two loaders that differ in [df_clean] at most. *)
Definition same_but_df_clean (self self' : MedicalInsuranceDataLoader) : Prop :=
  url self' = url self /\
  local_path self' = local_path self /\
  df_raw self' = df_raw self /\
  label_mappings self' = label_mappings self.

(** The names of the columns of a table with the number of their rows, in
    the order of the columns. *)
Definition shape (df : DataFrame) : list (string * nat) :=
  map (fun col => (fst col, List.length (snd col))) df.


(** The integers of numpy's [int64], the type [astype(int)] casts to. *)
Definition in_int64 (z : Z) : Prop := (- 2 ^ 63 <= z < 2 ^ 63)%Z.


(** The cell holds an integer of [int64]. *)
Definition is_int64 (c : cell) : Prop :=
  exists z, c = Num (inject_Z z) /\ in_int64 z.

(** The columns [create_labeled_data] adds. *)
Definition label_columns : list string :=
  ["sex_label"; "smoker_label"; "region_label"].

(** A raw table without an age column, a raw table without a row, and a raw
    table in which no age can be read. *)
Definition no_age : DataFrame :=
  [("sex", ints [2; 1]%Z); ("smoker", ints [1; 0]%Z)].

Definition no_rows : DataFrame :=
  [("age", []); ("sex", []); ("bmi", []); ("children", []); ("smoker", []);
   ("region", []); ("charges", [])].

Definition no_readable_age : DataFrame :=
  [("age", [Str "n/a"; NaN]);
   ("sex", ints [2; 1]%Z);
   ("bmi", [Num (279 # 10); Num 33]);
   ("children", ints [0; 1]%Z);
   ("smoker", ints [1; 0]%Z);
   ("region", ints [4; 3]%Z);
   ("charges", [Num 16884; Num 1725])].

(** A raw table, read from text, with ages that are no integers. *)
Definition fractional_ages : DataFrame :=
  [("age", [Num (61 # 2); Str "?"; Num 40; Num (-3 # 2)]);
   ("sex", ints [2; 1; 1; 2]%Z);
   ("bmi", [Num (279 # 10); Num 33; Num 30; Num 25]);
   ("children", ints [0; 1; 3; 2]%Z);
   ("smoker", [Str "1"; Str "0"; Str "?"; Str "0"]);
   ("region", ints [4; 3; 3; 1]%Z);
   ("charges", [Num 16884; Num 1725; Num 4449; Num 2000])].

End CleanerFrame.

(** ** Notions used in the further properties of the analyzer *)

Module AnalyzerFrame.
Import Pandas Float Analyzer.
Local Open Scope R_scope.

Definition is_finite (x : float) : bool :=
  match x with
  | Fin _ => true
  | _ => false
  end.




(** Under each of the keys the methods read back, the bundle holds a value
    of the shape the method of that key stores. *)
Definition well_formed (b : Bundle) : Prop :=
  (forall v, dict_get "correlation" b = Some v -> exists c, v = Correlation c) /\
  (forall v, dict_get "groups" b = Some v -> exists g, v = Groups g) /\
  (forall v, dict_get "statistical_tests" b = Some v ->
     exists t, v = StatisticalTests t).

(** The cell is a number, a missing value, or text that [float()] reads. *)
Definition readable (py_float : string -> option Q) (c : cell) : Prop :=
  forall s, c = Str s -> py_float s <> None.

(** The label columns [statistical_tests] looks for, with the key it
    stores the test of each one under. *)
Definition test_keys : list (string * string) :=
  [("smoker_label", "smoker_ttest"); ("sex_label", "sex_ttest");
   ("region_label", "region_anova")].

(** The keys [statistical_tests] stores, with the factor each one names. *)
Definition factor_names : list (string * string) :=
  [("smoker_ttest", "smoker"); ("sex_ttest", "sex"); ("region_anova", "region")].

(** Tables and bundles of the examples. *)
Definition only_charges : DataFrame := [("charges", ints [3; 2; 1]%Z)].

Definition text_bmi : DataFrame :=
  [("bmi", [Num 27; Str "n/a"]); ("charges", ints [1; 2]%Z)].

Definition one_row_group (m : float) : GroupStats :=
  {| stat_count := 1; stat_mean := m; stat_median := m; stat_std := FNaN;
     stat_min := m; stat_max := m |}.

Definition smoker_groups : list (string * GroupTable) :=
  [("smoker", [("no", one_row_group (Fin 10)); ("yes", one_row_group (Fin 30))])].

Definition one_smoker_group : list (string * GroupTable) :=
  [("smoker", [("no", one_row_group (Fin 10))])].

Definition two_tests : list (string * TestResult) :=
  [("smoker_ttest", {| statistic := Fin 5; p_value := Fin 0; significant := true |});
   ("sex_ttest", {| statistic := Fin 0; p_value := Fin 1; significant := false |})].

End AnalyzerFrame.

(** * Properties of the cleaner *)

Import Pandas Loader CleanerSpec.

(** ** Columns of a table *)

Lemma get_col_set_col_same name s df :
  get_col name (set_col name s df) = Some s.
Proof.
  induction df as [|[n s0] df IH]; simpl.
  - rewrite String.eqb_refl. reflexivity.
  - destruct (String.eqb n name) eqn:E; simpl; rewrite E; auto.
Qed.

Lemma get_col_set_col_other name name' s df :
  name <> name' ->
  get_col name' (set_col name s df) = get_col name' df.
Proof.
  intros Hne. induction df as [|[n s0] df IH]; simpl.
  - destruct (String.eqb_spec name name'); [contradiction | reflexivity].
  - destruct (String.eqb_spec n name) as [->|Hn]; simpl.
    + destruct (String.eqb_spec name name'); [contradiction | reflexivity].
    + rewrite IH. reflexivity.
Qed.

Lemma set_col_set_col name s s' df :
  set_col name s' (set_col name s df) = set_col name s' df.
Proof.
  induction df as [|[n s0] df IH]; simpl.
  - rewrite String.eqb_refl. reflexivity.
  - destruct (String.eqb n name) eqn:E; simpl; rewrite E; [reflexivity|].
    rewrite IH. reflexivity.
Qed.

(** ** Running the methods step by step *)

Lemma bind_run_ok S E A B (m : method S E A) (f : A -> method S E B)
  self self1 out1 a self2 out2 r :
  m self = (self1, out1, Ok a) ->
  f a self1 = (self2, out2, r) ->
  bind m f self = (self2, out1 ++ out2, r).
Proof. intros Hm Hf. unfold bind. rewrite Hm, Hf. reflexivity. Qed.

Lemma bind_run_raise S E A B (m : method S E A) (f : A -> method S E B)
  self self1 out1 e :
  m self = (self1, out1, Raise e) ->
  bind m f self = (self1, out1, Raise e).
Proof. intros Hm. unfold bind. rewrite Hm. reflexivity. Qed.

Lemma bind_ok_inv S E A B (m : method S E A) (f : A -> method S E B)
  self self2 out b :
  bind m f self = (self2, out, Ok b) ->
  exists self1 out1 a out2,
    m self = (self1, out1, Ok a) /\
    f a self1 = (self2, out2, Ok b) /\
    out = out1 ++ out2.
Proof.
  unfold bind. destruct (m self) as [[self1 out1] [a|e]]; [|discriminate].
  destruct (f a self1) as [[s2 o2] r] eqn:Hf. intros H. inversion H; subst.
  exists self1, out1, a, o2. auto.
Qed.

Lemma clean_getitem_run name self df s :
  df_clean self = Some df ->
  get_col name df = Some s ->
  clean_getitem name self = (self, [], Ok s).
Proof.
  intros Hc Hg. unfold clean_getitem, bind, get_df_clean, lift, getitem.
  rewrite Hc, Hg. reflexivity.
Qed.

Lemma clean_getitem_missing name self df :
  df_clean self = Some df ->
  get_col name df = None ->
  clean_getitem name self = (self, [], Raise (KeyError name)).
Proof.
  intros Hc Hg. unfold clean_getitem, bind, get_df_clean, lift, getitem.
  rewrite Hc, Hg. reflexivity.
Qed.

Lemma clean_setitem_run name s self df :
  df_clean self = Some df ->
  clean_setitem name s self = (with_df_clean self (set_col name s df), [], Ok tt).
Proof.
  intros Hc. unfold clean_setitem, bind, get_df_clean, set_df_clean.
  rewrite Hc. reflexivity.
Qed.

Lemma with_df_clean_twice self df df' :
  with_df_clean (with_df_clean self df) df' = with_df_clean self df'.
Proof. reflexivity. Qed.

Ltac run_getitem :=
  eapply bind_run_ok;
  [ eapply clean_getitem_run;
    [ first [eassumption | reflexivity]
    | first [eassumption | apply get_col_set_col_same] ] | ].

Ltac run_setitem :=
  eapply bind_run_ok;
  [ eapply clean_setitem_run; first [eassumption | reflexivity] | ].

Ltac run_print := eapply bind_run_ok; [ reflexivity | ].

(** ** Marking of parse failures *)

Lemma to_numeric_coerce str_to_num (s : Series) :
  to_numeric str_to_num errors_coerce s = Ok (map (coerced str_to_num) s).
Proof.
  unfold to_numeric. induction s as [|c s IH]; simpl; [reflexivity|].
  rewrite IH. destruct c as [q| |t]; simpl; try reflexivity.
  destruct (str_to_num t); reflexivity.
Qed.

Lemma coerced_no_text str_to_num (s : Series) :
  existsb is_str (map (coerced str_to_num) s) = false.
Proof.
  induction s as [|c s IH]; simpl; [reflexivity|].
  rewrite IH. destruct c as [q| |t]; simpl; try reflexivity.
  destruct (str_to_num t); reflexivity.
Qed.

Lemma fillna_no_null value (s : Series) :
  isnull_sum s = 0 -> fillna value s = s.
Proof.
  unfold isnull_sum, fillna. induction s as [|c s IH]; simpl; [reflexivity|].
  destruct (is_null c) eqn:E; simpl; [discriminate|].
  intros H. rewrite IH by assumption. reflexivity.
Qed.

Lemma numeric_or_null_count (s : Series) :
  existsb is_str s = false ->
  List.length (numeric_values s) + isnull_sum s = List.length s.
Proof.
  unfold isnull_sum, numeric_values.
  induction s as [|c s IH]; simpl; [reflexivity|].
  destruct c as [q| |t]; simpl; intros H; try discriminate;
    rewrite <- (IH H); lia.
Qed.

(** ** The age column *)

Lemma missing_count_isnull str_to_num (raw : Series) :
  missing_count str_to_num raw = isnull_sum (map (coerced str_to_num) raw).
Proof.
  unfold missing_count, unparseable, isnull_sum.
  induction raw as [|c s IH]; simpl; [reflexivity|].
  destruct (is_null (coerced str_to_num c)); simpl; rewrite IH; reflexivity.
Qed.

Lemma imputed_age_fillna str_to_num (raw : Series) :
  imputed_age str_to_num raw =
  fillna (median_of (parseable_values str_to_num raw))
         (map (coerced str_to_num) raw).
Proof. unfold imputed_age, fillna, unparseable. rewrite map_map. reflexivity. Qed.

(** The block that cleans the age column completes on every table that has
    an age column, and this is what it leaves and prints. *)
Lemma clean_age_run str_to_num self df raw_age :
  df_clean self = Some df ->
  get_col "age" df = Some raw_age ->
  clean_age str_to_num self =
    (with_df_clean self (set_col "age" (imputed_age str_to_num raw_age) df),
     CleaningAge ::
       (if 0 <? missing_count str_to_num raw_age
        then [FilledAge (missing_count str_to_num raw_age)
                (median_of (parseable_values str_to_num raw_age))]
        else []),
     Ok tt).
Proof.
  intros Hclean Hage.
  rewrite imputed_age_fillna, missing_count_isnull.
  unfold parseable_values.
  set (parsed := map (coerced str_to_num) raw_age).
  assert (Htxt : existsb is_str parsed = false) by apply coerced_no_text.
  destruct (0 <? isnull_sum parsed) eqn:E.
  - etransitivity.
    + unfold clean_age. run_print. run_getitem.
      eapply bind_run_ok; [unfold lift; rewrite to_numeric_coerce; reflexivity|].
      run_setitem. run_getitem. fold parsed. rewrite E.
      run_getitem.
      eapply bind_run_ok; [unfold lift, median; rewrite Htxt; reflexivity|].
      run_getitem. run_setitem. reflexivity.
    + simpl. rewrite with_df_clean_twice, set_col_set_col. reflexivity.
  - etransitivity.
    + unfold clean_age. run_print. run_getitem.
      eapply bind_run_ok; [unfold lift; rewrite to_numeric_coerce; reflexivity|].
      run_setitem. run_getitem. fold parsed. rewrite E.
      reflexivity.
    + simpl. apply Nat.ltb_ge in E.
      rewrite fillna_no_null by lia. reflexivity.
Qed.

Lemma clean_age_no_column str_to_num self df :
  df_clean self = Some df ->
  get_col "age" df = None ->
  clean_age str_to_num self = (self, [CleaningAge], Raise (KeyError "age")).
Proof.
  intros Hclean Hage. unfold clean_age.
  change [CleaningAge] with ([CleaningAge] ++ []). run_print.
  eapply bind_run_raise. eapply clean_getitem_missing; eassumption.
Qed.

(** The block that cleans the age column, run on a table whose age
    column is [raw_age], always completes.  With N the number of parseable
    raw values and M the number of unparseable ones: N + M is the number of
    rows; in the column the block leaves, every unparseable value is
    replaced by the median of exactly the N parseable values (computed from
    the raw column, so no imputed value enters it) and every parseable
    value is kept as parsed; when M > 0 the block reports the count M
    together with that median, and it reports nothing when M = 0. *)
Lemma clean_age_block :
  forall (str_to_num : string -> option Q)
         (self : MedicalInsuranceDataLoader) (df : DataFrame) (raw_age : Series),
    df_clean self = Some df ->
    get_col "age" df = Some raw_age ->
    let N := List.length (parseable_values str_to_num raw_age) in
    let M := missing_count str_to_num raw_age in
    let age_median := median_of (parseable_values str_to_num raw_age) in
    exists cleaned_age,
      clean_age str_to_num self =
        (with_df_clean self (set_col "age" cleaned_age df),
         CleaningAge :: (if 0 <? M then [FilledAge M age_median] else []),
         Ok tt) /\
      N + M = List.length raw_age /\
      List.length cleaned_age = List.length raw_age /\
      forall i c, nth_error raw_age i = Some c ->
        nth_error cleaned_age i =
          Some (if unparseable str_to_num c then age_median
                else coerced str_to_num c).
Proof.
  intros str_to_num self df raw_age Hclean Hage N M age_median.
  exists (imputed_age str_to_num raw_age).
  split; [|split; [|split]].
  - apply clean_age_run; assumption.
  - unfold N, M, parseable_values. rewrite missing_count_isnull.
    rewrite numeric_or_null_count by apply coerced_no_text.
    apply length_map.
  - unfold imputed_age. apply length_map.
  - intros i c Hi. unfold imputed_age. rewrite nth_error_map, Hi. reflexivity.
Qed.

(** The block on an age column with two readable and two unreadable
    values: the median 13.5 of 12 and 15 is imputed, and 2 is reported. *)
Example clean_age_unreadable :
  clean_age parse_num (with_df_clean (loaded unreadable_ages) unreadable_ages) =
    (with_df_clean (loaded unreadable_ages)
       [("age", [Num 12; Num (27 # 2); Num (27 # 2); Num 15])],
     [CleaningAge; FilledAge 2 (Num (27 # 2))], Ok tt).
Proof. reflexivity. Qed.

(** ** Calls out of sequence *)

(** C3, refuted as stated: on a loader that has loaded nothing, neither
    method raises; there is no [NotLoadedError] and no [NotCleanedError]. *)
Lemma sequencing_errors_counterexample :
  ~ sequencing_errors_as_specified parse_num parse_int (init None None).
Proof.
  intros [Hclean _]. destruct (Hclean eq_refl) as [e [Hrun _]].
  vm_compute in Hrun. discriminate Hrun.
Qed.

(** C3, as the code has it: cleaning before a raw table exists prints a
    message and returns [None]; labeling before cleaning prints a message
    and returns [None]; neither raises and neither changes the loader. *)
Theorem sequencing_violations_return_none :
  forall (str_to_num : string -> option Q) (py_int : string -> option Z)
         (self : MedicalInsuranceDataLoader),
    (df_raw self = None ->
     clean_data str_to_num py_int self = (self, [NoRawData], Ok None)) /\
    (df_clean self = None ->
     create_labeled_data self = (self, [NoCleanData], Ok None)).
Proof.
  intros str_to_num py_int self. split; intros H.
  - unfold clean_data, bind, get_df_raw. rewrite H. reflexivity.
  - unfold create_labeled_data, bind, get_df_clean. rewrite H. reflexivity.
Qed.

Lemma sequencing_violations_return_none_witness :
  clean_data parse_num parse_int (init None None)
    = (init None None, [NoRawData], Ok None) /\
  create_labeled_data (init None None)
    = (init None None, [NoCleanData], Ok None).
Proof.
  split.
  - exact (proj1 (sequencing_violations_return_none parse_num parse_int
                    (init None None)) eq_refl).
  - exact (proj2 (sequencing_violations_return_none parse_num parse_int
                    (init None None)) eq_refl).
Defined.

(** ** Labels *)

Lemma assoc_functional (mapping : list (Z * string)) k v v' :
  NoDup (map fst mapping) ->
  In (k, v) mapping -> In (k, v') mapping -> v = v'.
Proof.
  induction mapping as [|[k0 v0] m IH]; simpl; [contradiction|].
  intros Hnd [H1|H1] [H2|H2]; inversion Hnd as [|? ? Hnotin Hnd']; subst.
  - congruence.
  - inversion H1; subst. exfalso. apply Hnotin.
    change k with (fst (k, v')). apply in_map. assumption.
  - inversion H2; subst. exfalso. apply Hnotin.
    change k with (fst (k, v)). apply in_map. assumption.
  - auto.
Qed.

Lemma inject_Z_eq (a b : Z) : (inject_Z a == inject_Z b)%Q -> a = b.
Proof. unfold Qeq, inject_Z. simpl. lia. Qed.

Lemma dict_get_labelled (mapping : list (Z * string)) (c : cell) :
  NoDup (map fst mapping) ->
  labelled_by mapping c (dict_get mapping c).
Proof.
  intros Hnd. split.
  - intros k v Hin [q [-> Hq]]. simpl.
    destruct (find _ mapping) as [[k' v']|] eqn:Hfind.
    + apply find_some in Hfind. destruct Hfind as [Hin' Heq].
      simpl in Heq. apply Qeq_bool_iff in Heq.
      assert (k = k') by (apply inject_Z_eq; rewrite <- Hq; exact Heq).
      subst k'. simpl. f_equal. symmetry.
      eapply assoc_functional; eassumption.
    + exfalso. pose proof (find_none _ _ Hfind _ Hin) as Hno. simpl in Hno.
      apply Qeq_bool_iff in Hq. congruence.
  - intros Hout. destruct c as [q| |t]; simpl; try reflexivity.
    destruct (find _ mapping) as [[k' v']|] eqn:Hfind; [|reflexivity].
    apply find_some in Hfind. destruct Hfind as [Hin' Heq].
    simpl in Heq. apply Qeq_bool_iff in Heq.
    exfalso. apply (Hout k' v' Hin'). exists q. auto.
Qed.

Lemma map_dict_labelled (mapping : list (Z * string)) (codes : Series) :
  NoDup (map fst mapping) ->
  column_labelled_by mapping codes (map_dict mapping codes).
Proof.
  intros Hnd. unfold column_labelled_by, map_dict. split.
  - apply length_map.
  - intros i c Hi. exists (dict_get mapping c). split.
    + rewrite nth_error_map, Hi. reflexivity.
    + apply dict_get_labelled. assumption.
Qed.

Lemma get_label_mapping_run name self mapping :
  find (fun kv => String.eqb (fst kv) name) (label_mappings self)
    = Some (name, mapping) ->
  get_label_mapping name self = (self, [], Ok mapping).
Proof. intros H. unfold get_label_mapping. rewrite H. reflexivity. Qed.

(** C10.  On a loader that holds a clean table with the three code columns
    and the label mappings of its construction, labeling raises nothing and
    returns the clean table with three more columns; row by row, a code in
    the domain of its mapping receives the label the mapping fixes, and
    every other cell (a code outside the domain, a number that is no
    integer, a missing value) receives a missing label. *)
Theorem create_labeled_data_labels :
  forall (self : MedicalInsuranceDataLoader) (df : DataFrame)
         (sex smoker region : Series),
    df_clean self = Some df ->
    label_mappings self = label_mappings (init None None) ->
    get_col "sex" df = Some sex ->
    get_col "smoker" df = Some smoker ->
    get_col "region" df = Some region ->
    exists labeled sex_label smoker_label region_label,
      create_labeled_data self = (self, [], Ok (Some labeled)) /\
      get_col "sex_label" labeled = Some sex_label /\
      get_col "smoker_label" labeled = Some smoker_label /\
      get_col "region_label" labeled = Some region_label /\
      column_labelled_by sex_labels sex sex_label /\
      column_labelled_by smoker_labels smoker smoker_label /\
      column_labelled_by region_labels region region_label.
Proof.
  intros self df sex smoker region Hclean Hmaps Hsex Hsmoker Hregion.
  exists (set_col "region_label" (map_dict region_labels region)
            (set_col "smoker_label" (map_dict smoker_labels smoker)
               (set_col "sex_label" (map_dict sex_labels sex) df))).
  exists (map_dict sex_labels sex), (map_dict smoker_labels smoker),
    (map_dict region_labels region).
  split; [|split; [|split; [|split; [|split; [|split]]]]].
  - unfold create_labeled_data.
    eapply bind_run_ok with (out1 := []); [unfold get_df_clean; reflexivity|].
    rewrite Hclean.
    eapply bind_run_ok with (out1 := []);
      [unfold lift, getitem; rewrite Hsex; reflexivity|].
    eapply bind_run_ok with (out1 := []);
      [apply get_label_mapping_run; rewrite Hmaps; reflexivity|].
    eapply bind_run_ok with (out1 := []).
    { unfold lift, getitem.
      rewrite get_col_set_col_other, Hsmoker by discriminate. reflexivity. }
    eapply bind_run_ok with (out1 := []);
      [apply get_label_mapping_run; rewrite Hmaps; reflexivity|].
    eapply bind_run_ok with (out1 := []).
    { unfold lift, getitem.
      rewrite !get_col_set_col_other, Hregion by discriminate. reflexivity. }
    eapply bind_run_ok with (out1 := []);
      [apply get_label_mapping_run; rewrite Hmaps; reflexivity|].
    reflexivity.
  - rewrite !get_col_set_col_other by discriminate.
    apply get_col_set_col_same.
  - rewrite get_col_set_col_other by discriminate.
    apply get_col_set_col_same.
  - apply get_col_set_col_same.
  - apply map_dict_labelled. vm_compute.
    repeat constructor; simpl; intuition discriminate.
  - apply map_dict_labelled. vm_compute.
    repeat constructor; simpl; intuition discriminate.
  - apply map_dict_labelled. vm_compute.
    repeat constructor; simpl; intuition discriminate.
Qed.

(** The theorem at a clean table whose third row holds codes outside every
    domain. *)
Lemma create_labeled_data_labels_witness :
  exists labeled sex_label smoker_label region_label,
    create_labeled_data (with_df_clean (init None None) out_of_domain)
      = (with_df_clean (init None None) out_of_domain, [], Ok (Some labeled)) /\
    get_col "sex_label" labeled = Some sex_label /\
    get_col "smoker_label" labeled = Some smoker_label /\
    get_col "region_label" labeled = Some region_label /\
    column_labelled_by sex_labels (ints [1; 2; 3]%Z) sex_label /\
    column_labelled_by smoker_labels (ints [0; 1; 2]%Z) smoker_label /\
    column_labelled_by region_labels (ints [1; 4; 9]%Z) region_label.
Proof.
  exact (create_labeled_data_labels
           (with_df_clean (init None None) out_of_domain) out_of_domain
           (ints [1; 2; 3]%Z) (ints [0; 1; 2]%Z) (ints [1; 4; 9]%Z)
           eq_refl eq_refl eq_refl eq_refl eq_refl).
Defined.

(** The labels of that table, computed: the third row has none. *)
Example create_labeled_data_out_of_domain :
  create_labeled_data (with_df_clean (init None None) out_of_domain)
  = (with_df_clean (init None None) out_of_domain, [],
     Ok (Some (out_of_domain ++
               [("sex_label", [Str "male"; Str "female"; NaN]);
                ("smoker_label", [Str "no"; Str "yes"; NaN]);
                ("region_label", [Str "northeast"; Str "southwest"; NaN])]))).
Proof. reflexivity. Qed.

(** ** The modal values of a column *)

Lemma cell_eqb_sym (a b : cell) : cell_eqb a b = cell_eqb b a.
Proof.
  destruct a as [p| |s], b as [q| |t]; simpl; try reflexivity.
  - destruct (Qeq_bool p q) eqn:E1, (Qeq_bool q p) eqn:E2; try reflexivity.
    + apply Qeq_bool_iff in E1. symmetry in E1. apply Qeq_bool_iff in E1. congruence.
    + apply Qeq_bool_iff in E2. symmetry in E2. apply Qeq_bool_iff in E2. congruence.
  - apply String.eqb_sym.
Qed.

Lemma cell_eqb_trans (a b c : cell) :
  cell_eqb a b = true -> cell_eqb b c = true -> cell_eqb a c = true.
Proof.
  destruct a as [p| |s], b as [q| |t], c as [r| |u]; simpl; try discriminate.
  - rewrite !Qeq_bool_iff. intros H1 H2. rewrite H1. exact H2.
  - rewrite !String.eqb_eq. congruence.
Qed.

Lemma cell_eqb_refl (a : cell) : is_null a = false -> cell_eqb a a = true.
Proof.
  destruct a as [p| |s]; simpl; try discriminate; intros _.
  - apply Qeq_bool_iff. reflexivity.
  - apply String.eqb_refl.
Qed.

Lemma cell_eqb_congr (a b x : cell) :
  cell_eqb a b = true -> cell_eqb a x = cell_eqb b x.
Proof.
  intros Hab. destruct (cell_eqb b x) eqn:E.
  - eapply cell_eqb_trans; eassumption.
  - destruct (cell_eqb a x) eqn:E'; [|reflexivity].
    rewrite cell_eqb_sym in Hab.
    rewrite (cell_eqb_trans _ _ _ Hab E') in E. discriminate.
Qed.

Lemma count_congr (a b : cell) (l : Series) :
  cell_eqb a b = true -> count a l = count b l.
Proof.
  intros Hab. unfold count. f_equal. apply filter_ext.
  intros x. apply cell_eqb_congr. assumption.
Qed.

Lemma fold_max_ge (f : cell -> nat) (l : Series) (c : cell) :
  In c l -> f c <= fold_right Nat.max 0 (map f l).
Proof.
  induction l as [|x l IH]; simpl; [contradiction|].
  intros [->|Hin]; [lia|]. specialize (IH Hin). lia.
Qed.

Lemma fold_max_le (f : cell -> nat) (l : Series) (k : nat) :
  (forall c, In c l -> f c <= k) -> fold_right Nat.max 0 (map f l) <= k.
Proof.
  intros H. induction l as [|x l IH]; simpl; [lia|].
  apply Nat.max_lub; [apply H; left; reflexivity|].
  apply IH. intros c Hc. apply H. right. assumption.
Qed.

Lemma fold_max_attained (f : cell -> nat) (l : Series) :
  l <> [] -> exists c, In c l /\ f c = fold_right Nat.max 0 (map f l).
Proof.
  induction l as [|x l IH]; [contradiction|]. intros _.
  destruct l as [|y l].
  - exists x. simpl. split; [auto | lia].
  - destruct IH as [c [Hin Hc]]; [discriminate|].
    change (fold_right Nat.max 0 (map f (x :: y :: l)))
      with (Nat.max (f x) (fold_right Nat.max 0 (map f (y :: l)))).
    destruct (Nat.max_spec (f x) (fold_right Nat.max 0 (map f (y :: l))))
      as [[Hlt Heq]|[Hle Heq]]; rewrite Heq.
    + exists c. split; [right; assumption | assumption].
    + exists x. split; [left; reflexivity | reflexivity].
Qed.

Lemma max_count_ge (c : cell) (l : Series) : In c l -> count c l <= max_count l.
Proof. apply (fold_max_ge (fun c => count c l)). Qed.

Lemma max_count_le (l : Series) (k : nat) :
  (forall c, In c l -> count c l <= k) -> max_count l <= k.
Proof. apply (fold_max_le (fun c => count c l)). Qed.

Lemma max_count_attained (l : Series) :
  l <> [] -> exists c, In c l /\ count c l = max_count l.
Proof. apply (fold_max_attained (fun c => count c l)). Qed.

Lemma unique_incl (l : Series) (c : cell) : In c (unique l) -> In c l.
Proof.
  revert c. induction l as [|x l IH]; simpl; [contradiction|].
  intros c [->|Hin]; [left; reflexivity|].
  apply filter_In in Hin. right. apply IH. tauto.
Qed.

Lemma unique_represents (l : Series) (c : cell) :
  In c l -> is_null c = false ->
  exists d, In d (unique l) /\ cell_eqb d c = true.
Proof.
  intros Hin Hc. induction l as [|x l IH]; [contradiction|].
  simpl. destruct (cell_eqb x c) eqn:E.
  - exists x. split; [left; reflexivity | assumption].
  - destruct Hin as [->|Hin].
    + rewrite cell_eqb_refl in E by assumption. discriminate.
    + destruct (IH Hin) as [d [Hd Hdc]]. exists d. split; [|assumption].
      right. apply filter_In. split; [assumption|].
      destruct (cell_eqb x d) eqn:E'; [|reflexivity].
      rewrite (cell_eqb_trans _ _ _ E' Hdc) in E. discriminate.
Qed.

Lemma dropna_not_null (s : Series) (c : cell) : In c (dropna s) -> is_null c = false.
Proof.
  unfold dropna. intros H. apply filter_In in H.
  destruct (is_null c); [destruct H; discriminate | reflexivity].
Qed.

Lemma In_insert (A : Type) (leb : A -> A -> bool) (x y : A) (l : list A) :
  In x (insert leb y l) <-> x = y \/ In x l.
Proof.
  induction l as [|z l IH]; simpl.
  - intuition congruence.
  - destruct (leb y z); simpl; [intuition congruence|].
    rewrite IH. intuition congruence.
Qed.

Lemma In_sort (A : Type) (leb : A -> A -> bool) (x : A) (l : list A) :
  In x (sort leb l) <-> In x l.
Proof.
  unfold sort. induction l as [|y l IH]; simpl; [tauto|].
  rewrite In_insert, IH. intuition congruence.
Qed.

Lemma In_sort_modes (x : cell) (l : Series) : In x (sort_modes l) <-> In x l.
Proof.
  unfold sort_modes. destruct (forallb is_num l || forallb is_str l); [|tauto].
  apply In_sort.
Qed.

Lemma existsb_In_equiv (A : Type) (f : A -> bool) (l l' : list A) :
  (forall x, In x l <-> In x l') -> existsb f l = existsb f l'.
Proof.
  intros H. apply eq_true_iff_eq. rewrite !existsb_exists.
  split; intros [x [Hin Hf]]; exists x; split; auto; apply H; assumption.
Qed.

Lemma filter_comm (A : Type) (P Q : A -> bool) (l : list A) :
  filter P (filter Q l) = filter Q (filter P l).
Proof.
  induction l as [|x l IH]; simpl; [reflexivity|].
  destruct (P x) eqn:EP, (Q x) eqn:EQ; simpl; rewrite ?EP, ?EQ, IH; reflexivity.
Qed.

Lemma filter_idem (A : Type) (P : A -> bool) (l : list A) :
  filter P (filter P l) = filter P l.
Proof.
  induction l as [|x l IH]; simpl; [reflexivity|].
  destruct (P x) eqn:EP; simpl; rewrite ?EP, IH; reflexivity.
Qed.

Lemma filter_all (A : Type) (P : A -> bool) (l : list A) :
  (forall x, In x l -> P x = true) -> filter P l = l.
Proof.
  induction l as [|x l IH]; simpl; [reflexivity|].
  intros H. rewrite (H x) by auto. rewrite IH by auto. reflexivity.
Qed.

Lemma filter_ext_in_bool (A : Type) (P Q : A -> bool) (l : list A) :
  (forall x, In x l -> P x = Q x) -> filter P l = filter Q l.
Proof.
  induction l as [|x l IH]; simpl; [reflexivity|].
  intros H. rewrite (H x) by auto. rewrite IH by auto. reflexivity.
Qed.

Lemma eqb_sentinel (c : cell) : cell_eqb c sentinel = true -> c = sentinel.
Proof.
  destruct c as [q| |t]; simpl; try discriminate.
  intros H. apply String.eqb_eq in H. subst. reflexivity.
Qed.

Lemma unique_non_sentinel (l : Series) :
  unique (non_sentinel l) = non_sentinel (unique l).
Proof.
  unfold non_sentinel. induction l as [|x l IH]; simpl; [reflexivity|].
  destruct (cell_eqb x sentinel) eqn:E; simpl.
  - apply eqb_sentinel in E. subst x. rewrite IH.
    rewrite (filter_ext (fun d => negb (cell_eqb sentinel d))
               (fun d => negb (cell_eqb d sentinel))).
    + rewrite filter_idem. reflexivity.
    + intros d. rewrite cell_eqb_sym. reflexivity.
  - rewrite IH. f_equal. apply filter_comm.
Qed.

Lemma count_non_sentinel (c : cell) (l : Series) :
  cell_eqb c sentinel = false -> count c (non_sentinel l) = count c l.
Proof.
  intros Hc. unfold count, non_sentinel. rewrite filter_comm.
  f_equal. apply filter_all. intros x Hx. apply filter_In in Hx.
  destruct Hx as [_ Hx]. destruct (cell_eqb x sentinel) eqn:E; [|reflexivity].
  apply eqb_sentinel in E. subst x. congruence.
Qed.

Lemma dropna_non_sentinel (s : Series) :
  dropna (non_sentinel s) = non_sentinel (dropna s).
Proof. unfold dropna, non_sentinel. apply filter_comm. Qed.

(** When no modal value of a column is text with a question mark, the
    sentinel is not modal, and the modal values of the column are the modal
    values of its non-sentinel part. *)
Lemma mode_non_sentinel (s : Series) :
  question_mark_in_str (mode s) = false ->
  mode (non_sentinel s) = mode s.
Proof.
  intros Hq. unfold mode in *. rewrite dropna_non_sentinel.
  set (vals := dropna s) in *.
  assert (Hnull : forall c, In c vals -> is_null c = false)
    by (intros c; apply dropna_not_null).
  assert (Hmodes : forall c,
             In c (filter (fun c => count c vals =? max_count vals) (unique vals)) ->
             cell_eqb c sentinel = false).
  { intros c Hc. destruct (cell_eqb c sentinel) eqn:E; [|reflexivity].
    apply eqb_sentinel in E. subst c. exfalso.
    unfold question_mark_in_str in Hq.
    rewrite (existsb_In_equiv _ _ _ _ (fun x => In_sort_modes x _)) in Hq.
    assert (Ht : existsb (fun c => match c with
                                   | Str t => contains_char "?"%char t
                                   | _ => false
                                   end)
                   (filter (fun c => count c vals =? max_count vals) (unique vals))
                 = true).
    { apply existsb_exists. exists sentinel. split; [assumption | reflexivity]. }
    congruence. }
  assert (Hmax : max_count (non_sentinel vals) = max_count vals).
  { apply Nat.le_antisymm.
    - apply max_count_le. intros c Hc. unfold non_sentinel in Hc.
      apply filter_In in Hc. destruct Hc as [Hin Hns].
      apply negb_true_iff in Hns.
      rewrite count_non_sentinel by assumption. apply max_count_ge. assumption.
    - destruct vals as [|v vals'] eqn:Ev; [simpl; lia|].
      destruct (max_count_attained (v :: vals')) as [c [Hin Hc]]; [discriminate|].
      destruct (unique_represents _ _ Hin (Hnull c Hin)) as [d [Hd Hdc]].
      assert (Hcount : count d (v :: vals') = max_count (v :: vals')).
      { rewrite (count_congr _ _ _ Hdc). assumption. }
      assert (Hns : cell_eqb d sentinel = false).
      { apply Hmodes. apply filter_In. split; [assumption|].
        apply Nat.eqb_eq. assumption. }
      rewrite <- Hcount, <- (count_non_sentinel d (v :: vals') Hns).
      apply max_count_ge. unfold non_sentinel. apply filter_In.
      split; [apply unique_incl; assumption | rewrite Hns; reflexivity]. }
  f_equal. rewrite unique_non_sentinel, Hmax.
  rewrite (filter_ext_in_bool _
             (fun c => count c (non_sentinel vals) =? max_count vals)
             (fun c => count c vals =? max_count vals)).
  - unfold non_sentinel. rewrite filter_comm. apply filter_all. intros x Hx.
    rewrite (Hmodes x Hx). reflexivity.
  - intros x Hx. apply filter_In in Hx. destruct Hx as [_ Hx].
    apply negb_true_iff in Hx. rewrite count_non_sentinel by assumption.
    reflexivity.
Qed.

(** ** The smoker column and the casts *)

Lemma clean_smoker_run str_to_num self df smoker :
  df_clean self = Some df ->
  get_col "smoker" df = Some smoker ->
  clean_smoker str_to_num self =
    match smoker_mode_of smoker with
    | Raise e => (self, [CleaningSmoker], Raise e)
    | Ok m =>
        match to_numeric str_to_num errors_raise (replace sentinel m smoker) with
        | Ok cleaned =>
            (with_df_clean self (set_col "smoker" cleaned df),
             [CleaningSmoker], Ok tt)
        | Raise e =>
            (with_df_clean self (set_col "smoker" (replace sentinel m smoker) df),
             [CleaningSmoker], Raise e)
        end
    end.
Proof.
  intros Hc Hs. unfold smoker_mode_of.
  destruct (question_mark_in_str (mode smoker)) eqn:Eq; simpl.
  - destruct (to_numeric _ _ _) as [cleaned|e] eqn:En.
    + etransitivity.
      * unfold clean_smoker. run_print. run_getitem. rewrite Eq. simpl.
        eapply bind_run_ok; [reflexivity|].
        run_getitem. run_setitem. run_getitem.
        eapply bind_run_ok; [unfold lift; fold sentinel; rewrite En; reflexivity|].
        eapply clean_setitem_run. reflexivity.
      * simpl. rewrite set_col_set_col. reflexivity.
    + etransitivity.
      * unfold clean_smoker. run_print. run_getitem. rewrite Eq. simpl.
        eapply bind_run_ok; [reflexivity|].
        run_getitem. run_setitem. run_getitem.
        eapply bind_run_raise. unfold lift. fold sentinel. rewrite En. reflexivity.
      * reflexivity.
  - case_eq (mode smoker); [intros Em | intros m ms Em]; simpl.
    + etransitivity.
      * unfold clean_smoker. run_print. run_getitem. rewrite Eq. simpl.
        eapply bind_run_raise. run_getitem. rewrite Em. reflexivity.
      * reflexivity.
    + destruct (to_numeric _ _ _) as [cleaned|e] eqn:En.
      * etransitivity.
        -- unfold clean_smoker. run_print. run_getitem. rewrite Eq. simpl.
           eapply bind_run_ok; [run_getitem; rewrite Em; reflexivity|].
           run_getitem. run_setitem. run_getitem.
           eapply bind_run_ok;
             [unfold lift; fold sentinel; rewrite En; reflexivity|].
           eapply clean_setitem_run. reflexivity.
        -- simpl. rewrite set_col_set_col. reflexivity.
      * etransitivity.
        -- unfold clean_smoker. run_print. run_getitem. rewrite Eq. simpl.
           eapply bind_run_ok; [run_getitem; rewrite Em; reflexivity|].
           run_getitem. run_setitem. run_getitem.
           eapply bind_run_raise. unfold lift. fold sentinel. rewrite En.
           reflexivity.
        -- reflexivity.
Qed.

Lemma clean_smoker_no_column str_to_num self df :
  df_clean self = Some df ->
  get_col "smoker" df = None ->
  clean_smoker str_to_num self = (self, [CleaningSmoker], Raise (KeyError "smoker")).
Proof.
  intros Hclean Hs. unfold clean_smoker.
  change [CleaningSmoker] with ([CleaningSmoker] ++ []). run_print.
  eapply bind_run_raise. eapply clean_getitem_missing; eassumption.
Qed.

Lemma convert_column_run py_int name self df col :
  df_clean self = Some df ->
  get_col name df = Some col ->
  convert_column py_int name self =
    match astype_int py_int col with
    | Ok col' => (with_df_clean self (set_col name col' df), [], Ok tt)
    | Raise e => (self, [], Raise e)
    end.
Proof.
  intros Hc Hg. unfold convert_column.
  destruct (astype_int py_int col) as [col'|e] eqn:E.
  - change (@nil event) with (@nil event ++ []). run_getitem.
    change (@nil event) with (@nil event ++ []).
    eapply bind_run_ok; [unfold lift; rewrite E; reflexivity|].
    eapply clean_setitem_run. assumption.
  - change (@nil event) with (@nil event ++ []). run_getitem.
    eapply bind_run_raise. unfold lift. rewrite E. reflexivity.
Qed.

Lemma convert_column_no_column py_int name self df :
  df_clean self = Some df ->
  get_col name df = None ->
  convert_column py_int name self = (self, [], Raise (KeyError name)).
Proof.
  intros Hc Hg. unfold convert_column.
  eapply bind_run_raise. eapply clean_getitem_missing; eassumption.
Qed.

(** ** A run of [clean_data] that returns *)

Lemma clean_age_ok_inv str_to_num self df self' out :
  df_clean self = Some df ->
  clean_age str_to_num self = (self', out, Ok tt) ->
  exists raw_age,
    get_col "age" df = Some raw_age /\
    self' = with_df_clean self (set_col "age" (imputed_age str_to_num raw_age) df).
Proof.
  intros Hc H. destruct (get_col "age" df) as [raw_age|] eqn:E.
  - rewrite (clean_age_run _ _ _ _ Hc E) in H. inversion H; subst.
    exists raw_age. split; reflexivity.
  - rewrite (clean_age_no_column _ _ _ Hc E) in H. discriminate.
Qed.

Lemma clean_smoker_ok_inv str_to_num self df self' out :
  df_clean self = Some df ->
  clean_smoker str_to_num self = (self', out, Ok tt) ->
  exists smoker m smoker_num,
    get_col "smoker" df = Some smoker /\
    smoker_mode_of smoker = Ok m /\
    to_numeric str_to_num errors_raise (replace sentinel m smoker) = Ok smoker_num /\
    self' = with_df_clean self (set_col "smoker" smoker_num df).
Proof.
  intros Hc H. destruct (get_col "smoker" df) as [smoker|] eqn:E.
  - rewrite (clean_smoker_run _ _ _ _ Hc E) in H.
    destruct (smoker_mode_of smoker) as [m|e] eqn:Em; [|discriminate].
    destruct (to_numeric _ _ _) as [smoker_num|e] eqn:En; [|discriminate].
    inversion H; subst. exists smoker, m, smoker_num. auto.
  - rewrite (clean_smoker_no_column _ _ _ Hc E) in H. discriminate.
Qed.

Lemma convert_column_ok_inv py_int name self df self' out :
  df_clean self = Some df ->
  convert_column py_int name self = (self', out, Ok tt) ->
  exists col col',
    get_col name df = Some col /\
    astype_int py_int col = Ok col' /\
    self' = with_df_clean self (set_col name col' df).
Proof.
  intros Hc H. destruct (get_col name df) as [col|] eqn:E.
  - rewrite (convert_column_run _ _ _ _ _ Hc E) in H.
    destruct (astype_int py_int col) as [col'|e] eqn:Ea; [|discriminate].
    inversion H; subst. exists col, col'. auto.
  - rewrite (convert_column_no_column _ _ _ _ Hc E) in H. discriminate.
Qed.

Ltac inv_bind H :=
  let s := fresh "self" in
  let o1 := fresh "out" in
  let a := fresh "a" in
  let o2 := fresh "out" in
  let H1 := fresh "Hstep" in
  let Ho := fresh "Hout" in
  apply bind_ok_inv in H;
  destruct H as (s & o1 & a & o2 & H1 & H & Ho);
  try (match type of a with unit => destruct a end).

Lemma clean_data_ok_inv str_to_num py_int self raw self' out r :
  df_raw self = Some raw ->
  clean_data str_to_num py_int self = (self', out, Ok r) ->
  exists cleaned,
    r = Some cleaned /\
    cleans str_to_num py_int raw cleaned /\
    self' = with_df_clean self cleaned.
Proof.
  intros Hraw H. unfold clean_data in H.
  inv_bind H. unfold get_df_raw in Hstep. inversion Hstep; subst. clear Hstep.
  rewrite Hraw in H.
  inv_bind H. unfold print in Hstep. inversion Hstep; subst. clear Hstep.
  inv_bind H. unfold set_df_clean in Hstep. inversion Hstep; subst. clear Hstep.
  inv_bind H.
  apply (clean_age_ok_inv _ _ raw) in Hstep; [|reflexivity].
  destruct Hstep as (raw_age & Hage & ->).
  inv_bind H.
  eapply clean_smoker_ok_inv in Hstep; [|reflexivity].
  destruct Hstep as (smoker & m & smoker_num & Hsmoker & Hmode & Hnum & ->).
  rewrite get_col_set_col_other in Hsmoker by discriminate.
  inv_bind H. unfold convert_types in Hstep.
  inv_bind Hstep. unfold print in Hstep0. inversion Hstep0; subst. clear Hstep0.
  inv_bind Hstep.
  eapply convert_column_ok_inv in Hstep0; [|reflexivity].
  destruct Hstep0 as (age & age_int & Hage2 & Hage_int & ->).
  rewrite get_col_set_col_other, get_col_set_col_same in Hage2 by discriminate.
  inversion Hage2; subst age. clear Hage2.
  inv_bind Hstep.
  eapply convert_column_ok_inv in Hstep0; [|reflexivity].
  destruct Hstep0 as (sex & sex_int & Hsex & Hsex_int & ->).
  rewrite !get_col_set_col_other in Hsex by discriminate.
  inv_bind Hstep.
  eapply convert_column_ok_inv in Hstep0; [|reflexivity].
  destruct Hstep0 as (children & children_int & Hchildren & Hchildren_int & ->).
  rewrite !get_col_set_col_other in Hchildren by discriminate.
  inv_bind Hstep.
  eapply convert_column_ok_inv in Hstep0; [|reflexivity].
  destruct Hstep0 as (smoker2 & smoker_int & Hsmoker2 & Hsmoker_int & ->).
  rewrite !get_col_set_col_other, get_col_set_col_same in Hsmoker2 by discriminate.
  inversion Hsmoker2; subst smoker2. clear Hsmoker2.
  eapply convert_column_ok_inv in Hstep; [|reflexivity].
  destruct Hstep as (region & region_int & Hregion & Hregion_int & ->).
  rewrite !get_col_set_col_other in Hregion by discriminate.
  inv_bind H. unfold get_df_clean in Hstep. inversion Hstep; subst. clear Hstep.
  inv_bind H. unfold print in Hstep. inversion Hstep; subst. clear Hstep.
  unfold get_df_clean in H. inversion H; subst. clear H.
  eexists. split; [reflexivity|]. split; [|reflexivity].
  eapply cleans_intro; eassumption.
Qed.

Lemma traverse_nth (A B : Type) (f : A -> result B) (l : list A) (l' : list B) :
  traverse f l = Ok l' ->
  List.length l' = List.length l /\
  forall i x, nth_error l i = Some x ->
    exists y, f x = Ok y /\ nth_error l' i = Some y.
Proof.
  revert l'. induction l as [|a l IH]; simpl; intros l' H.
  - inversion H. split; [reflexivity|]. intros [|i] x Hx; discriminate.
  - destruct (f a) as [b|e] eqn:Ef; simpl in H; [|discriminate].
    destruct (traverse f l) as [bs|e]; simpl in H; [|discriminate].
    inversion H; subst. destruct (IH bs eq_refl) as [Hlen Hnth].
    split; [simpl; congruence|].
    intros [|i] x Hx; simpl in *.
    + inversion Hx; subst. exists b. auto.
    + apply Hnth. assumption.
Qed.

(** C1, refuted as stated: in the table [sentinel_majority] the values
    other than the sentinel have the single mode 1, and cleaning replaces
    the sentinels by 0. *)
Lemma sentinel_replacement_counterexample :
  ~ sentinel_replacement_as_specified parse_num parse_int sentinel_majority.
Proof.
  intros H.
  destruct (H [Str "?"; Str "?"; Str "1"] (Str "1") _ _ _
              eq_refl eq_refl eq_refl) as (cleaned_smoker & v & Hget & Hv & Hnth).
  vm_compute in Hget. inversion Hget; subst cleaned_smoker.
  vm_compute in Hv. inversion Hv; subst v.
  specialize (Hnth 0 eq_refl). discriminate Hnth.
Qed.

(** The cleaned table of the counterexample, computed. *)
Example sentinel_majority_cleaned :
  clean_data parse_num parse_int (loaded sentinel_majority) =
    (with_df_clean (loaded sentinel_majority)
       [("age", ints [19; 18; 28]%Z);
        ("sex", ints [2; 1; 1]%Z);
        ("bmi", [Num (279 # 10); Num (3377 # 100); Num 33]);
        ("children", ints [0; 1; 3]%Z);
        ("smoker", ints [0; 0; 1]%Z);
        ("region", ints [4; 3; 3]%Z);
        ("charges", [Num 16884; Num 1725; Num 4449])],
     [StartingCleaning; CleaningAge; CleaningSmoker; ConvertingTypes;
      CleaningComplete 0],
     Ok (Some [("age", ints [19; 18; 28]%Z);
               ("sex", ints [2; 1; 1]%Z);
               ("bmi", [Num (279 # 10); Num (3377 # 100); Num 33]);
               ("children", ints [0; 1; 3]%Z);
               ("smoker", ints [0; 0; 1]%Z);
               ("region", ints [4; 3; 3]%Z);
               ("charges", [Num 16884; Num 1725; Num 4449])])).
Proof. reflexivity. Qed.

(** C1, as the code has it.  The mode is taken over the whole smoker
    column, sentinels included.  In every run of [clean_data] that returns,
    each sentinel of the raw smoker column holds 0 in the cleaned column
    when some modal value of the whole column is text with a question mark
    (the sentinel itself, when it is modal); otherwise it holds what
    cleaning makes of the first modal value of the whole column, and the
    modal values of the whole column are then those of the non-sentinel
    values.  For the raw smoker values [0, 1, 0, "?", 1] the cleaned column
    is [0, 1, 0, 0, 1]. *)
Theorem smoker_sentinel_replacement :
  forall (str_to_num : string -> option Q) (py_int : string -> option Z),
    (forall (self self' : MedicalInsuranceDataLoader) (raw cleaned : DataFrame)
            (smoker : Series) (out : list event),
        str_to_num "0" = Some 0%Q ->
        df_raw self = Some raw ->
        get_col "smoker" raw = Some smoker ->
        clean_data str_to_num py_int self = (self', out, Ok (Some cleaned)) ->
        exists cleaned_smoker,
          get_col "smoker" cleaned = Some cleaned_smoker /\
          List.length cleaned_smoker = List.length smoker /\
          forall i, nth_error smoker i = Some sentinel ->
            if question_mark_in_str (mode smoker)
            then nth_error cleaned_smoker i = Some (Num 0)
            else exists m v,
                   hd_error (mode smoker) = Some m /\
                   mode (non_sentinel smoker) = mode smoker /\
                   cleaned_value str_to_num py_int m = Ok v /\
                   nth_error cleaned_smoker i = Some v) /\
    (exists cleaned,
        clean_data str_to_num py_int (loaded spec_example)
          = (with_df_clean (loaded spec_example) cleaned,
             [StartingCleaning; CleaningAge; CleaningSmoker; ConvertingTypes;
              CleaningComplete 0],
             Ok (Some cleaned)) /\
        get_col "smoker" spec_example = Some [Num 0; Num 1; Num 0; Str "?"; Num 1] /\
        get_col "smoker" cleaned = Some [Num 0; Num 1; Num 0; Num 0; Num 1]).
Proof.
  intros str_to_num py_int. split.
  - intros self self' raw cleaned smoker out Hzero Hraw Hsmoker Hrun.
    apply (clean_data_ok_inv _ _ _ raw) in Hrun; [|assumption].
    destruct Hrun as (cleaned' & Heq & Hcleans & _).
    inversion Heq; subst cleaned'. clear Heq.
    inversion Hcleans as
      [raw_age smoker0 smoker_num age_int sex sex_int children children_int
         smoker_int region region_int m
         Hage Hsmoker0 Hmode Hnum Hage_int Hsex Hsex_int Hchildren
         Hchildren_int Hsmoker_int Hregion Hregion_int Hcleaned].
    rewrite Hsmoker in Hsmoker0. inversion Hsmoker0; subst smoker0.
    exists smoker_int.
    destruct (traverse_nth _ _ _ _ _ Hnum) as [Hlen1 Hnth1].
    destruct (traverse_nth _ _ _ _ _ Hsmoker_int) as [Hlen2 Hnth2].
    split; [|split].
    + rewrite get_col_set_col_other by discriminate.
      apply get_col_set_col_same.
    + rewrite Hlen2, Hlen1. unfold replace. apply length_map.
    + intros i Hi.
      assert (Hrep : nth_error (replace sentinel m smoker) i = Some m).
      { unfold replace. rewrite nth_error_map, Hi. reflexivity. }
      destruct (Hnth1 i m Hrep) as (c1 & Hc1 & Hi1).
      destruct (Hnth2 i c1 Hi1) as (v & Hv & Hi2).
      unfold smoker_mode_of in Hmode.
      destruct (question_mark_in_str (mode smoker)) eqn:Eq; simpl in Hmode.
      * inversion Hmode; subst m. simpl in Hc1. rewrite Hzero in Hc1.
        inversion Hc1; subst c1. simpl in Hv. inversion Hv; subst v.
        exact Hi2.
      * exists m, v. split; [|split; [|split]].
        -- destruct (mode smoker); simpl in *; [discriminate | congruence].
        -- apply mode_non_sentinel. assumption.
        -- unfold cleaned_value. rewrite Hc1. exact Hv.
        -- exact Hi2.
  - eexists. split; [reflexivity|]. split; reflexivity.
Qed.

(** The example of the specification with the smoker column as text. *)
Example spec_example_text_cleaned :
  exists self' out cleaned,
    clean_data parse_num parse_int (loaded spec_example_text)
      = (self', out, Ok (Some cleaned)) /\
    get_col "smoker" cleaned = Some (ints [0; 1; 0; 0; 1]%Z).
Proof. eexists _, _, _. split; reflexivity. Qed.

(** The theorem at the table [sentinel_majority], where the sentinel is
    modal: both sentinels become 0. *)
Lemma smoker_sentinel_replacement_witness :
  exists cleaned_smoker,
    get_col "smoker"
      [("age", ints [19; 18; 28]%Z);
       ("sex", ints [2; 1; 1]%Z);
       ("bmi", [Num (279 # 10); Num (3377 # 100); Num 33]);
       ("children", ints [0; 1; 3]%Z);
       ("smoker", ints [0; 0; 1]%Z);
       ("region", ints [4; 3; 3]%Z);
       ("charges", [Num 16884; Num 1725; Num 4449])] = Some cleaned_smoker /\
    List.length cleaned_smoker = 3 /\
    forall i, nth_error [Str "?"; Str "?"; Str "1"] i = Some sentinel ->
              nth_error cleaned_smoker i = Some (Num 0).
Proof.
  exact (proj1 (smoker_sentinel_replacement parse_num parse_int)
           (loaded sentinel_majority) _ sentinel_majority _
           [Str "?"; Str "?"; Str "1"] _
           eq_refl eq_refl eq_refl sentinel_majority_cleaned).
Defined.

(** ** The invariant of the clean table *)

Lemma astype_int_integers py_int (col col' : Series) :
  astype_int py_int col = Ok col' -> Forall is_integer col'.
Proof.
  unfold astype_int. revert col'.
  induction col as [|c col IH]; simpl; intros col' H.
  - inversion H. constructor.
  - destruct (astype_int_cell py_int c) as [c'|e] eqn:Ec; simpl in H; [|discriminate].
    destruct (traverse _ col) as [cs|e]; simpl in H; [|discriminate].
    inversion H; subst. constructor; [|apply IH; reflexivity].
    destruct c as [q| |t]; simpl in Ec; try discriminate.
    + inversion Ec. eexists; reflexivity.
    + destruct (py_int t); inversion Ec. eexists; reflexivity.
Qed.

Lemma integers_no_null (col : Series) : Forall is_integer col -> isnull_sum col = 0.
Proof.
  unfold isnull_sum. induction 1 as [|c col [z ->] _ IH]; simpl; auto.
Qed.

(** C4, refuted as stated: [clean_data] accepts the table
    [null_bmi_region_9] and returns it with the missing bmi and charge still
    missing and with the region code 9. *)
Lemma clean_invariant_counterexample :
  ~ no_nulls_after_clean parse_num parse_int null_bmi_region_9 /\
  ~ codes_in_domain_after_clean parse_num parse_int null_bmi_region_9.
Proof.
  split; intros H.
  - specialize (H _ _ _ eq_refl).
    specialize (H "bmi" [Num (279 # 10); NaN; Num 33]).
    assert (Hin : In ("bmi", [Num (279 # 10); NaN; Num 33])
                    [("age", ints [19; 18; 28]%Z);
                     ("sex", ints [2; 1; 1]%Z);
                     ("bmi", [Num (279 # 10); NaN; Num 33]);
                     ("children", ints [0; 1; 3]%Z);
                     ("smoker", ints [1; 0; 0]%Z);
                     ("region", ints [4; 3; 9]%Z);
                     ("charges", [Num 16884; Num 1725; NaN])])
      by (simpl; auto).
    specialize (H Hin). discriminate H.
  - specialize (H _ _ _ eq_refl). destruct H as (_ & _ & Hregion).
    destruct (Hregion (ints [4; 3; 9]%Z) eq_refl (Num 9)) as (k & Hk & q & Hq & Hqk).
    + simpl. auto.
    + inversion Hq; subst q. apply inject_Z_eq in Hqk. subst k.
      simpl in Hk. intuition discriminate.
Qed.

(** The run of the counterexample, computed: two missing values are
    reported on completion. *)
Example null_bmi_region_9_cleaned :
  clean_data parse_num parse_int (loaded null_bmi_region_9) =
    (with_df_clean (loaded null_bmi_region_9) null_bmi_region_9,
     [StartingCleaning; CleaningAge; CleaningSmoker; ConvertingTypes;
      CleaningComplete 2],
     Ok (Some null_bmi_region_9)).
Proof. reflexivity. Qed.

(** C4, as the code has it.  In every table [clean_data] returns, the
    columns age, sex, children, smoker and region hold integers only, hence
    no missing value; every other column, bmi and charges among them, is
    the raw column as it was, missing values included; the categorical
    codes are not compared with any domain. *)
Theorem clean_data_integer_columns :
  forall (str_to_num : string -> option Q) (py_int : string -> option Z)
         (self self' : MedicalInsuranceDataLoader) (raw cleaned : DataFrame)
         (out : list event),
    df_raw self = Some raw ->
    clean_data str_to_num py_int self = (self', out, Ok (Some cleaned)) ->
    (forall name, In name integer_columns ->
       exists col, get_col name cleaned = Some col /\
                   Forall is_integer col /\ isnull_sum col = 0) /\
    (forall name, ~ In name integer_columns ->
       get_col name cleaned = get_col name raw).
Proof.
  intros str_to_num py_int self self' raw cleaned out Hraw Hrun.
  apply (clean_data_ok_inv _ _ _ raw) in Hrun; [|assumption].
  destruct Hrun as (cleaned' & Heq & Hcleans & _).
  inversion Heq; subst cleaned'. clear Heq.
  inversion Hcleans as
    [raw_age smoker smoker_num age_int sex sex_int children children_int
       smoker_int region region_int m
       Hage Hsmoker Hmode Hnum Hage_int Hsex Hsex_int Hchildren
       Hchildren_int Hsmoker_int Hregion Hregion_int Hcleaned].
  split.
  - intros name Hin. simpl in Hin.
    destruct Hin as [<-|[<-|[<-|[<-|[<-|[]]]]]].
    + exists age_int. rewrite !get_col_set_col_other by discriminate.
      rewrite get_col_set_col_same.
      pose proof (astype_int_integers _ _ _ Hage_int).
      auto using integers_no_null.
    + exists sex_int. rewrite !get_col_set_col_other by discriminate.
      rewrite get_col_set_col_same.
      pose proof (astype_int_integers _ _ _ Hsex_int).
      auto using integers_no_null.
    + exists children_int. rewrite !get_col_set_col_other by discriminate.
      rewrite get_col_set_col_same.
      pose proof (astype_int_integers _ _ _ Hchildren_int).
      auto using integers_no_null.
    + exists smoker_int. rewrite !get_col_set_col_other by discriminate.
      rewrite get_col_set_col_same.
      pose proof (astype_int_integers _ _ _ Hsmoker_int).
      auto using integers_no_null.
    + exists region_int. rewrite get_col_set_col_same.
      pose proof (astype_int_integers _ _ _ Hregion_int).
      auto using integers_no_null.
  - intros name Hnot. unfold integer_columns in Hnot. simpl in Hnot.
    rewrite !get_col_set_col_other; [reflexivity| | | | | | |];
      intros <-; apply Hnot; auto 10.
Qed.

Lemma clean_data_integer_columns_witness :
  (forall name, In name integer_columns ->
     exists col, get_col name null_bmi_region_9 = Some col /\
                 Forall is_integer col /\ isnull_sum col = 0) /\
  (forall name, ~ In name integer_columns ->
     get_col name null_bmi_region_9 = get_col name null_bmi_region_9).
Proof.
  exact (clean_data_integer_columns parse_num parse_int
           (loaded null_bmi_region_9) _ null_bmi_region_9 null_bmi_region_9 _
           eq_refl null_bmi_region_9_cleaned).
Defined.

(** * Further properties of the cleaner *)

Import CleanerFrame.

(** ** What a call never touches *)

Lemma keeps_bind S E A B (R : S -> S -> Prop) (m : method S E A)
  (f : A -> method S E B) :
  (forall x y z, R x y -> R y z -> R x z) ->
  keeps R m -> (forall a, keeps R (f a)) -> keeps R (bind m f).
Proof.
  intros Htrans Hm Hf self self' out r H. unfold bind in H.
  destruct (m self) as [[self1 out1] [a|e]] eqn:Em.
  - destruct (f a self1) as [[self2 out2] r2] eqn:Ef. inversion H; subst.
    eapply Htrans; [eapply Hm; eassumption | eapply Hf; eassumption].
  - inversion H; subst. eapply Hm. eassumption.
Qed.

Lemma keeps_ret S E A (R : S -> S -> Prop) (a : A) :
  (forall x, R x x) -> keeps R (@ret S E A a).
Proof. intros Hrefl self self' out r H. inversion H; subst. apply Hrefl. Qed.

Lemma keeps_print S E (R : S -> S -> Prop) (e : E) :
  (forall x, R x x) -> keeps R (@print S E e).
Proof. intros Hrefl self self' out r H. inversion H; subst. apply Hrefl. Qed.

Lemma keeps_lift S E A (R : S -> S -> Prop) (x : result A) :
  (forall x, R x x) -> keeps R (@lift S E A x).
Proof. intros Hrefl self self' out r H. inversion H; subst. apply Hrefl. Qed.

Lemma same_but_df_clean_refl self : same_but_df_clean self self.
Proof. unfold same_but_df_clean. auto. Qed.

Lemma same_but_df_clean_trans x y z :
  same_but_df_clean x y -> same_but_df_clean y z -> same_but_df_clean x z.
Proof.
  unfold same_but_df_clean. intros (H1 & H2 & H3 & H4) (H5 & H6 & H7 & H8).
  repeat split; congruence.
Qed.

Ltac keeps_step :=
  first
    [ apply keeps_bind; [exact same_but_df_clean_trans | | intros ?]
    | apply keeps_ret; exact same_but_df_clean_refl
    | apply keeps_print; exact same_but_df_clean_refl
    | apply keeps_lift; exact same_but_df_clean_refl ].

Lemma keeps_get_df_raw : keeps same_but_df_clean get_df_raw.
Proof. intros self self' out r H. inversion H; subst. apply same_but_df_clean_refl. Qed.

Lemma keeps_get_df_clean : keeps same_but_df_clean get_df_clean.
Proof. intros self self' out r H. inversion H; subst. apply same_but_df_clean_refl. Qed.

Lemma keeps_set_df_clean df : keeps same_but_df_clean (set_df_clean df).
Proof.
  intros self self' out r H. inversion H; subst.
  unfold same_but_df_clean. simpl. auto.
Qed.

Lemma keeps_clean_getitem name : keeps same_but_df_clean (clean_getitem name).
Proof.
  unfold clean_getitem. keeps_step; [apply keeps_get_df_clean|].
  destruct a; keeps_step.
Qed.

Lemma keeps_clean_setitem name s : keeps same_but_df_clean (clean_setitem name s).
Proof.
  unfold clean_setitem. keeps_step; [apply keeps_get_df_clean|].
  destruct a; [apply keeps_set_df_clean | keeps_step].
Qed.

Lemma keeps_clean_age str_to_num : keeps same_but_df_clean (clean_age str_to_num).
Proof.
  unfold clean_age.
  keeps_step; [keeps_step|].
  keeps_step; [apply keeps_clean_getitem|].
  keeps_step; [keeps_step|].
  keeps_step; [apply keeps_clean_setitem|].
  keeps_step; [apply keeps_clean_getitem|].
  destruct (0 <? isnull_sum a3); [|keeps_step].
  keeps_step; [apply keeps_clean_getitem|].
  keeps_step; [keeps_step|].
  keeps_step; [apply keeps_clean_getitem|].
  keeps_step; [apply keeps_clean_setitem|].
  keeps_step.
Qed.

Lemma keeps_clean_smoker str_to_num :
  keeps same_but_df_clean (clean_smoker str_to_num).
Proof.
  unfold clean_smoker.
  keeps_step; [keeps_step|].
  keeps_step; [apply keeps_clean_getitem|].
  keeps_step.
  { destruct (negb (question_mark_in_str (mode a0))); [|keeps_step].
    keeps_step; [apply keeps_clean_getitem | keeps_step]. }
  keeps_step; [apply keeps_clean_getitem|].
  keeps_step; [apply keeps_clean_setitem|].
  keeps_step; [apply keeps_clean_getitem|].
  keeps_step; [keeps_step|].
  apply keeps_clean_setitem.
Qed.

Lemma keeps_convert_column py_int name :
  keeps same_but_df_clean (convert_column py_int name).
Proof.
  unfold convert_column.
  keeps_step; [apply keeps_clean_getitem|].
  keeps_step; [keeps_step|].
  apply keeps_clean_setitem.
Qed.

Lemma keeps_convert_types py_int : keeps same_but_df_clean (convert_types py_int).
Proof.
  unfold convert_types.
  keeps_step; [keeps_step|].
  repeat (keeps_step; [apply keeps_convert_column|]).
  apply keeps_convert_column.
Qed.

(** X1.  However a call of [clean_data] ends, with a table, with [None] or
    with an exception at any point of the cleaning, the loader keeps its
    raw table, its url, its path and its label mappings: [df_clean] is the
    only attribute the call assigns. *)
Theorem clean_data_keeps_raw :
  forall (str_to_num : string -> option Q) (py_int : string -> option Z)
         (self self' : MedicalInsuranceDataLoader) (out : list event)
         (r : result (option DataFrame)),
    clean_data str_to_num py_int self = (self', out, r) ->
    df_raw self' = df_raw self /\
    url self' = url self /\
    local_path self' = local_path self /\
    label_mappings self' = label_mappings self.
Proof.
  intros str_to_num py_int self self' out r H.
  assert (Hk : keeps same_but_df_clean (clean_data str_to_num py_int)).
  { unfold clean_data. keeps_step; [apply keeps_get_df_raw|].
    destruct a as [raw|].
    - keeps_step; [keeps_step|].
      keeps_step; [apply keeps_set_df_clean|].
      keeps_step; [apply keeps_clean_age|].
      keeps_step; [apply keeps_clean_smoker|].
      keeps_step; [apply keeps_convert_types|].
      keeps_step; [apply keeps_get_df_clean|].
      keeps_step; [keeps_step|].
      apply keeps_get_df_clean.
    - keeps_step; keeps_step. }
  destruct (Hk _ _ _ _ H) as (H1 & H2 & H3 & H4). auto.
Qed.

Lemma clean_data_keeps_raw_witness :
  df_raw (with_df_clean (loaded null_bmi_region_9) null_bmi_region_9)
    = df_raw (loaded null_bmi_region_9) /\
  url (with_df_clean (loaded null_bmi_region_9) null_bmi_region_9)
    = url (loaded null_bmi_region_9) /\
  local_path (with_df_clean (loaded null_bmi_region_9) null_bmi_region_9)
    = local_path (loaded null_bmi_region_9) /\
  label_mappings (with_df_clean (loaded null_bmi_region_9) null_bmi_region_9)
    = label_mappings (loaded null_bmi_region_9).
Proof.
  exact (clean_data_keeps_raw parse_num parse_int (loaded null_bmi_region_9)
           _ _ _ null_bmi_region_9_cleaned).
Defined.

(** ** Tables that are not accepted *)

Lemma clean_data_begin str_to_num py_int self raw
  (rest : M (option DataFrame)) self' out r :
  df_raw self = Some raw ->
  (clean_age str_to_num ;;
   clean_smoker str_to_num ;;
   convert_types py_int ;;
   df <- get_df_clean ;;
   print (CleaningComplete
            (match df with Some df => frame_isnull_sum df | None => 0 end)) ;;
   get_df_clean) (with_df_clean self raw) = (self', out, r) ->
  clean_data str_to_num py_int self = (self', StartingCleaning :: out, r).
Proof.
  intros Hraw Hrest. unfold clean_data.
  change (StartingCleaning :: out) with ([] ++ [StartingCleaning] ++ [] ++ out).
  eapply bind_run_ok; [reflexivity|]. rewrite Hraw.
  eapply bind_run_ok; [reflexivity|].
  eapply bind_run_ok; [reflexivity|]. exact Hrest.
Qed.

Lemma smoker_mode_of_no_value (smoker : Series) :
  dropna smoker = [] -> smoker_mode_of smoker = Raise (KeyError "0").
Proof.
  intros H. unfold smoker_mode_of, mode. rewrite H. reflexivity.
Qed.

(** X2.  A raw table without an age column is refused with the [KeyError]
    of the first subscript, after the copy has been made: [df_clean] then
    holds the raw table as it is, and is not [None]. *)
Theorem clean_data_without_age :
  forall (str_to_num : string -> option Q) (py_int : string -> option Z)
         (self : MedicalInsuranceDataLoader) (raw : DataFrame),
    df_raw self = Some raw ->
    get_col "age" raw = None ->
    clean_data str_to_num py_int self =
      (with_df_clean self raw, [StartingCleaning; CleaningAge],
       Raise (KeyError "age")).
Proof.
  intros str_to_num py_int self raw Hraw Hage.
  eapply (clean_data_begin _ _ _ _ (ret None)); [eassumption|].
  eapply bind_run_raise. apply (clean_age_no_column _ _ raw); auto.
Qed.

Lemma clean_data_without_age_witness :
  clean_data parse_num parse_int (loaded no_age) =
    (with_df_clean (loaded no_age) no_age, [StartingCleaning; CleaningAge],
     Raise (KeyError "age")).
Proof.
  exact (clean_data_without_age parse_num parse_int (loaded no_age) no_age
           eq_refl eq_refl).
Defined.

(** X3.  A raw table whose smoker column holds no value at all, a table
    without rows among them, is refused: [mode()] is empty and its
    subscript [0] is a [KeyError].  The age column is cleaned by then, and
    [df_clean] holds that half-cleaned table. *)
Theorem clean_data_without_smoker_value :
  forall (str_to_num : string -> option Q) (py_int : string -> option Z)
         (self : MedicalInsuranceDataLoader) (raw : DataFrame)
         (raw_age smoker : Series),
    df_raw self = Some raw ->
    get_col "age" raw = Some raw_age ->
    get_col "smoker" raw = Some smoker ->
    dropna smoker = [] ->
    exists out,
      clean_data str_to_num py_int self =
        (with_df_clean self (set_col "age" (imputed_age str_to_num raw_age) raw),
         out, Raise (KeyError "0")) /\
      last out StartingCleaning = CleaningSmoker.
Proof.
  intros str_to_num py_int self raw raw_age smoker Hraw Hage Hsmoker Hnone.
  eexists. split.
  - eapply (clean_data_begin _ _ _ _ (ret None)); [eassumption|].
    eapply bind_run_ok.
    { apply (clean_age_run _ _ raw raw_age); [reflexivity | assumption]. }
    eapply bind_run_raise.
    erewrite (clean_smoker_run str_to_num _ _ smoker); [|reflexivity|].
    + rewrite (smoker_mode_of_no_value _ Hnone). reflexivity.
    + rewrite get_col_set_col_other by discriminate. assumption.
  - destruct (0 <? missing_count str_to_num raw_age); reflexivity.
Qed.

Lemma clean_data_without_smoker_value_witness :
  exists out,
    clean_data parse_num parse_int (loaded no_rows) =
      (with_df_clean (loaded no_rows)
         (set_col "age" (imputed_age parse_num []) no_rows),
       out, Raise (KeyError "0")) /\
    last out StartingCleaning = CleaningSmoker.
Proof.
  exact (clean_data_without_smoker_value parse_num parse_int (loaded no_rows)
           no_rows [] [] eq_refl eq_refl eq_refl eq_refl).
Defined.

Lemma all_unparseable_no_values str_to_num (raw : Series) :
  (forall c, In c raw -> unparseable str_to_num c = true) ->
  parseable_values str_to_num raw = [].
Proof.
  unfold parseable_values, numeric_values, unparseable.
  induction raw as [|c raw IH]; simpl; intros H; [reflexivity|].
  rewrite IH by auto. specialize (H c (or_introl eq_refl)).
  destruct (coerced str_to_num c); try discriminate. reflexivity.
Qed.

(** X4.  A raw table with rows in which no age can be read is never
    accepted: the median of nothing is missing, the missing ages stay
    missing, and the cast to [int] cannot pass them. *)
Theorem clean_data_without_readable_age :
  forall (str_to_num : string -> option Q) (py_int : string -> option Z)
         (self : MedicalInsuranceDataLoader) (raw : DataFrame) (raw_age : Series),
    df_raw self = Some raw ->
    get_col "age" raw = Some raw_age ->
    raw_age <> [] ->
    (forall c, In c raw_age -> unparseable str_to_num c = true) ->
    exists self' out e,
      clean_data str_to_num py_int self = (self', out, Raise e).
Proof.
  intros str_to_num py_int self raw raw_age Hraw Hage Hne Hall.
  destruct (clean_data str_to_num py_int self) as [[self' out] [r|e]] eqn:Hrun;
    [|eauto].
  exfalso.
  apply (clean_data_ok_inv _ _ _ raw) in Hrun; [|assumption].
  destruct Hrun as (cleaned & _ & Hcleans & _).
  inversion Hcleans as
    [raw_age0 smoker smoker_num age_int sex sex_int children children_int
       smoker_int region region_int m
       Hage0 Hsmoker Hmode Hnum Hage_int Hsex Hsex_int Hchildren
       Hchildren_int Hsmoker_int Hregion Hregion_int Hcleaned].
  rewrite Hage in Hage0. inversion Hage0; subst raw_age0.
  destruct raw_age as [|c raw_age]; [contradiction|].
  destruct (traverse_nth _ _ _ _ _ Hage_int) as [_ Hnth].
  destruct (Hnth 0
              (if unparseable str_to_num c
               then median_of (parseable_values str_to_num (c :: raw_age))
               else coerced str_to_num c) eq_refl) as (y & Hy & _).
  rewrite (Hall c (or_introl eq_refl)) in Hy.
  rewrite (all_unparseable_no_values _ _ Hall) in Hy. discriminate Hy.
Qed.

Lemma clean_data_without_readable_age_witness :
  exists self' out e,
    clean_data parse_num parse_int (loaded no_readable_age) = (self', out, Raise e).
Proof.
  refine (clean_data_without_readable_age parse_num parse_int
            (loaded no_readable_age) no_readable_age [Str "n/a"; NaN]
            eq_refl eq_refl _ _).
  - discriminate.
  - intros c [<-|[<-|[]]]; reflexivity.
Defined.

(** The run on [no_readable_age], computed: the cast of the age column
    raises. *)
Example clean_data_no_readable_age :
  clean_data parse_num parse_int (loaded no_readable_age) =
    (with_df_clean (loaded no_readable_age)
       (set_col "age" [NaN; NaN] no_readable_age),
     [StartingCleaning; CleaningAge; FilledAge 2 NaN; CleaningSmoker;
      ConvertingTypes],
     Raise ValueError).
Proof. reflexivity. Qed.

(** ** The table that is returned *)




(** The run on [fractional_ages], computed: 30.5 becomes 30, -1.5 becomes
    -1, and the imputed median 30.5 of 30.5, 40 and -1.5 becomes 30. *)
Example fractional_ages_cleaned :
  clean_data parse_num parse_int (loaded fractional_ages) =
    (with_df_clean (loaded fractional_ages)
       (set_col "smoker" (ints [1; 0; 0; 0]%Z)
          (set_col "age" (ints [30; 30; 40; -1]%Z) fractional_ages)),
     [StartingCleaning; CleaningAge; FilledAge 1 (Num (61 # 2)); CleaningSmoker;
      ConvertingTypes; CleaningComplete 0],
     Ok (Some (set_col "smoker" (ints [1; 0; 0; 0]%Z)
                 (set_col "age" (ints [30; 30; 40; -1]%Z) fractional_ages)))).
Proof. reflexivity. Qed.


(** X6.  In the table [clean_data] returns, a smoker value that is not the
    sentinel is never replaced: it holds what [pd.to_numeric] and the cast
    to [int] make of the raw value of its row. *)
Theorem clean_data_keeps_smoker_values :
  forall (str_to_num : string -> option Q) (py_int : string -> option Z)
         (self self' : MedicalInsuranceDataLoader) (raw cleaned : DataFrame)
         (smoker : Series) (out : list event),
    df_raw self = Some raw ->
    get_col "smoker" raw = Some smoker ->
    clean_data str_to_num py_int self = (self', out, Ok (Some cleaned)) ->
    exists cleaned_smoker,
      get_col "smoker" cleaned = Some cleaned_smoker /\
      forall i c, nth_error smoker i = Some c -> c <> sentinel ->
        exists v, cleaned_value str_to_num py_int c = Ok v /\
                  nth_error cleaned_smoker i = Some v.
Proof.
  intros str_to_num py_int self self' raw cleaned smoker out Hraw Hsmoker Hrun.
  apply (clean_data_ok_inv _ _ _ raw) in Hrun; [|assumption].
  destruct Hrun as (cleaned' & Heq & Hcleans & _).
  inversion Heq; subst cleaned'. clear Heq.
  inversion Hcleans as
    [raw_age smoker0 smoker_num age_int sex sex_int children children_int
       smoker_int region region_int m
       Hage Hsmoker0 Hmode Hnum Hage_int Hsex Hsex_int Hchildren
       Hchildren_int Hsmoker_int Hregion Hregion_int Hcleaned].
  rewrite Hsmoker in Hsmoker0. inversion Hsmoker0; subst smoker0.
  exists smoker_int. split.
  - rewrite get_col_set_col_other by discriminate. apply get_col_set_col_same.
  - intros i c Hi Hc.
    assert (Heqb : cell_eqb c sentinel = false).
    { destruct (cell_eqb c sentinel) eqn:E; [|reflexivity].
      apply eqb_sentinel in E. contradiction. }
    assert (Hrep : nth_error (replace sentinel m smoker) i = Some c).
    { unfold replace. rewrite nth_error_map, Hi. simpl. rewrite Heqb. reflexivity. }
    destruct (traverse_nth _ _ _ _ _ Hnum) as [_ Hnth1].
    destruct (traverse_nth _ _ _ _ _ Hsmoker_int) as [_ Hnth2].
    destruct (Hnth1 i c Hrep) as (c1 & Hc1 & Hi1).
    destruct (Hnth2 i c1 Hi1) as (v & Hv & Hi2).
    exists v. split; [|assumption].
    unfold cleaned_value. rewrite Hc1. exact Hv.
Qed.

Lemma clean_data_keeps_smoker_values_witness :
  exists cleaned_smoker,
    get_col "smoker"
      (set_col "smoker" (ints [1; 0; 0; 0]%Z)
         (set_col "age" (ints [30; 30; 40; -1]%Z) fractional_ages))
      = Some cleaned_smoker /\
    forall i c, nth_error [Str "1"; Str "0"; Str "?"; Str "0"] i = Some c ->
      c <> sentinel ->
      exists v, cleaned_value parse_num parse_int c = Ok v /\
                nth_error cleaned_smoker i = Some v.
Proof.
  exact (clean_data_keeps_smoker_values parse_num parse_int
           (loaded fractional_ages) _ fractional_ages _
           [Str "1"; Str "0"; Str "?"; Str "0"] _
           eq_refl eq_refl fractional_ages_cleaned).
Defined.

Lemma shape_set_col name (s s' : Series) (df : DataFrame) :
  get_col name df = Some s ->
  List.length s' = List.length s ->
  shape (set_col name s' df) = shape df.
Proof.
  intros Hget Hlen. induction df as [|[n s0] df IH]; simpl in *; [discriminate|].
  destruct (String.eqb n name) eqn:E.
  - inversion Hget; subst s0. simpl. rewrite Hlen. reflexivity.
  - simpl. rewrite IH by assumption. reflexivity.
Qed.

(** X7.  Cleaning keeps the shape of the table: the table [clean_data]
    returns has the columns of the raw table, under the same names and in
    the same order, and every column has as many rows as before.  No row
    and no column is dropped or added. *)
Theorem clean_data_keeps_shape :
  forall (str_to_num : string -> option Q) (py_int : string -> option Z)
         (self self' : MedicalInsuranceDataLoader) (raw cleaned : DataFrame)
         (out : list event),
    df_raw self = Some raw ->
    clean_data str_to_num py_int self = (self', out, Ok (Some cleaned)) ->
    shape cleaned = shape raw.
Proof.
  intros str_to_num py_int self self' raw cleaned out Hraw Hrun.
  apply (clean_data_ok_inv _ _ _ raw) in Hrun; [|assumption].
  destruct Hrun as (cleaned' & Heq & Hcleans & _).
  inversion Heq; subst cleaned'. clear Heq.
  inversion Hcleans as
    [raw_age smoker smoker_num age_int sex sex_int children children_int
       smoker_int region region_int m
       Hage Hsmoker Hmode Hnum Hage_int Hsex Hsex_int Hchildren
       Hchildren_int Hsmoker_int Hregion Hregion_int Hcleaned].
  destruct (traverse_nth _ _ _ _ _ Hnum) as [Hlen_num _].
  destruct (traverse_nth _ _ _ _ _ Hage_int) as [Hlen_age _].
  destruct (traverse_nth _ _ _ _ _ Hsex_int) as [Hlen_sex _].
  destruct (traverse_nth _ _ _ _ _ Hchildren_int) as [Hlen_children _].
  destruct (traverse_nth _ _ _ _ _ Hsmoker_int) as [Hlen_smoker _].
  destruct (traverse_nth _ _ _ _ _ Hregion_int) as [Hlen_region _].
  rewrite (shape_set_col "region" region region_int);
    [|rewrite !get_col_set_col_other by discriminate; assumption | assumption].
  rewrite (shape_set_col "smoker" smoker_num smoker_int);
    [|rewrite !get_col_set_col_other by discriminate; apply get_col_set_col_same
     | assumption].
  rewrite (shape_set_col "children" children children_int);
    [|rewrite !get_col_set_col_other by discriminate; assumption | assumption].
  rewrite (shape_set_col "sex" sex sex_int);
    [|rewrite !get_col_set_col_other by discriminate; assumption | assumption].
  rewrite (shape_set_col "age" (imputed_age str_to_num raw_age) age_int);
    [|rewrite !get_col_set_col_other by discriminate; apply get_col_set_col_same
     | assumption].
  rewrite (shape_set_col "smoker" smoker smoker_num);
    [|rewrite !get_col_set_col_other by discriminate; assumption
     | rewrite Hlen_num; unfold replace; apply length_map].
  rewrite (shape_set_col "age" raw_age (imputed_age str_to_num raw_age));
    [reflexivity | assumption | unfold imputed_age; apply length_map].
Qed.

Lemma clean_data_keeps_shape_witness :
  shape (set_col "smoker" (ints [1; 0; 0; 0]%Z)
           (set_col "age" (ints [30; 30; 40; -1]%Z) fractional_ages))
  = shape fractional_ages.
Proof.
  exact (clean_data_keeps_shape parse_num parse_int (loaded fractional_ages)
           _ fractional_ages _ _ eq_refl fractional_ages_cleaned).
Defined.

(** ** Cleaning a clean table *)

(** The run of [clean_data] along a path that returns. *)
Lemma clean_data_run str_to_num py_int self raw raw_age cleaned :
  df_raw self = Some raw ->
  get_col "age" raw = Some raw_age ->
  cleans str_to_num py_int raw cleaned ->
  clean_data str_to_num py_int self =
    (with_df_clean self cleaned,
     StartingCleaning :: CleaningAge ::
       (if 0 <? missing_count str_to_num raw_age
        then [FilledAge (missing_count str_to_num raw_age)
                (median_of (parseable_values str_to_num raw_age))]
        else [])
       ++ [CleaningSmoker; ConvertingTypes;
           CleaningComplete (frame_isnull_sum cleaned)],
     Ok (Some cleaned)).
Proof.
  intros Hraw Hage Hcleans.
  inversion Hcleans as
    [raw_age0 smoker smoker_num age_int sex sex_int children children_int
       smoker_int region region_int m
       Hage0 Hsmoker Hmode Hnum Hage_int Hsex Hsex_int Hchildren
       Hchildren_int Hsmoker_int Hregion Hregion_int Hcleaned].
  rewrite Hage in Hage0. inversion Hage0; subst raw_age0. clear Hage0.
  etransitivity.
  - eapply (clean_data_begin _ _ _ _ (ret None)); [eassumption|].
    eapply bind_run_ok.
    { apply (clean_age_run _ _ raw raw_age); [reflexivity | assumption]. }
    eapply bind_run_ok.
    { erewrite (clean_smoker_run str_to_num _ _ smoker); [|reflexivity|].
      - rewrite Hmode, Hnum. reflexivity.
      - rewrite get_col_set_col_other by discriminate. assumption. }
    eapply bind_run_ok.
    { unfold convert_types. eapply bind_run_ok; [reflexivity|].
      eapply bind_run_ok.
      { erewrite (convert_column_run py_int "age"); [|reflexivity|].
        - rewrite Hage_int. reflexivity.
        - rewrite get_col_set_col_other by discriminate.
          apply get_col_set_col_same. }
      eapply bind_run_ok.
      { erewrite (convert_column_run py_int "sex"); [|reflexivity|].
        - rewrite Hsex_int. reflexivity.
        - rewrite !get_col_set_col_other by discriminate. assumption. }
      eapply bind_run_ok.
      { erewrite (convert_column_run py_int "children"); [|reflexivity|].
        - rewrite Hchildren_int. reflexivity.
        - rewrite !get_col_set_col_other by discriminate. assumption. }
      eapply bind_run_ok.
      { erewrite (convert_column_run py_int "smoker"); [|reflexivity|].
        - rewrite Hsmoker_int. reflexivity.
        - rewrite !get_col_set_col_other by discriminate.
          apply get_col_set_col_same. }
      erewrite (convert_column_run py_int "region"); [|reflexivity|].
      - rewrite Hregion_int. reflexivity.
      - rewrite !get_col_set_col_other by discriminate. assumption. }
    eapply bind_run_ok; [reflexivity|].
    eapply bind_run_ok; [reflexivity|].
    reflexivity.
  - simpl. destruct (0 <? missing_count str_to_num raw_age); reflexivity.
Qed.

Lemma set_col_same_value name (s : Series) (df : DataFrame) :
  get_col name df = Some s -> set_col name s df = df.
Proof.
  induction df as [|[n s0] df IH]; simpl; [discriminate|].
  destruct (String.eqb n name) eqn:E.
  - intros H. inversion H. reflexivity.
  - intros H. rewrite IH by assumption. reflexivity.
Qed.

Lemma imputed_age_integers str_to_num (col : Series) :
  Forall is_integer col -> imputed_age str_to_num col = col.
Proof.
  intros H. unfold imputed_age.
  transitivity (map (fun c : cell => c) col); [|apply map_id].
  apply map_ext_in. intros c Hc.
  rewrite Forall_forall in H. destruct (H c Hc) as [z ->]. reflexivity.
Qed.

Lemma missing_count_integers str_to_num (col : Series) :
  Forall is_integer col -> missing_count str_to_num col = 0.
Proof.
  unfold missing_count. induction 1 as [|c col [z ->] _ IH]; simpl; auto.
Qed.

Lemma Qtrunc_inject_Z (z : Z) : Qtrunc (inject_Z z) = z.
Proof. unfold Qtrunc, inject_Z. simpl. apply Z.quot_1_r. Qed.

Lemma astype_int_of_integers py_int (col : Series) :
  Forall is_integer col -> astype_int py_int col = Ok col.
Proof.
  unfold astype_int. induction 1 as [|c col [z ->] _ IH]; simpl; [reflexivity|].
  rewrite Qtrunc_inject_Z, IH. reflexivity.
Qed.

Lemma to_numeric_of_integers str_to_num errors (col : Series) :
  Forall is_integer col -> to_numeric str_to_num errors col = Ok col.
Proof.
  unfold to_numeric. induction 1 as [|c col [z ->] _ IH]; simpl; [reflexivity|].
  rewrite IH. reflexivity.
Qed.

Lemma replace_sentinel_integers value (col : Series) :
  Forall is_integer col -> replace sentinel value col = col.
Proof.
  intros H. unfold replace.
  transitivity (map (fun c : cell => c) col); [|apply map_id].
  apply map_ext_in. intros c Hc.
  rewrite Forall_forall in H. destruct (H c Hc) as [z ->]. reflexivity.
Qed.

(** A column with a value that is not missing has a modal value. *)
Lemma mode_not_empty (s : Series) (c : cell) :
  In c s -> is_null c = false -> mode s <> [].
Proof.
  intros Hin Hc Hmode. unfold mode in Hmode.
  assert (Hvals : In c (dropna s)).
  { unfold dropna. apply filter_In. rewrite Hc. auto. }
  destruct (max_count_attained (dropna s)) as [d [Hd Hcount]].
  { intros Hnil. rewrite Hnil in Hvals. contradiction. }
  destruct (unique_represents _ _ Hd (dropna_not_null _ _ Hd)) as [u [Hu Hud]].
  assert (Hmodal : In u (sort_modes
                          (filter (fun c => count c (dropna s) =? max_count (dropna s))
                             (unique (dropna s))))).
  { apply In_sort_modes. apply filter_In. split; [assumption|].
    apply Nat.eqb_eq. rewrite (count_congr _ _ _ Hud). assumption. }
  rewrite Hmode in Hmodal. contradiction.
Qed.

Lemma mode_incl (s : Series) (c : cell) : In c (mode s) -> In c s.
Proof.
  unfold mode. intros H. apply (proj1 (In_sort_modes _ _)) in H.
  apply filter_In in H.
  destruct H as [H _]. apply unique_incl in H. unfold dropna in H.
  apply filter_In in H. tauto.
Qed.

Lemma smoker_mode_of_integers (col : Series) :
  Forall is_integer col -> col <> [] -> exists m, smoker_mode_of col = Ok m.
Proof.
  intros Hint Hne. unfold smoker_mode_of.
  assert (Hq : question_mark_in_str (mode col) = false).
  { unfold question_mark_in_str.
    destruct (existsb _ (mode col)) eqn:E; [|reflexivity].
    apply existsb_exists in E. destruct E as [c [Hc Hmark]].
    apply mode_incl in Hc. rewrite Forall_forall in Hint.
    destruct (Hint c Hc) as [z ->]. discriminate Hmark. }
  rewrite Hq. simpl.
  destruct (mode col) as [|m ms] eqn:Em; [|exists m; reflexivity].
  exfalso. destruct col as [|c col]; [contradiction|].
  inversion Hint as [|? ? [z Hz] _]; subst.
  apply (mode_not_empty (Num (inject_Z z) :: col) (Num (inject_Z z)));
    [left; reflexivity | reflexivity | assumption].
Qed.

(** A table whose five columns hold integers, the smoker column not empty,
    goes through the cleaning unchanged. *)
Lemma cleans_clean_table str_to_num py_int (t : DataFrame)
  (age sex children smoker region : Series) :
  get_col "age" t = Some age -> Forall is_integer age ->
  get_col "sex" t = Some sex -> Forall is_integer sex ->
  get_col "children" t = Some children -> Forall is_integer children ->
  get_col "smoker" t = Some smoker -> Forall is_integer smoker -> smoker <> [] ->
  get_col "region" t = Some region -> Forall is_integer region ->
  cleans str_to_num py_int t t.
Proof.
  intros Hage Iage Hsex Isex Hchildren Ichildren Hsmoker Ismoker Hne
    Hregion Iregion.
  destruct (smoker_mode_of_integers smoker Ismoker Hne) as [m Hm].
  assert (Hpath :
            cleans str_to_num py_int t
              (set_col "region" region
                 (set_col "smoker" smoker
                    (set_col "children" children
                       (set_col "sex" sex
                          (set_col "age" age
                             (set_col "smoker" smoker
                                (set_col "age" (imputed_age str_to_num age) t)))))))).
  { apply (cleans_intro str_to_num py_int t age smoker smoker age sex sex
             children children smoker region region m); try assumption.
    - rewrite replace_sentinel_integers by assumption.
      apply to_numeric_of_integers. assumption.
    - rewrite imputed_age_integers by assumption.
      apply astype_int_of_integers. assumption.
    - apply astype_int_of_integers. assumption.
    - apply astype_int_of_integers. assumption.
    - apply astype_int_of_integers. assumption.
    - apply astype_int_of_integers. assumption. }
  rewrite imputed_age_integers in Hpath by assumption.
  rewrite (set_col_same_value "age" age t Hage) in Hpath.
  rewrite (set_col_same_value "smoker" smoker t Hsmoker) in Hpath.
  rewrite (set_col_same_value "age" age t Hage) in Hpath.
  rewrite (set_col_same_value "sex" sex t Hsex) in Hpath.
  rewrite (set_col_same_value "children" children t Hchildren) in Hpath.
  rewrite (set_col_same_value "smoker" smoker t Hsmoker) in Hpath.
  rewrite (set_col_same_value "region" region t Hregion) in Hpath.
  exact Hpath.
Qed.

(** The five integer columns of a table the cleaning returns. *)
Lemma cleans_integer_columns str_to_num py_int raw cleaned :
  cleans str_to_num py_int raw cleaned ->
  exists age sex children smoker region,
    get_col "age" cleaned = Some age /\ Forall is_integer age /\
    get_col "sex" cleaned = Some sex /\ Forall is_integer sex /\
    get_col "children" cleaned = Some children /\ Forall is_integer children /\
    get_col "smoker" cleaned = Some smoker /\ Forall is_integer smoker /\
    smoker <> [] /\
    get_col "region" cleaned = Some region /\ Forall is_integer region.
Proof.
  intros Hcleans.
  inversion Hcleans as
    [raw_age smoker smoker_num age_int sex sex_int children children_int
       smoker_int region region_int m
       Hage Hsmoker Hmode Hnum Hage_int Hsex Hsex_int Hchildren
       Hchildren_int Hsmoker_int Hregion Hregion_int Hcleaned].
  exists age_int, sex_int, children_int, smoker_int, region_int.
  repeat split;
    try (rewrite ?get_col_set_col_other by discriminate;
         apply get_col_set_col_same);
    try (eapply astype_int_integers; eassumption).
  intros Hnil.
  destruct (traverse_nth _ _ _ _ _ Hnum) as [Hlen1 _].
  destruct (traverse_nth _ _ _ _ _ Hsmoker_int) as [Hlen2 _].
  unfold replace in Hlen1. rewrite length_map in Hlen1.
  destruct smoker as [|c smoker]; [discriminate Hmode|].
  rewrite Hnil in Hlen2. simpl in *. lia.
Qed.

Lemma ints_integer (l : list Z) : Forall is_integer (ints l).
Proof.
  unfold ints. induction l as [|z l IH]; simpl; constructor; auto.
  exists z. reflexivity.
Qed.

(** ** The imputed age in the table that is returned *)




Lemma is_int64_integer (col : Series) : Forall is_int64 col -> Forall is_integer col.
Proof.
  intros H. eapply Forall_impl; [|exact H].
  intros c (z & Hc & _). exists z. assumption.
Qed.

Lemma ints_int64 (l : list Z) : Forall in_int64 l -> Forall is_int64 (ints l).
Proof.
  unfold ints. induction 1 as [|z l Hz Hl IH]; simpl; constructor; auto.
  exists z. auto.
Qed.

(** X8.  A table whose columns age, sex, children, smoker and region hold
    integers of [int64] only, with at least one row, is accepted by
    [clean_data] and returned as it is: nothing is imputed, nothing is
    replaced, and no imputation is reported. *)
Theorem clean_data_clean_table :
  forall (str_to_num : string -> option Q) (py_int : string -> option Z)
         (self : MedicalInsuranceDataLoader) (t : DataFrame)
         (age sex children smoker region : Series),
    df_raw self = Some t ->
    get_col "age" t = Some age -> Forall is_int64 age ->
    get_col "sex" t = Some sex -> Forall is_int64 sex ->
    get_col "children" t = Some children -> Forall is_int64 children ->
    get_col "smoker" t = Some smoker -> Forall is_int64 smoker -> smoker <> [] ->
    get_col "region" t = Some region -> Forall is_int64 region ->
    clean_data str_to_num py_int self =
      (with_df_clean self t,
       [StartingCleaning; CleaningAge; CleaningSmoker; ConvertingTypes;
        CleaningComplete (frame_isnull_sum t)],
       Ok (Some t)).
Proof.
  intros str_to_num py_int self t age sex children smoker region Hraw
    Hage Iage Hsex Isex Hchildren Ichildren Hsmoker Ismoker Hne Hregion Iregion.
  apply is_int64_integer in Iage, Isex, Ichildren, Ismoker, Iregion.
  rewrite (clean_data_run str_to_num py_int self t age t Hraw Hage).
  - rewrite missing_count_integers by assumption. reflexivity.
  - eapply cleans_clean_table; eassumption.
Qed.

Lemma clean_data_clean_table_witness :
  clean_data parse_num parse_int (loaded null_bmi_region_9) =
    (with_df_clean (loaded null_bmi_region_9) null_bmi_region_9,
     [StartingCleaning; CleaningAge; CleaningSmoker; ConvertingTypes;
      CleaningComplete (frame_isnull_sum null_bmi_region_9)],
     Ok (Some null_bmi_region_9)).
Proof.
  refine (clean_data_clean_table parse_num parse_int (loaded null_bmi_region_9)
            null_bmi_region_9
            (ints [19; 18; 28]%Z) (ints [2; 1; 1]%Z) (ints [0; 1; 3]%Z)
            (ints [1; 0; 0]%Z) (ints [4; 3; 9]%Z)
            eq_refl eq_refl (ints_int64 _ _) eq_refl (ints_int64 _ _)
            eq_refl (ints_int64 _ _) eq_refl (ints_int64 _ _) _
            eq_refl (ints_int64 _ _));
    try discriminate;
    repeat constructor; discriminate.
Defined.

(** X9.  Cleaning is idempotent: the table a call of [clean_data] returns,
    given to [clean_data] as a raw table, is accepted and returned as it
    is. *)
Theorem clean_data_idempotent :
  forall (str_to_num : string -> option Q) (py_int : string -> option Z)
         (self self' again : MedicalInsuranceDataLoader) (raw cleaned : DataFrame)
         (out : list event),
    df_raw self = Some raw ->
    clean_data str_to_num py_int self = (self', out, Ok (Some cleaned)) ->
    df_raw again = Some cleaned ->
    clean_data str_to_num py_int again =
      (with_df_clean again cleaned,
       [StartingCleaning; CleaningAge; CleaningSmoker; ConvertingTypes;
        CleaningComplete (frame_isnull_sum cleaned)],
       Ok (Some cleaned)).
Proof.
  intros str_to_num py_int self self' again raw cleaned out Hraw Hrun Hagain.
  apply (clean_data_ok_inv _ _ _ raw) in Hrun; [|assumption].
  destruct Hrun as (cleaned' & Heq & Hcleans & _).
  inversion Heq; subst cleaned'. clear Heq.
  destruct (cleans_integer_columns _ _ _ _ Hcleans)
    as (age & sex & children & smoker & region & Hage & Iage & Hsex & Isex
        & Hchildren & Ichildren & Hsmoker & Ismoker & Hne & Hregion & Iregion).
  rewrite (clean_data_run str_to_num py_int again cleaned age cleaned Hagain Hage).
  - rewrite missing_count_integers by assumption. reflexivity.
  - eapply cleans_clean_table; eassumption.
Qed.

Lemma clean_data_idempotent_witness :
  clean_data parse_num parse_int
    (loaded (set_col "smoker" (ints [1; 0; 0; 0]%Z)
               (set_col "age" (ints [30; 30; 40; -1]%Z) fractional_ages))) =
    (with_df_clean
       (loaded (set_col "smoker" (ints [1; 0; 0; 0]%Z)
                  (set_col "age" (ints [30; 30; 40; -1]%Z) fractional_ages)))
       (set_col "smoker" (ints [1; 0; 0; 0]%Z)
          (set_col "age" (ints [30; 30; 40; -1]%Z) fractional_ages)),
     [StartingCleaning; CleaningAge; CleaningSmoker; ConvertingTypes;
      CleaningComplete
        (frame_isnull_sum
           (set_col "smoker" (ints [1; 0; 0; 0]%Z)
              (set_col "age" (ints [30; 30; 40; -1]%Z) fractional_ages)))],
     Ok (Some (set_col "smoker" (ints [1; 0; 0; 0]%Z)
                 (set_col "age" (ints [30; 30; 40; -1]%Z) fractional_ages)))).
Proof.
  exact (clean_data_idempotent parse_num parse_int (loaded fractional_ages) _
           (loaded (set_col "smoker" (ints [1; 0; 0; 0]%Z)
                      (set_col "age" (ints [30; 30; 40; -1]%Z) fractional_ages)))
           fractional_ages _ _ eq_refl fractional_ages_cleaned eq_refl).
Defined.

(** ** The labeled table *)

Lemma create_labeled_data_run self df sex smoker region :
  df_clean self = Some df ->
  label_mappings self = label_mappings (init None None) ->
  get_col "sex" df = Some sex ->
  get_col "smoker" df = Some smoker ->
  get_col "region" df = Some region ->
  create_labeled_data self =
    (self, [],
     Ok (Some (set_col "region_label" (map_dict region_labels region)
                 (set_col "smoker_label" (map_dict smoker_labels smoker)
                    (set_col "sex_label" (map_dict sex_labels sex) df))))).
Proof.
  intros Hclean Hmaps Hsex Hsmoker Hregion.
  unfold create_labeled_data.
  eapply bind_run_ok with (out1 := []); [unfold get_df_clean; reflexivity|].
  rewrite Hclean.
  eapply bind_run_ok with (out1 := []);
    [unfold lift, getitem; rewrite Hsex; reflexivity|].
  eapply bind_run_ok with (out1 := []);
    [apply get_label_mapping_run; rewrite Hmaps; reflexivity|].
  eapply bind_run_ok with (out1 := []).
  { unfold lift, getitem.
    rewrite get_col_set_col_other, Hsmoker by discriminate. reflexivity. }
  eapply bind_run_ok with (out1 := []);
    [apply get_label_mapping_run; rewrite Hmaps; reflexivity|].
  eapply bind_run_ok with (out1 := []).
  { unfold lift, getitem.
    rewrite !get_col_set_col_other, Hregion by discriminate. reflexivity. }
  eapply bind_run_ok with (out1 := []);
    [apply get_label_mapping_run; rewrite Hmaps; reflexivity|].
  reflexivity.
Qed.

Lemma set_col_absent name (s : Series) (df : DataFrame) :
  get_col name df = None -> set_col name s df = df ++ [(name, s)].
Proof.
  induction df as [|[n s0] df IH]; simpl; [reflexivity|].
  destruct (String.eqb n name); [discriminate|].
  intros H. rewrite IH by assumption. reflexivity.
Qed.

Lemma get_col_app_absent name name' (s : Series) (df : DataFrame) :
  name <> name' ->
  get_col name' df = None -> get_col name' (df ++ [(name, s)]) = None.
Proof.
  intros Hne. induction df as [|[n s0] df IH]; simpl.
  - destruct (String.eqb_spec name name'); [contradiction | reflexivity].
  - destruct (String.eqb n name'); [discriminate | exact IH].
Qed.

(** X10.  Labeling adds and changes nothing else: every column of the
    clean table whose name is not one of the three label names stands in
    the labeled table as it was; and when the clean table has no column of
    those names, the labeled table is the clean table followed by the
    columns [sex_label], [smoker_label] and [region_label], in that
    order. *)
Theorem create_labeled_data_appends :
  forall (self : MedicalInsuranceDataLoader) (df : DataFrame)
         (sex smoker region : Series),
    df_clean self = Some df ->
    label_mappings self = label_mappings (init None None) ->
    get_col "sex" df = Some sex ->
    get_col "smoker" df = Some smoker ->
    get_col "region" df = Some region ->
    exists labeled,
      create_labeled_data self = (self, [], Ok (Some labeled)) /\
      (forall name, ~ In name label_columns ->
         get_col name labeled = get_col name df) /\
      ((forall name, In name label_columns -> get_col name df = None) ->
       labeled = df ++ [("sex_label", map_dict sex_labels sex);
                        ("smoker_label", map_dict smoker_labels smoker);
                        ("region_label", map_dict region_labels region)]).
Proof.
  intros self df sex smoker region Hclean Hmaps Hsex Hsmoker Hregion.
  eexists. split; [|split].
  - apply (create_labeled_data_run self df sex smoker region); assumption.
  - intros name Hnot. unfold label_columns in Hnot. simpl in Hnot.
    rewrite !get_col_set_col_other; [reflexivity| | |];
      intros <-; apply Hnot; auto.
  - intros Habsent.
    assert (H1 : get_col "sex_label" df = None) by (apply Habsent; simpl; auto).
    assert (H2 : get_col "smoker_label" df = None) by (apply Habsent; simpl; auto).
    assert (H3 : get_col "region_label" df = None) by (apply Habsent; simpl; auto).
    rewrite (set_col_absent "sex_label" _ df H1).
    rewrite (set_col_absent "smoker_label").
    + rewrite (set_col_absent "region_label").
      * rewrite <- !app_assoc. reflexivity.
      * apply get_col_app_absent; [discriminate|].
        apply get_col_app_absent; [discriminate | assumption].
    + apply get_col_app_absent; [discriminate | assumption].
Qed.

Lemma create_labeled_data_appends_witness :
  exists labeled,
    create_labeled_data (with_df_clean (init None None) out_of_domain)
      = (with_df_clean (init None None) out_of_domain, [], Ok (Some labeled)) /\
    (forall name, ~ In name label_columns ->
       get_col name labeled = get_col name out_of_domain) /\
    ((forall name, In name label_columns -> get_col name out_of_domain = None) ->
     labeled = out_of_domain ++
               [("sex_label", map_dict sex_labels (ints [1; 2; 3]%Z));
                ("smoker_label", map_dict smoker_labels (ints [0; 1; 2]%Z));
                ("region_label", map_dict region_labels (ints [1; 4; 9]%Z))]).
Proof.
  exact (create_labeled_data_appends
           (with_df_clean (init None None) out_of_domain) out_of_domain
           (ints [1; 2; 3]%Z) (ints [0; 1; 2]%Z) (ints [1; 4; 9]%Z)
           eq_refl eq_refl eq_refl eq_refl eq_refl).
Defined.

(** X11.  After a call of [clean_data] that returns a table, labeling
    cannot fail: on the loader as that call leaves it,
    [create_labeled_data] returns a table, not [None] and not an
    exception, and that table holds unchanged every column of the clean
    table that is not named as one of the three label columns. *)
Theorem clean_then_label :
  forall (str_to_num : string -> option Q) (py_int : string -> option Z)
         (self self' : MedicalInsuranceDataLoader) (raw cleaned : DataFrame)
         (out : list event),
    label_mappings self = label_mappings (init None None) ->
    df_raw self = Some raw ->
    clean_data str_to_num py_int self = (self', out, Ok (Some cleaned)) ->
    exists labeled,
      create_labeled_data self' = (self', [], Ok (Some labeled)) /\
      forall name, ~ In name label_columns ->
        get_col name labeled = get_col name cleaned.
Proof.
  intros str_to_num py_int self self' raw cleaned out Hmaps Hraw Hrun.
  apply (clean_data_ok_inv _ _ _ raw) in Hrun; [|assumption].
  destruct Hrun as (cleaned' & Heq & Hcleans & ->).
  inversion Heq; subst cleaned'. clear Heq.
  destruct (cleans_integer_columns _ _ _ _ Hcleans)
    as (age & sex & children & smoker & region & Hage & Iage & Hsex & Isex
        & Hchildren & Ichildren & Hsmoker & Ismoker & Hne & Hregion & Iregion).
  eexists. split.
  - apply (create_labeled_data_run _ cleaned sex smoker region);
      [reflexivity | exact Hmaps | assumption | assumption | assumption].
  - intros name Hnot. unfold label_columns in Hnot. simpl in Hnot.
    rewrite !get_col_set_col_other; [reflexivity| | |];
      intros <-; apply Hnot; auto.
Qed.

Lemma clean_then_label_witness :
  exists labeled,
    create_labeled_data
      (with_df_clean (loaded fractional_ages)
         (set_col "smoker" (ints [1; 0; 0; 0]%Z)
            (set_col "age" (ints [30; 30; 40; -1]%Z) fractional_ages)))
    = (with_df_clean (loaded fractional_ages)
         (set_col "smoker" (ints [1; 0; 0; 0]%Z)
            (set_col "age" (ints [30; 30; 40; -1]%Z) fractional_ages)),
       [], Ok (Some labeled)) /\
    forall name, ~ In name label_columns ->
      get_col name labeled =
      get_col name
        (set_col "smoker" (ints [1; 0; 0; 0]%Z)
           (set_col "age" (ints [30; 30; 40; -1]%Z) fractional_ages)).
Proof.
  exact (clean_then_label parse_num parse_int (loaded fractional_ages) _
           fractional_ages _ _ eq_refl eq_refl fractional_ages_cleaned).
Defined.

(** X12.  Labeling a clean table that lacks one of the code columns fails
    with the [KeyError] of the first missing one, in the order sex, smoker,
    region, and leaves the loader as it was. *)
Theorem create_labeled_data_missing_column :
  forall (self : MedicalInsuranceDataLoader) (df : DataFrame),
    df_clean self = Some df ->
    label_mappings self = label_mappings (init None None) ->
    (get_col "sex" df = None ->
     create_labeled_data self = (self, [], Raise (KeyError "sex"))) /\
    (forall sex, get_col "sex" df = Some sex -> get_col "smoker" df = None ->
     create_labeled_data self = (self, [], Raise (KeyError "smoker"))) /\
    (forall sex smoker,
       get_col "sex" df = Some sex -> get_col "smoker" df = Some smoker ->
       get_col "region" df = None ->
       create_labeled_data self = (self, [], Raise (KeyError "region"))).
Proof.
  intros self df Hclean Hmaps. split; [|split].
  - intros Hsex. unfold create_labeled_data.
    eapply bind_run_ok with (out1 := []); [unfold get_df_clean; reflexivity|].
    rewrite Hclean. eapply bind_run_raise.
    unfold lift, getitem. rewrite Hsex. reflexivity.
  - intros sex Hsex Hsmoker. unfold create_labeled_data.
    eapply bind_run_ok with (out1 := []); [unfold get_df_clean; reflexivity|].
    rewrite Hclean.
    eapply bind_run_ok with (out1 := []);
      [unfold lift, getitem; rewrite Hsex; reflexivity|].
    eapply bind_run_ok with (out1 := []);
      [apply get_label_mapping_run; rewrite Hmaps; reflexivity|].
    eapply bind_run_raise. unfold lift, getitem.
    rewrite get_col_set_col_other, Hsmoker by discriminate. reflexivity.
  - intros sex smoker Hsex Hsmoker Hregion. unfold create_labeled_data.
    eapply bind_run_ok with (out1 := []); [unfold get_df_clean; reflexivity|].
    rewrite Hclean.
    eapply bind_run_ok with (out1 := []);
      [unfold lift, getitem; rewrite Hsex; reflexivity|].
    eapply bind_run_ok with (out1 := []);
      [apply get_label_mapping_run; rewrite Hmaps; reflexivity|].
    eapply bind_run_ok with (out1 := []).
    { unfold lift, getitem.
      rewrite get_col_set_col_other, Hsmoker by discriminate. reflexivity. }
    eapply bind_run_ok with (out1 := []);
      [apply get_label_mapping_run; rewrite Hmaps; reflexivity|].
    eapply bind_run_raise. unfold lift, getitem.
    rewrite !get_col_set_col_other, Hregion by discriminate. reflexivity.
Qed.

Lemma create_labeled_data_missing_column_witness :
  create_labeled_data (with_df_clean (init None None) no_age)
    = (with_df_clean (init None None) no_age, [], Raise (KeyError "region")).
Proof.
  exact (proj2 (proj2 (create_labeled_data_missing_column
                         (with_df_clean (init None None) no_age) no_age
                         eq_refl eq_refl))
           (ints [2; 1]%Z) (ints [1; 0]%Z) eq_refl eq_refl eq_refl).
Defined.

(** X13.  [create_labeled_data] never assigns an attribute of the loader:
    however the call ends, the loader after it is the loader before it, so
    the clean table is not replaced by the labeled one. *)
Theorem create_labeled_data_pure :
  forall (self self' : MedicalInsuranceDataLoader) (out : list event)
         (r : result (option DataFrame)),
    create_labeled_data self = (self', out, r) -> self' = self.
Proof.
  intros self self' out r H.
  assert (Hk : keeps (fun a b : MedicalInsuranceDataLoader => b = a)
                 create_labeled_data).
  { assert (Htrans : forall x y z : MedicalInsuranceDataLoader,
               y = x -> z = y -> z = x) by congruence.
    assert (Hrefl : forall x : MedicalInsuranceDataLoader, x = x) by reflexivity.
    assert (Hget : keeps (fun a b : MedicalInsuranceDataLoader => b = a)
                     get_df_clean).
    { intros s s' o r0 E. inversion E. reflexivity. }
    assert (Hmap : forall name,
               keeps (fun a b : MedicalInsuranceDataLoader => b = a)
                 (get_label_mapping name)).
    { intros name s s' o r0 E. inversion E. reflexivity. }
    unfold create_labeled_data.
    apply keeps_bind; [exact Htrans | exact Hget | intros clean].
    destruct clean as [df|].
    - apply keeps_bind; [exact Htrans | apply keeps_lift; exact Hrefl | intros sex].
      apply keeps_bind; [exact Htrans | apply Hmap | intros sex_map].
      apply keeps_bind; [exact Htrans | apply keeps_lift; exact Hrefl | intros smoker].
      apply keeps_bind; [exact Htrans | apply Hmap | intros smoker_map].
      apply keeps_bind; [exact Htrans | apply keeps_lift; exact Hrefl | intros region].
      apply keeps_bind; [exact Htrans | apply Hmap | intros region_map].
      apply keeps_ret. exact Hrefl.
    - apply keeps_bind; [exact Htrans | apply keeps_print; exact Hrefl | intros _].
      apply keeps_ret. exact Hrefl. }
  exact (Hk _ _ _ _ H).
Qed.

Lemma create_labeled_data_pure_witness :
  with_df_clean (init None None) no_age = with_df_clean (init None None) no_age.
Proof.
  exact (create_labeled_data_pure (with_df_clean (init None None) no_age)
           (with_df_clean (init None None) no_age) [] (Raise (KeyError "region"))
           eq_refl).
Defined.

(** * Properties of the analyzer *)

Import Float Analyzer AnalyzerSpec.

(** ** Dictionaries *)

Lemma dict_get_set_same (V : Type) key (v : V) d :
  dict_get key (dict_set key v d) = Some v.
Proof.
  induction d as [|[k v0] d IH]; simpl.
  - rewrite String.eqb_refl. reflexivity.
  - destruct (String.eqb k key) eqn:E; simpl; rewrite E; auto.
Qed.

Lemma dict_get_none (V : Type) key (d : list (string * V)) :
  dict_get key d = None <-> ~ In key (map fst d).
Proof.
  induction d as [|[k v] d IH]; simpl; [tauto|].
  destruct (String.eqb_spec k key) as [->|Hk].
  - split; [discriminate | intros H; exfalso; auto].
  - rewrite IH. tauto.
Qed.

Lemma get_col_none name (df : DataFrame) :
  get_col name df = None <-> ~ In name (map fst df).
Proof.
  induction df as [|[k v] d IH]; simpl; [tauto|].
  destruct (String.eqb_spec k name) as [->|Hk].
  - split; [discriminate | intros H; exfalso; auto].
  - rewrite IH. tauto.
Qed.

(** ** Insights from an empty bundle *)

(** C9.  On an analyzer whose bundle has none of the keys [correlation],
    [groups] and [statistical_tests], [generate_insights] raises nothing:
    it returns the empty mapping and stores it under the key [insights],
    leaving the rest of the analyzer as it was. *)
Theorem generate_insights_without_phases :
  forall self : MedicalInsuranceAnalyzer,
    dict_get "correlation" (analysis_results self) = None ->
    dict_get "groups" (analysis_results self) = None ->
    dict_get "statistical_tests" (analysis_results self) = None ->
    generate_insights self =
      (with_analysis_results self
         (dict_set "insights" (InsightsResult []) (analysis_results self)),
       [GeneratingInsights], Ok []) /\
    dict_get "insights"
      (analysis_results
         (with_analysis_results self
            (dict_set "insights" (InsightsResult []) (analysis_results self))))
      = Some (InsightsResult []).
Proof.
  intros self Hcorr Hgroups Htests. split.
  - unfold generate_insights, bind, print, get_analysis_results, set_result, ret.
    rewrite Hcorr, Hgroups, Htests. reflexivity.
  - simpl. apply dict_get_set_same.
Qed.

(** The theorem at a new analyzer, and at one that holds the basic
    statistics only. *)
Lemma generate_insights_without_phases_witness :
  generate_insights (with_analysis_results (init no_charges None)
                       [("basic_stats", BasicStats)]) =
    (with_analysis_results (init no_charges None)
       [("basic_stats", BasicStats); ("insights", InsightsResult [])],
     [GeneratingInsights], Ok []) /\
  dict_get "insights"
    [("basic_stats", BasicStats); ("insights", InsightsResult [])]
    = Some (InsightsResult []).
Proof.
  exact (generate_insights_without_phases
           (with_analysis_results (init no_charges None)
              [("basic_stats", BasicStats)])
           eq_refl eq_refl eq_refl).
Defined.

(** ** A table without the column [charges] *)

Lemma traverse_raise (A B : Type) (f : A -> result B) (l : list A) e :
  traverse f l = Raise e -> exists x, In x l /\ f x = Raise e.
Proof.
  induction l as [|a l IH]; simpl; [discriminate|].
  destruct (f a) as [b|e'] eqn:Ef; simpl.
  - destruct (traverse f l) as [bs|e'']; simpl; [discriminate|].
    intros H. inversion H; subst. destruct (IH eq_refl) as [x [Hin Hx]].
    exists x. auto.
  - intros H. inversion H; subst. exists a. auto.
Qed.

Lemma to_float_raise py_float c e : to_float py_float c = Raise e -> e = ValueError.
Proof.
  destruct c as [q| |s]; simpl; try discriminate.
  destruct (py_float s); [discriminate|]. congruence.
Qed.

Lemma corr_raise py_float df e : corr py_float df = Raise e -> e = ValueError.
Proof.
  unfold corr. destruct (traverse _ df) as [cols|e'] eqn:E; simpl; [discriminate|].
  intros H. inversion H; subst.
  apply traverse_raise in E. destruct E as [[name col] [_ Hcol]].
  unfold to_float_column in Hcol. simpl in Hcol.
  destruct (traverse (to_float py_float) col) as [xs|e'] eqn:E'; simpl in Hcol;
    [discriminate|].
  inversion Hcol; subst. apply traverse_raise in E'.
  destruct E' as [c [_ Hc]]. eapply to_float_raise. eassumption.
Qed.

Lemma to_float_columns_labels py_float df cols :
  traverse (to_float_column py_float) df = Ok cols -> map fst cols = map fst df.
Proof.
  revert cols. induction df as [|[name col] df IH]; simpl; intros cols H.
  - inversion H. reflexivity.
  - unfold to_float_column at 1 in H. simpl in H.
    destruct (traverse (to_float py_float) col) as [xs|e]; simpl in H; [|discriminate].
    destruct (traverse _ df) as [cs|e]; simpl in H; [|discriminate].
    inversion H; subst. simpl. rewrite (IH cs eq_refl). reflexivity.
Qed.

Lemma corr_of_floats_labels cols : map fst (corr_of_floats cols) = map fst cols.
Proof. unfold corr_of_floats. rewrite map_map. reflexivity. Qed.

Lemma corr_labels py_float df m :
  corr py_float df = Ok m -> map fst m = map fst df.
Proof.
  unfold corr. destruct (traverse _ df) as [cols|e] eqn:E; simpl; [|discriminate].
  intros H. inversion H; subst. rewrite corr_of_floats_labels.
  eapply to_float_columns_labels. eassumption.
Qed.

(** What [correlation_analysis] does on a table that has no column
    [charges]. *)
Lemma correlation_analysis_no_charges py_float self :
  get_col "charges" (df_clean self) = None ->
  correlation_analysis py_float self =
    (self, [PerformingCorrelation],
     Raise match corr py_float (df_clean self) with
           | Ok _ => KeyError "charges"
           | Raise e => e
           end).
Proof.
  intros Hno. unfold correlation_analysis, bind, print, get_df_clean, lift.
  destruct (corr py_float (df_clean self)) as [m|e] eqn:E; [|reflexivity].
  unfold fframe_getitem.
  assert (Hm : dict_get "charges" m = None).
  { apply dict_get_none. rewrite (corr_labels _ _ _ E).
    apply get_col_none. assumption. }
  rewrite Hm. reflexivity.
Qed.

(** C5, refuted as stated: on a table without [charges] the exception is
    not a [MissingColumnError]. *)
Lemma missing_charges_counterexample :
  ~ missing_charges_as_specified Loader.parse_num (init no_charges None).
Proof.
  intros H. destruct (H eq_refl) as [e [Hrun Hname]].
  rewrite correlation_analysis_no_charges in Hrun by reflexivity.
  simpl in Hrun. inversion Hrun as [He]. clear Hrun.
  destruct (corr Loader.parse_num (df_clean (init no_charges None))) as [m|e'] eqn:E.
  - subst e. discriminate Hname.
  - apply corr_raise in E. subst. discriminate Hname.
Qed.

(** C5, as the code has it.  On a table without the column [charges],
    [correlation_analysis] fails and leaves the bundle as it was: with the
    [KeyError] of the lookup of [charges] in the correlation matrix when
    that matrix can be computed, and with the [ValueError] of that
    computation otherwise.  There is no [MissingColumnError]. *)
Theorem correlation_analysis_without_charges :
  forall (py_float : string -> option Q) (self : MedicalInsuranceAnalyzer),
    get_col "charges" (df_clean self) = None ->
    exists e,
      correlation_analysis py_float self = (self, [PerformingCorrelation], Raise e) /\
      (e = KeyError "charges" \/ e = ValueError) /\
      (forall m, corr py_float (df_clean self) = Ok m -> e = KeyError "charges") /\
      exn_name e <> "MissingColumnError".
Proof.
  intros py_float self Hno.
  rewrite (correlation_analysis_no_charges py_float self Hno).
  destruct (corr py_float (df_clean self)) as [m|e] eqn:E.
  - exists (KeyError "charges"). repeat split; auto. discriminate.
  - apply corr_raise in E. subst e. exists ValueError.
    repeat split; auto; discriminate.
Qed.

Lemma correlation_analysis_without_charges_witness :
  exists e,
    correlation_analysis Loader.parse_num (init no_charges None)
      = (init no_charges None, [PerformingCorrelation], Raise e) /\
    (e = KeyError "charges" \/ e = ValueError) /\
    (forall m, corr Loader.parse_num no_charges = Ok m -> e = KeyError "charges") /\
    exn_name e <> "MissingColumnError".
Proof.
  exact (correlation_analysis_without_charges Loader.parse_num
           (init no_charges None) eq_refl).
Defined.

(** The run on the table [no_charges], whose matrix can be computed. *)
Example correlation_analysis_no_charges_key_error :
  correlation_analysis Loader.parse_num (init no_charges None) =
    (init no_charges None, [PerformingCorrelation], Raise (KeyError "charges")).
Proof. rewrite correlation_analysis_no_charges by reflexivity. reflexivity. Qed.

(** ** Pearson's coefficient *)

Section PearsonFacts.
Local Open Scope R_scope.

Lemma sum_map_nonneg (A : Type) (f : A -> R) (l : list A) :
  (forall x, In x l -> 0 <= f x) -> 0 <= sum (map f l).
Proof.
  induction l as [|a l IH]; simpl; intros H; [lra|].
  assert (0 <= f a) by (apply H; auto).
  assert (0 <= sum (map f l)) by (apply IH; auto).
  lra.
Qed.

Lemma sum_map_zero (A : Type) (f : A -> R) (l : list A) :
  (forall x, In x l -> 0 <= f x) ->
  sum (map f l) = 0 ->
  forall x, In x l -> f x = 0.
Proof.
  induction l as [|a l IH]; simpl; intros Hpos Hsum x Hx; [contradiction|].
  assert (Ha : 0 <= f a) by (apply Hpos; auto).
  assert (Hl : 0 <= sum (map f l)) by (apply sum_map_nonneg; auto).
  destruct Hx as [->|Hx]; [lra|].
  apply IH; auto. lra.
Qed.

Lemma sum_constant (a : R) (l : list R) :
  (forall x, In x l -> x = a) -> sum l = INR (List.length l) * a.
Proof.
  induction l as [|x l IH]; intros H.
  - simpl. lra.
  - change (sum (x :: l)) with (x + sum l).
    rewrite IH by (intros y Hy; apply H; right; assumption).
    rewrite (H x) by (left; reflexivity).
    change (List.length (a :: l)) with (S (List.length l)).
    rewrite S_INR. lra.
Qed.

Lemma square_nonneg (a : R) : 0 <= a * a.
Proof. exact (Rle_0_sqr a). Qed.

Lemma square_zero (a : R) : a * a = 0 -> a = 0.
Proof. exact (Rsqr_0_uniq a). Qed.

Lemma ssqdm_nonneg (l : list R) : 0 <= ssqdm l.
Proof.
  unfold ssqdm. apply sum_map_nonneg. intros x _. apply square_nonneg.
Qed.

Lemma ssqdm_zero_iff (l : list R) : ssqdm l = 0 <-> all_equal l.
Proof.
  split.
  - intros H a b Ha Hb.
    assert (Hdev : forall x, In x l -> (x - mean l) * (x - mean l) = 0).
    { apply sum_map_zero; [intros x _; apply square_nonneg | exact H]. }
    pose proof (square_zero _ (Hdev a Ha)).
    pose proof (square_zero _ (Hdev b Hb)). lra.
  - intros H. destruct l as [|a l]; [reflexivity|].
    assert (Hall : forall x, In x (a :: l) -> x = a).
    { intros x Hx. apply H; [assumption | left; reflexivity]. }
    assert (Hmean : mean (a :: l) = a).
    { unfold mean. rewrite (sum_constant a) by assumption.
      field. apply not_0_INR. discriminate. }
    unfold ssqdm. rewrite Hmean.
    transitivity (sum (map (fun _ : R => 0) (a :: l))).
    + f_equal. apply map_ext_in. intros x Hx. rewrite (Hall x Hx). ring.
    + clear. induction (a :: l) as [|x l' IH]; simpl; [reflexivity|].
      rewrite IH. ring.
Qed.







End PearsonFacts.

(** ** The correlation matrix *)







(** ** The order of floats *)

Lemma ltb_leb (a b : float) : ltb a b = true -> leb a b = true.
Proof.
  destruct a as [x| | |], b as [y| | |]; simpl; intros H;
    try discriminate; try reflexivity.
  unfold Rltb, Rleb in *. destruct (Rlt_dec x y), (Rle_dec x y);
    try discriminate; try reflexivity.
  exfalso. lra.
Qed.

Lemma leb_false_ltb (a b : float) :
  is_nan a = false -> is_nan b = false -> leb b a = false -> ltb a b = true.
Proof.
  destruct a as [x| | |], b as [y| | |]; simpl; intros Ha Hb H;
    try discriminate; try reflexivity.
  unfold Rltb, Rleb in *.
  destruct (Rle_dec y x), (Rlt_dec x y); try discriminate; try reflexivity.
  exfalso. lra.
Qed.

Lemma leb_trans (a b c : float) :
  leb a b = true -> leb b c = true -> leb a c = true.
Proof.
  destruct a as [x| | |], b as [y| | |], c as [z| | |]; simpl;
    intros H1 H2; try discriminate; try reflexivity.
  unfold Rleb in *. destruct (Rle_dec x y), (Rle_dec y z), (Rle_dec x z);
    try discriminate; try reflexivity.
  exfalso. lra.
Qed.

Lemma is_nan_abs (a : float) : is_nan (abs a) = is_nan a.
Proof. destruct a; reflexivity. Qed.

(** ** The first entry of a series sorted in descending order *)

Lemma filter_split (A : Type) (P : A -> bool) (s l1 l2 : list A) (x : A) :
  filter P s = l1 ++ x :: l2 ->
  exists b a, s = b ++ x :: a /\ filter P b = l1 /\ filter P a = l2.
Proof.
  revert l1. induction s as [|y s IH]; simpl; intros l1 H.
  - destruct l1; discriminate.
  - destruct (P y) eqn:Ey.
    + destruct l1 as [|z l1]; simpl in H; injection H as Hy Hrest.
      * subst y. exists [], s. simpl. auto.
      * subst z. destruct (IH l1 Hrest) as (b & a & -> & Hb & Ha).
        exists (y :: b), a. simpl. rewrite Ey, Hb. auto.
    + destruct (IH l1 H) as (b & a & -> & Hb & Ha).
      exists (y :: b), a. simpl. rewrite Ey. auto.
Qed.

(** The descending insertion sort puts first the first of the entries of
    greatest value. *)
Lemma sort_descending_head (l : FSeries) :
  (forall e, In e l -> is_nan (snd e) = false) ->
  l <> [] ->
  exists before x after,
    l = before ++ x :: after /\
    hd_error (sort (fun a b => geb (snd a) (snd b)) l) = Some x /\
    (forall e, In e before -> ltb (snd e) (snd x) = true) /\
    (forall e, In e after -> leb (snd e) (snd x) = true).
Proof.
  induction l as [|a l IH]; intros Hnan Hne; [contradiction|].
  destruct l as [|a' l'].
  - exists [], a, []. simpl. repeat split; intros e [].
  - destruct IH as (before & x & after & Hl & Hhd & Hbefore & Hafter);
      [intros e He; apply Hnan; right; assumption | discriminate|].
    change (sort (fun a b => geb (snd a) (snd b)) (a :: a' :: l'))
      with (insert (fun a b => geb (snd a) (snd b)) a
              (sort (fun a b => geb (snd a) (snd b)) (a' :: l'))).
    destruct (sort (fun a b => geb (snd a) (snd b)) (a' :: l')) as [|x0 rest];
      [discriminate Hhd|].
    simpl in Hhd. inversion Hhd; subst x0. clear Hhd.
    simpl. destruct (geb (snd a) (snd x)) eqn:Eg.
    + exists [], a, (a' :: l'). split; [reflexivity|].
      split; [reflexivity|]. split; [intros e []|].
      intros e He. rewrite Hl in He. apply in_app_or in He.
      unfold geb in Eg. destruct He as [He|[<-|He]].
      * eapply leb_trans; [apply ltb_leb, Hbefore, He | exact Eg].
      * exact Eg.
      * eapply leb_trans; [apply Hafter, He | exact Eg].
    + exists (a :: before), x, after. rewrite Hl. simpl.
      split; [reflexivity|]. split; [reflexivity|]. split; [|exact Hafter].
      intros e [<-|He]; [|apply Hbefore; assumption].
      apply leb_false_ltb.
      * apply Hnan. left. reflexivity.
      * apply Hnan. right. rewrite Hl. apply in_or_app. right. left. reflexivity.
      * exact Eg.
Qed.

(** [sort_values_descending] puts first an entry of greatest value, a nan
    counting below every number: the first such entry, the sort being an
    insertion sort. *)
Lemma sort_values_descending_head (s : FSeries) :
  s <> [] ->
  exists before x after,
    s = before ++ x :: after /\
    hd_error (sort_values_descending s) = Some x /\
    (forall e, In e before ->
       is_nan (snd x) = false /\
       (is_nan (snd e) = true \/ ltb (snd e) (snd x) = true)) /\
    (forall e, In e after ->
       is_nan (snd e) = true \/
       (is_nan (snd x) = false /\ leb (snd e) (snd x) = true)).
Proof.
  intros Hne. unfold sort_values_descending.
  destruct (filter (fun e => negb (is_nan (snd e))) s) as [|f fs] eqn:Ef.
  - assert (Hall : forall e, In e s -> is_nan (snd e) = true).
    { intros e He. destruct (is_nan (snd e)) eqn:E; [reflexivity|].
      assert (Hin : In e (filter (fun e => negb (is_nan (snd e))) s))
        by (apply filter_In; rewrite E; auto).
      rewrite Ef in Hin. contradiction. }
    rewrite (filter_all _ _ s Hall). destruct s as [|x after]; [contradiction|].
    exists [], x, after. simpl. split; [reflexivity|]. split; [reflexivity|].
    split; [intros e []|]. intros e He. left. apply Hall. right. assumption.
  - rewrite <- Ef.
    destruct (sort_descending_head (filter (fun e => negb (is_nan (snd e))) s))
      as (fb & x & fa & Hsplit & Hhd & Hfb & Hfa).
    + intros e He. apply filter_In in He. destruct He as [_ He].
      apply negb_true_iff. assumption.
    + rewrite Ef. discriminate.
    + destruct (filter_split _ _ _ _ _ _ Hsplit) as (b & a & Hs & Hb & Ha).
      assert (Hx : is_nan (snd x) = false).
      { assert (Hin : In x (filter (fun e => negb (is_nan (snd e))) s))
          by (rewrite Hsplit; apply in_or_app; right; left; reflexivity).
        apply filter_In in Hin. apply negb_true_iff. tauto. }
      exists b, x, a. split; [assumption|]. split.
      * destruct (sort _ (filter _ s)) as [|y ys]; [discriminate Hhd|].
        exact Hhd.
      * split.
        -- intros e He. split; [assumption|].
           destruct (is_nan (snd e)) eqn:E; [left; reflexivity|right].
           apply Hfb. rewrite <- Hb. apply filter_In. rewrite E. auto.
        -- intros e He.
           destruct (is_nan (snd e)) eqn:E; [left; reflexivity|right].
           split; [assumption|].
           apply Hfa. rewrite <- Ha. apply filter_In. rewrite E. auto.
Qed.

(** ** The strongest predictor *)

Lemma dict_get_in (V : Type) key (d : list (string * V)) v :
  dict_get key d = Some v -> In key (map fst d).
Proof.
  intros H. destruct (in_dec string_dec key (map fst d)) as [Hin|Hnot];
    [assumption|].
  apply dict_get_none in Hnot. congruence.
Qed.

Lemma corr_of_floats_column cols name s :
  dict_get name (corr_of_floats cols) = Some s ->
  map fst s = map fst cols.
Proof.
  unfold corr_of_floats. generalize cols at 1 3. intros all.
  induction cols as [|cj cols IH]; simpl; [discriminate|].
  destruct (String.eqb (fst cj) name).
  - intros H. inversion H; subst. rewrite map_map. reflexivity.
  - exact IH.
Qed.

Lemma corr_column_labels py_float df m name s :
  corr py_float df = Ok m ->
  dict_get name m = Some s ->
  map fst s = map fst m.
Proof.
  unfold corr. destruct (traverse _ df) as [cols|e]; simpl; [|discriminate].
  intros H Hget. inversion H; subst m.
  rewrite corr_of_floats_labels. eapply corr_of_floats_column. eassumption.
Qed.

Lemma existsb_label (label : string) (s : FSeries) :
  In label (map fst s) ->
  existsb (fun e => String.eqb (fst e) label) s = true.
Proof.
  intros H. apply in_map_iff in H. destruct H as [e [He Hin]].
  apply existsb_exists. exists e. split; [assumption|].
  rewrite He. apply String.eqb_refl.
Qed.

(** The run of [correlation_analysis] on a table whose matrix has a column
    [charges] and at least one other row. *)
Lemma correlation_analysis_run py_float self m charges x rest :
  corr py_float (df_clean self) = Ok m ->
  dict_get "charges" m = Some charges ->
  sort_values_descending
    (series_abs (filter (fun e => negb (String.eqb (fst e) "charges")) charges))
    = x :: rest ->
  correlation_analysis py_float self =
    (with_analysis_results self
       (dict_set "correlation"
          (Correlation {| matrix := m;
                          charges_correlations := x :: rest;
                          strongest_predictor := fst x;
                          strongest_correlation := snd x |})
          (analysis_results self)),
     [PerformingCorrelation],
     Ok {| matrix := m;
           charges_correlations := x :: rest;
           strongest_predictor := fst x;
           strongest_correlation := snd x |}).
Proof.
  intros Hcorr Hget Hsort.
  assert (Hex : existsb (fun e => String.eqb (fst e) "charges") charges = true).
  { apply existsb_label. rewrite (corr_column_labels _ _ _ _ _ Hcorr Hget).
    eapply dict_get_in. eassumption. }
  unfold correlation_analysis, bind, print, get_df_clean, lift, set_result, ret.
  rewrite Hcorr. unfold fframe_getitem. rewrite Hget. unfold drop. rewrite Hex.
  rewrite Hsort. reflexivity.
Qed.

Section DecreasingCharges.
Local Open Scope R_scope.

Lemma Q2R_inject_Z (z : Z) : Q2R (inject_Z z) = IZR z.
Proof. unfold Q2R, inject_Z. simpl. field. Qed.

(** In the table [decreasing_charges] the age falls as the charges rise:
    their coefficient is -1. *)
Lemma pearson_decreasing :
  pearson (floats [1; 2; 3]%Z) (floats [3; 2; 1]%Z) = Fin (-1).
Proof.
  unfold pearson, floats.
  change (complete_pairs _ _) with
    [(Q2R (inject_Z 1), Q2R (inject_Z 3));
     (Q2R (inject_Z 2), Q2R (inject_Z 2));
     (Q2R (inject_Z 3), Q2R (inject_Z 1))].
  rewrite !Q2R_inject_Z. unfold coefficient.
  assert (Hx : ssqdm (map fst [(1, 3); (2, 2); (3, 1)]) = 2).
  { unfold ssqdm, mean, sum. simpl. field. }
  assert (Hy : ssqdm (map snd [(1, 3); (2, 2); (3, 1)]) = 2).
  { unfold ssqdm, mean, sum. simpl. field. }
  assert (Hc : covxy [(1, 3); (2, 2); (3, 1)] = -2).
  { unfold covxy, mean, sum. simpl. field. }
  rewrite Hx, Hy, Hc. rewrite sqrt_square by lra.
  destruct (Req_dec_T 2 0) as [H|_]; [exfalso; lra|].
  f_equal. field.
Qed.

End DecreasingCharges.

(** C2, refuted as stated: in the table [decreasing_charges] the
    correlation of the strongest predictor with [charges] is -1, and the
    analysis reports 1. *)
Lemma strongest_correlation_counterexample :
  ~ strongest_correlation_signed_as_specified Loader.parse_num
      (init decreasing_charges None).
Proof.
  intros H.
  assert (Hsort :
            sort_values_descending
              (series_abs
                 (filter (fun e => negb (String.eqb (fst e) "charges"))
                    [("age", pearson (floats [1; 2; 3]%Z) (floats [3; 2; 1]%Z));
                     ("charges",
                      pearson (floats [3; 2; 1]%Z) (floats [3; 2; 1]%Z))]))
            = [("age", Fin (Rabs (-1)))]).
  { change (filter _ _)
      with [("age", pearson (floats [1; 2; 3]%Z) (floats [3; 2; 1]%Z))].
    rewrite pearson_decreasing. reflexivity. }
  pose proof (correlation_analysis_run Loader.parse_num
                (init decreasing_charges None) decreasing_charges_matrix
                _ _ _ eq_refl eq_refl Hsort) as Hrun.
  pose proof (H _ _ _ decreasing_charges_matrix _
                (pearson (floats [1; 2; 3]%Z) (floats [3; 2; 1]%Z))
                Hrun eq_refl eq_refl eq_refl) as Hsigned.
  rewrite pearson_decreasing in Hsigned.
  cbn [strongest_correlation snd] in Hsigned.
  injection Hsigned as Hneg.
  pose proof (Rabs_pos (-1)) as Hpos. rewrite Hneg in Hpos.
  apply (Rlt_irrefl 0). apply Rle_lt_trans with (-1)%R; [exact Hpos|].
  apply Ropp_lt_gt_0_contravar. exact Rlt_0_1.
Qed.

Lemma leb_refl (a : float) : is_nan a = false -> leb a a = true.
Proof.
  destruct a as [x| | |]; simpl; intros H; try discriminate; try reflexivity.
  unfold Rleb. destruct (Rle_dec x x) as [_|Hn]; [reflexivity|].
  exfalso. apply Hn. apply Rle_refl.
Qed.

(** C2, as the code has it.  On a table whose correlation matrix can be
    computed and has, in its column [charges], a row other than [charges],
    the analysis returns, stores its result under the key [correlation],
    and reports as strongest predictor a row other than [charges] whose
    correlation with [charges] is greatest in absolute value, a nan
    correlation counting below every number.  Which of several rows of
    that greatest value is reported is left to the sort and not stated.
    The correlation reported is the absolute value of that correlation,
    not its signed value. *)
Theorem strongest_predictor_max_abs_correlation :
  forall (py_float : string -> option Q) (self : MedicalInsuranceAnalyzer)
         (m : FFrame) (charges : FSeries),
    corr py_float (df_clean self) = Ok m ->
    dict_get "charges" m = Some charges ->
    filter (fun e => negb (String.eqb (fst e) "charges")) charges <> [] ->
    exists res r,
      correlation_analysis py_float self =
        (with_analysis_results self
           (dict_set "correlation" (Correlation res) (analysis_results self)),
         [PerformingCorrelation], Ok res) /\
      matrix res = m /\
      In (strongest_predictor res, r)
         (filter (fun e => negb (String.eqb (fst e) "charges")) charges) /\
      strongest_correlation res = abs r /\
      (forall e,
         In e (filter (fun e => negb (String.eqb (fst e) "charges")) charges) ->
         abs_le (snd e) r).
Proof.
  intros py_float self m charges Hcorr Hget Hne.
  set (others := filter (fun e => negb (String.eqb (fst e) "charges")) charges) in *.
  destruct (sort_values_descending_head (series_abs others))
    as (before' & x' & after' & Hsplit & Hhd & Hbefore & Hafter).
  { unfold series_abs. destruct others; [contradiction | discriminate]. }
  unfold series_abs in Hsplit.
  apply map_eq_app in Hsplit. destruct Hsplit as (before & tl & Hothers & Hb & Htl).
  apply map_eq_cons in Htl. destruct Htl as (x & after & -> & Hx & Ha).
  destruct (sort_values_descending (series_abs others)) as [|y rest] eqn:Hsort;
    [discriminate Hhd|].
  simpl in Hhd. inversion Hhd; subst y. clear Hhd.
  destruct x as [name r]. simpl in Hx. subst x'.
  eexists _, r.
  split; [apply (correlation_analysis_run _ _ _ _ _ _ Hcorr Hget Hsort)|].
  simpl. split; [reflexivity|].
  split; [rewrite Hothers; apply in_or_app; right; left; reflexivity|].
  split; [reflexivity|].
  simpl in Hbefore, Hafter. rewrite is_nan_abs in Hbefore, Hafter.
  intros e He. rewrite Hothers in He. unfold abs_le.
  apply in_app_or in He. destruct He as [He|[<-|He]].
  - assert (Hin : In (fst e, abs (snd e)) before').
    { rewrite <- Hb. apply in_map_iff. exists e. auto. }
    destruct (Hbefore _ Hin) as [Hr Hlt]. simpl in Hlt.
    rewrite is_nan_abs in Hlt.
    destruct Hlt as [Hnan|Hlt]; [left; assumption|].
    right. split; [assumption | apply ltb_leb; assumption].
  - simpl. destruct (is_nan r) eqn:Er; [left; reflexivity|].
    right. split; [reflexivity|]. apply leb_refl. rewrite is_nan_abs. assumption.
  - assert (Hin : In (fst e, abs (snd e)) after').
    { rewrite <- Ha. apply in_map_iff. exists e. auto. }
    pose proof (Hafter _ Hin) as Hle. simpl in Hle.
    rewrite is_nan_abs in Hle. exact Hle.
Qed.

(** The theorem at a table with two predictors. *)
Lemma strongest_predictor_max_abs_correlation_witness :
  exists res r,
    correlation_analysis Loader.parse_num (init two_predictors None) =
      (with_analysis_results (init two_predictors None)
         (dict_set "correlation" (Correlation res) []),
       [PerformingCorrelation], Ok res) /\
    matrix res = two_predictors_matrix /\
    In (strongest_predictor res, r)
       [("age", pearson (floats [1; 2; 3]%Z) (floats [3; 2; 1]%Z));
        ("bmi", pearson (floats [1; 3; 2]%Z) (floats [3; 2; 1]%Z))] /\
    strongest_correlation res = abs r /\
    (forall e,
       In e [("age", pearson (floats [1; 2; 3]%Z) (floats [3; 2; 1]%Z));
             ("bmi", pearson (floats [1; 3; 2]%Z) (floats [3; 2; 1]%Z))] ->
       abs_le (snd e) r).
Proof.
  exact (strongest_predictor_max_abs_correlation Loader.parse_num
           (init two_predictors None) two_predictors_matrix
           [("age", pearson (floats [1; 2; 3]%Z) (floats [3; 2; 1]%Z));
            ("bmi", pearson (floats [1; 3; 2]%Z) (floats [3; 2; 1]%Z));
            ("charges", pearson (floats [3; 2; 1]%Z) (floats [3; 2; 1]%Z))]
           eq_refl eq_refl
           (fun H : [("age", pearson (floats [1; 2; 3]%Z) (floats [3; 2; 1]%Z));
                     ("bmi", pearson (floats [1; 3; 2]%Z) (floats [3; 2; 1]%Z))]
                    = [] =>
              match H in _ = l return match l with [] => False | _ :: _ => True end
              with eq_refl => I end)).
Defined.

(** * Further properties of the analyzer *)

Import AnalyzerFrame.

(** ** The bundle *)

Lemma dict_get_set_other (V : Type) key key' (v : V) d :
  key <> key' -> dict_get key' (dict_set key v d) = dict_get key' d.
Proof.
  intros Hne. induction d as [|[k v0] d IH]; simpl.
  - destruct (String.eqb_spec key key'); [contradiction | reflexivity].
  - destruct (String.eqb_spec k key) as [->|Hk]; simpl.
    + destruct (String.eqb_spec key key'); [contradiction | reflexivity].
    + rewrite IH. reflexivity.
Qed.

Lemma dict_set_set_same (V : Type) key (v v' : V) d :
  dict_set key v (dict_set key v' d) = dict_set key v d.
Proof.
  induction d as [|[k v0] d IH]; simpl.
  - rewrite String.eqb_refl. reflexivity.
  - destruct (String.eqb k key) eqn:E; simpl; rewrite E; [reflexivity|].
    rewrite IH. reflexivity.
Qed.

(** ** The runs of [correlation_analysis] *)

Lemma correlation_analysis_cases py_float self :
  correlation_analysis py_float self =
    match corr py_float (df_clean self) with
    | Raise e => (self, [PerformingCorrelation], Raise e)
    | Ok m =>
        match dict_get "charges" m with
        | None => (self, [PerformingCorrelation], Raise (KeyError "charges"))
        | Some charges =>
            match sort_values_descending
                    (series_abs
                       (filter (fun e => negb (String.eqb (fst e) "charges"))
                          charges)) with
            | [] => (self, [PerformingCorrelation], Raise IndexError)
            | x :: rest =>
                (with_analysis_results self
                   (dict_set "correlation"
                      (Correlation {| matrix := m;
                                      charges_correlations := x :: rest;
                                      strongest_predictor := fst x;
                                      strongest_correlation := snd x |})
                      (analysis_results self)),
                 [PerformingCorrelation],
                 Ok {| matrix := m;
                       charges_correlations := x :: rest;
                       strongest_predictor := fst x;
                       strongest_correlation := snd x |})
            end
        end
    end.
Proof.
  destruct (corr py_float (df_clean self)) as [m|e] eqn:Hcorr.
  - destruct (dict_get "charges" m) as [charges|] eqn:Hget.
    + destruct (sort_values_descending _) as [|x rest] eqn:Hsort.
      * assert (Hex : existsb (fun e => String.eqb (fst e) "charges") charges = true).
        { apply existsb_label. rewrite (corr_column_labels _ _ _ _ _ Hcorr Hget).
          eapply dict_get_in. eassumption. }
        unfold correlation_analysis, bind, print, get_df_clean, lift, set_result, ret.
        rewrite Hcorr. unfold fframe_getitem. rewrite Hget. unfold drop.
        rewrite Hex, Hsort. reflexivity.
      * apply (correlation_analysis_run _ _ _ _ _ _ Hcorr Hget Hsort).
    + unfold correlation_analysis, bind, print, get_df_clean, lift.
      rewrite Hcorr. unfold fframe_getitem. rewrite Hget. reflexivity.
  - unfold correlation_analysis, bind, print, get_df_clean, lift.
    rewrite Hcorr. reflexivity.
Qed.

(** The run on the table [decreasing_charges]. *)
Example correlation_analysis_decreasing_charges :
  correlation_analysis Loader.parse_num (init decreasing_charges None) =
    (with_analysis_results (init decreasing_charges None)
       [("correlation",
         Correlation {| matrix := decreasing_charges_matrix;
                        charges_correlations := [("age", Fin (Rabs (-1)))];
                        strongest_predictor := "age";
                        strongest_correlation := Fin (Rabs (-1)) |})],
     [PerformingCorrelation],
     Ok {| matrix := decreasing_charges_matrix;
           charges_correlations := [("age", Fin (Rabs (-1)))];
           strongest_predictor := "age";
           strongest_correlation := Fin (Rabs (-1)) |}).
Proof.
  assert (Hsort :
            sort_values_descending
              (series_abs
                 (filter (fun e => negb (String.eqb (fst e) "charges"))
                    [("age", pearson (floats [1; 2; 3]%Z) (floats [3; 2; 1]%Z));
                     ("charges",
                      pearson (floats [3; 2; 1]%Z) (floats [3; 2; 1]%Z))]))
            = [("age", Fin (Rabs (-1)))]).
  { change (filter _ _)
      with [("age", pearson (floats [1; 2; 3]%Z) (floats [3; 2; 1]%Z))].
    rewrite pearson_decreasing. reflexivity. }
  exact (correlation_analysis_run Loader.parse_num
           (init decreasing_charges None) decreasing_charges_matrix
           _ _ _ eq_refl eq_refl Hsort).
Qed.

(** X14.  However a call of [correlation_analysis] ends, it leaves the two
    tables of the analyzer as they were and prints one line.  When it
    raises, the analyzer is unchanged; when it returns, the bundle differs
    from the one before in the key [correlation] only, which holds the
    returned result. *)
Theorem correlation_analysis_frame :
  forall (py_float : string -> option Q) (self self' : MedicalInsuranceAnalyzer)
         (out : list event) (r : result CorrelationResult),
    correlation_analysis py_float self = (self', out, r) ->
    out = [PerformingCorrelation] /\
    df_clean self' = df_clean self /\
    df_labeled self' = df_labeled self /\
    match r with
    | Ok res =>
        dict_get "correlation" (analysis_results self') = Some (Correlation res) /\
        forall key, key <> "correlation" ->
          dict_get key (analysis_results self') = dict_get key (analysis_results self)
    | Raise _ => self' = self
    end.
Proof.
  intros py_float self self' out r Hrun.
  rewrite correlation_analysis_cases in Hrun.
  destruct (corr py_float (df_clean self)) as [m|e];
    [|inversion Hrun; subst; auto].
  destruct (dict_get "charges" m) as [charges|];
    [|inversion Hrun; subst; auto].
  destruct (sort_values_descending _) as [|x rest];
    inversion Hrun; subst; [auto|].
  split; [reflexivity|]. split; [reflexivity|]. split; [reflexivity|].
  simpl. split; [apply dict_get_set_same|].
  intros key Hkey. apply dict_get_set_other. congruence.
Qed.

Lemma correlation_analysis_frame_witness :
  [PerformingCorrelation] = [PerformingCorrelation] /\
  decreasing_charges = decreasing_charges /\
  decreasing_charges = decreasing_charges /\
  dict_get "correlation"
    [("correlation",
      Correlation {| matrix := decreasing_charges_matrix;
                     charges_correlations := [("age", Fin (Rabs (-1)))];
                     strongest_predictor := "age";
                     strongest_correlation := Fin (Rabs (-1)) |})]
    = Some (Correlation {| matrix := decreasing_charges_matrix;
                           charges_correlations := [("age", Fin (Rabs (-1)))];
                           strongest_predictor := "age";
                           strongest_correlation := Fin (Rabs (-1)) |}) /\
  forall key, key <> "correlation" ->
    dict_get key
      [("correlation",
        Correlation {| matrix := decreasing_charges_matrix;
                       charges_correlations := [("age", Fin (Rabs (-1)))];
                       strongest_predictor := "age";
                       strongest_correlation := Fin (Rabs (-1)) |})]
    = dict_get key (@nil (string * PhaseResult)).
Proof.
  exact (correlation_analysis_frame Loader.parse_num
           (init decreasing_charges None) _ _ _
           correlation_analysis_decreasing_charges).
Defined.

(** ** Tables on which the analysis fails *)

(** X15.  On a table whose only column is [charges], the matrix is
    computed, nothing is left of its column [charges] once the row
    [charges] is dropped, and the analysis fails with the [IndexError] of
    [index[0]], leaving the bundle as it was. *)
Theorem correlation_analysis_only_charges :
  forall (py_float : string -> option Q) (self : MedicalInsuranceAnalyzer)
         (col : Series) (xs : list float),
    df_clean self = [("charges", col)] ->
    traverse (to_float py_float) col = Ok xs ->
    correlation_analysis py_float self =
      (self, [PerformingCorrelation], Raise IndexError).
Proof.
  intros py_float self col xs Hdf Hxs.
  rewrite correlation_analysis_cases, Hdf.
  unfold corr. simpl. unfold to_float_column. simpl. rewrite Hxs. reflexivity.
Qed.

Lemma correlation_analysis_only_charges_witness :
  correlation_analysis Loader.parse_num (init only_charges None) =
    (init only_charges None, [PerformingCorrelation], Raise IndexError).
Proof.
  exact (correlation_analysis_only_charges Loader.parse_num
           (init only_charges None) (ints [3; 2; 1]%Z) (floats [3; 2; 1]%Z)
           eq_refl eq_refl).
Defined.

Lemma traverse_in_raise (A B : Type) (f : A -> result B) (l : list A) x e :
  In x l -> f x = Raise e -> exists e', traverse f l = Raise e'.
Proof.
  induction l as [|a l IH]; simpl; [contradiction|].
  intros [->|Hin] Hx.
  - rewrite Hx. simpl. eauto.
  - destruct (f a) as [b|e1]; simpl; [|eauto].
    destruct (IH Hin Hx) as [e' ->]. simpl. eauto.
Qed.

(** X16.  When a cell of any column of the table holds text that
    [float()] does not read, the analysis fails with the [ValueError] of
    [corr()], whether or not the table has a column [charges], and leaves
    the bundle as it was. *)
Theorem correlation_analysis_text_cell :
  forall (py_float : string -> option Q) (self : MedicalInsuranceAnalyzer)
         (name : string) (col : Series) (s : string),
    In (name, col) (df_clean self) ->
    In (Str s) col ->
    py_float s = None ->
    correlation_analysis py_float self =
      (self, [PerformingCorrelation], Raise ValueError).
Proof.
  intros py_float self name col s Hcol Hcell Hs.
  rewrite correlation_analysis_cases.
  assert (Hraise : exists e, corr py_float (df_clean self) = Raise e).
  { unfold corr.
    destruct (traverse_in_raise _ _ (to_float py_float) col (Str s) ValueError Hcell)
      as [e1 He1]; [simpl; rewrite Hs; reflexivity|].
    destruct (traverse_in_raise _ _ (to_float_column py_float) (df_clean self)
                (name, col) e1 Hcol) as [e2 He2].
    { unfold to_float_column. simpl. rewrite He1. reflexivity. }
    rewrite He2. simpl. eauto. }
  destruct Hraise as [e He]. rewrite He.
  apply corr_raise in He. subst e. reflexivity.
Qed.

Lemma correlation_analysis_text_cell_witness :
  correlation_analysis Loader.parse_num (init text_bmi None) =
    (init text_bmi None, [PerformingCorrelation], Raise ValueError).
Proof.
  exact (correlation_analysis_text_cell Loader.parse_num (init text_bmi None)
           "bmi" [Num 27; Str "n/a"] "n/a"
           (or_introl eq_refl) (or_intror (or_introl eq_refl)) eq_refl).
Defined.

(** ** The correlations with [charges] *)

Lemma Permutation_insert (A : Type) (leb : A -> A -> bool) (x : A) (l : list A) :
  Permutation (insert leb x l) (x :: l).
Proof.
  induction l as [|y l IH]; simpl; [reflexivity|].
  destruct (leb x y); [reflexivity|].
  rewrite IH. apply perm_swap.
Qed.

Lemma Permutation_sort (A : Type) (leb : A -> A -> bool) (l : list A) :
  Permutation (sort leb l) l.
Proof.
  induction l as [|x l IH]; simpl; [reflexivity|].
  change (fold_right (insert leb) [] l) with (sort leb l).
  rewrite Permutation_insert, IH. reflexivity.
Qed.

Lemma Permutation_filter_split (A : Type) (P : A -> bool) (l : list A) :
  Permutation (filter (fun x => negb (P x)) l ++ filter P l) l.
Proof.
  induction l as [|x l IH]; simpl; [reflexivity|].
  destruct (P x); simpl.
  - rewrite <- Permutation_middle. rewrite IH. reflexivity.
  - rewrite IH. reflexivity.
Qed.

Lemma Permutation_sort_values_descending (s : FSeries) :
  Permutation (sort_values_descending s) s.
Proof.
  unfold sort_values_descending. rewrite Permutation_sort.
  apply (Permutation_filter_split _ (fun e => is_nan (snd e))).
Qed.









(** ** The wording of a correlation *)

Section Interpretation.
Local Open Scope R_scope.

Lemma geb_Fin (a b : R) : geb (Fin a) (Fin b) = true <-> b <= a.
Proof.
  unfold geb, leb, Rleb. destruct (Rle_dec b a); split; auto; discriminate.
Qed.

Lemma geb_Fin_false (a b : R) : geb (Fin a) (Fin b) = false <-> a < b.
Proof.
  unfold geb, leb, Rleb. destruct (Rle_dec b a); split; intros H.
  - discriminate.
  - exfalso. lra.
  - lra.
  - reflexivity.
Qed.

(** X18.  [_interpret_correlation] words a correlation by its absolute
    value alone, with the bounds 0.7, 0.5 and 0.3 belonging to the stronger
    band; a missing correlation is worded as the weakest band. *)
Theorem interpret_correlation_bands :
  forall r : R,
    _interpret_correlation (Fin (- r)) = _interpret_correlation (Fin r) /\
    (7 / 10 <= Rabs r -> _interpret_correlation (Fin r) = "Strong") /\
    (5 / 10 <= Rabs r < 7 / 10 -> _interpret_correlation (Fin r) = "Moderate") /\
    (3 / 10 <= Rabs r < 5 / 10 -> _interpret_correlation (Fin r) = "Weak") /\
    (Rabs r < 3 / 10 -> _interpret_correlation (Fin r) = "Very weak") /\
    _interpret_correlation FNaN = "Very weak".
Proof.
  intros r. unfold _interpret_correlation. cbn [abs].
  split; [rewrite Rabs_Ropp; reflexivity|].
  split; [|split; [|split; [|split; [|reflexivity]]]]; intros H.
  - rewrite (proj2 (geb_Fin _ _)) by lra. reflexivity.
  - rewrite (proj2 (geb_Fin_false _ _)) by lra.
    rewrite (proj2 (geb_Fin _ _)) by lra. reflexivity.
  - rewrite !(proj2 (geb_Fin_false _ _)) by lra.
    rewrite (proj2 (geb_Fin _ _)) by lra. reflexivity.
  - rewrite !(proj2 (geb_Fin_false _ _)) by lra. reflexivity.
Qed.

Lemma interpret_correlation_bands_witness :
  _interpret_correlation (Fin (-1)) = "Strong".
Proof.
  apply (proj1 (proj2 (interpret_correlation_bands (-1)))).
  rewrite Rabs_left by lra. lra.
Defined.

End Interpretation.

(** ** The runs of [generate_insights] *)

Ltac run_insights :=
  unfold generate_insights, bind, print, get_analysis_results, lift, ret,
    set_result.

(** The insights are computed from the values under the three keys
    [correlation], [groups] and [statistical_tests] alone. *)
Lemma generate_insights_congr (self1 self2 : MedicalInsuranceAnalyzer) :
  dict_get "correlation" (analysis_results self1)
    = dict_get "correlation" (analysis_results self2) ->
  dict_get "groups" (analysis_results self1)
    = dict_get "groups" (analysis_results self2) ->
  dict_get "statistical_tests" (analysis_results self1)
    = dict_get "statistical_tests" (analysis_results self2) ->
  generate_insights self2 =
    (match snd (generate_insights self1) with
     | Ok ins =>
         with_analysis_results self2
           (dict_set "insights" (InsightsResult ins) (analysis_results self2))
     | Raise _ => self2
     end,
     [GeneratingInsights],
     snd (generate_insights self1)).
Proof.
  intros Hc Hg Ht. run_insights. cbv beta iota. rewrite <- Hc.
  destruct (dict_get "correlation" (analysis_results self1)) as [[]|];
    cbv beta iota delta [as_correlation]; try reflexivity.
  all: rewrite <- Hg.
  all: destruct (dict_get "groups" (analysis_results self1)) as [[]|];
    cbv beta iota delta [as_groups]; try reflexivity.
  all: try (destruct (dict_get "smoker" g) as [smoker_table|]; cbv beta iota).
  all: try (destruct (2 <=? List.length
                              (map (fun row : string * GroupStats =>
                                      (fst row, stat_mean (snd row)))
                                 smoker_table))%nat; cbv beta iota).
  all: try (destruct (idxmax (map (fun row : string * GroupStats =>
                                     (fst row, stat_mean (snd row)))
                                smoker_table)); cbv beta iota; try reflexivity).
  all: try (destruct (idxmin (map (fun row : string * GroupStats =>
                                     (fst row, stat_mean (snd row)))
                                smoker_table)); cbv beta iota; try reflexivity).
  all: rewrite <- Ht.
  all: destruct (dict_get "statistical_tests" (analysis_results self1)) as [[]|];
    reflexivity.
Qed.

(** X19.  However a call of [generate_insights] ends, it prints one line
    and leaves the two tables and every key of the bundle other than
    [insights] as they were.  When it raises, the analyzer is unchanged;
    when it returns, the key [insights] holds the returned mapping. *)
Theorem generate_insights_frame :
  forall (self self' : MedicalInsuranceAnalyzer) (out : list event)
         (r : result Insights),
    generate_insights self = (self', out, r) ->
    out = [GeneratingInsights] /\
    df_clean self' = df_clean self /\
    df_labeled self' = df_labeled self /\
    (forall key, key <> "insights" ->
       dict_get key (analysis_results self') = dict_get key (analysis_results self)) /\
    match r with
    | Ok ins => dict_get "insights" (analysis_results self') = Some (InsightsResult ins)
    | Raise _ => self' = self
    end.
Proof.
  intros self self' out r Hrun.
  pose proof (generate_insights_congr self self eq_refl eq_refl eq_refl) as E.
  rewrite Hrun in E. cbn [snd] in E. injection E as Hself Hout.
  destruct r as [ins|e]; subst self' out.
  - split; [reflexivity|]. split; [reflexivity|]. split; [reflexivity|].
    cbn [analysis_results with_analysis_results]. split.
    + intros key Hkey. apply dict_get_set_other. congruence.
    + apply dict_get_set_same.
  - auto.
Qed.

Lemma generate_insights_frame_witness :
  [GeneratingInsights] = [GeneratingInsights] /\
  no_charges = no_charges /\
  no_charges = no_charges /\
  (forall key, key <> "insights" ->
     dict_get key
       [("statistical_tests", StatisticalTests two_tests);
        ("insights", InsightsResult [("significant_factors",
                                      SignificantFactors ["smoker"])])]
     = dict_get key [("statistical_tests", StatisticalTests two_tests)]) /\
  dict_get "insights"
    [("statistical_tests", StatisticalTests two_tests);
     ("insights", InsightsResult [("significant_factors",
                                   SignificantFactors ["smoker"])])]
  = Some (InsightsResult [("significant_factors", SignificantFactors ["smoker"])]).
Proof.
  exact (generate_insights_frame
           (with_analysis_results (init no_charges None)
              [("statistical_tests", StatisticalTests two_tests)])
           _ _ _ eq_refl).
Defined.

(** X20.  [generate_insights] does not read what it stored: called again
    on the analyzer as a call that returned left it, it returns the same
    mapping and leaves the analyzer as it is. *)
Theorem generate_insights_idempotent :
  forall (self self' : MedicalInsuranceAnalyzer) (out : list event)
         (ins : Insights),
    generate_insights self = (self', out, Ok ins) ->
    generate_insights self' = (self', out, Ok ins).
Proof.
  intros self self' out ins Hrun.
  pose proof (generate_insights_congr self self eq_refl eq_refl eq_refl) as E.
  rewrite Hrun in E. cbn [snd] in E. injection E as Hself Hout.
  assert (Hother : forall key, key <> "insights" ->
            dict_get key (analysis_results self)
            = dict_get key (analysis_results self')).
  { intros key Hkey. subst self'. cbn [analysis_results with_analysis_results].
    symmetry. apply dict_get_set_other. congruence. }
  rewrite (generate_insights_congr self self') by (apply Hother; discriminate).
  rewrite Hrun. cbn [snd]. subst out. f_equal. f_equal.
  rewrite Hself at 2. unfold with_analysis_results. rewrite Hself.
  cbn [analysis_results df_clean df_labeled]. rewrite dict_set_set_same.
  reflexivity.
Qed.

Lemma generate_insights_idempotent_witness :
  generate_insights
    (with_analysis_results (init no_charges None)
       [("statistical_tests", StatisticalTests two_tests);
        ("insights", InsightsResult [("significant_factors",
                                      SignificantFactors ["smoker"])])])
  = (with_analysis_results (init no_charges None)
       [("statistical_tests", StatisticalTests two_tests);
        ("insights", InsightsResult [("significant_factors",
                                      SignificantFactors ["smoker"])])],
     [GeneratingInsights],
     Ok [("significant_factors", SignificantFactors ["smoker"])]).
Proof.
  exact (generate_insights_idempotent
           (with_analysis_results (init no_charges None)
              [("statistical_tests", StatisticalTests two_tests)])
           _ _ _ eq_refl).
Defined.

(** X21.  The correlation analysis followed by the insights, on a bundle
    that holds neither group statistics nor tests: once
    [correlation_analysis] has returned, [generate_insights] returns the
    mapping whose only key, [correlations], holds the predictor and the
    correlation the analysis reported and the wording of that
    correlation. *)
Theorem correlation_then_insights :
  forall (py_float : string -> option Q) (self self1 : MedicalInsuranceAnalyzer)
         (out : list event) (res : CorrelationResult),
    correlation_analysis py_float self = (self1, out, Ok res) ->
    dict_get "groups" (analysis_results self) = None ->
    dict_get "statistical_tests" (analysis_results self) = None ->
    generate_insights self1 =
      (with_analysis_results self1
         (dict_set "insights"
            (InsightsResult
               [("correlations",
                 CorrelationInsight (strongest_predictor res)
                   (strongest_correlation res)
                   (_interpret_correlation (strongest_correlation res)))])
            (analysis_results self1)),
       [GeneratingInsights],
       Ok [("correlations",
            CorrelationInsight (strongest_predictor res)
              (strongest_correlation res)
              (_interpret_correlation (strongest_correlation res)))]).
Proof.
  intros py_float self self1 out res Hrun Hgroups Htests.
  assert (Hbundle : analysis_results self1
                    = dict_set "correlation" (Correlation res) (analysis_results self)).
  { rewrite correlation_analysis_cases in Hrun.
    destruct (corr py_float (df_clean self)) as [m|e]; [|discriminate].
    destruct (dict_get "charges" m) as [charges|]; [|discriminate].
    destruct (sort_values_descending _) as [|x rest]; [discriminate|].
    inversion Hrun; subst. reflexivity. }
  assert (Hc : dict_get "correlation" (analysis_results self1)
               = Some (Correlation res))
    by (rewrite Hbundle; apply dict_get_set_same).
  assert (Hg : dict_get "groups" (analysis_results self1) = None)
    by (rewrite Hbundle, dict_get_set_other by discriminate; assumption).
  assert (Ht : dict_get "statistical_tests" (analysis_results self1) = None)
    by (rewrite Hbundle, dict_get_set_other by discriminate; assumption).
  run_insights. cbv beta iota zeta.
  rewrite Hc. cbv beta iota delta [as_correlation].
  rewrite Hg. cbv beta iota. rewrite Ht. reflexivity.
Qed.

Lemma correlation_then_insights_witness :
  generate_insights
    (with_analysis_results (init decreasing_charges None)
       [("correlation",
         Correlation {| matrix := decreasing_charges_matrix;
                        charges_correlations := [("age", Fin (Rabs (-1)))];
                        strongest_predictor := "age";
                        strongest_correlation := Fin (Rabs (-1)) |})])
  = (with_analysis_results (init decreasing_charges None)
       [("correlation",
         Correlation {| matrix := decreasing_charges_matrix;
                        charges_correlations := [("age", Fin (Rabs (-1)))];
                        strongest_predictor := "age";
                        strongest_correlation := Fin (Rabs (-1)) |});
        ("insights",
         InsightsResult
           [("correlations",
             CorrelationInsight "age" (Fin (Rabs (-1)))
               (_interpret_correlation (Fin (Rabs (-1)))))])],
     [GeneratingInsights],
     Ok [("correlations",
          CorrelationInsight "age" (Fin (Rabs (-1)))
            (_interpret_correlation (Fin (Rabs (-1)))))]).
Proof.
  exact (correlation_then_insights Loader.parse_num
           (init decreasing_charges None) _ _ _
           correlation_analysis_decreasing_charges eq_refl eq_refl).
Defined.

(** ** The impact of smoking *)

Section Extremes.
Local Open Scope R_scope.

Lemma series_max_cons (e : string * float) (s : FSeries) :
  series_max (e :: s) =
    if is_nan (snd e) then series_max s
    else if is_nan (series_max s) then snd e
    else if ltb (series_max s) (snd e) then snd e else series_max s.
Proof. reflexivity. Qed.

Lemma series_min_cons (e : string * float) (s : FSeries) :
  series_min (e :: s) =
    if is_nan (snd e) then series_min s
    else if is_nan (series_min s) then snd e
    else if ltb (snd e) (series_min s) then snd e else series_min s.
Proof. reflexivity. Qed.

Lemma is_finite_Fin (x : float) : is_finite x = true -> exists r, x = Fin r.
Proof. destruct x; try discriminate. eauto. Qed.

Lemma series_max_finite (s : FSeries) :
  s <> [] ->
  (forall e, In e s -> is_finite (snd e) = true) ->
  exists r,
    series_max s = Fin r /\
    (exists name, In (name, Fin r) s) /\
    forall name r', In (name, Fin r') s -> r' <= r.
Proof.
  induction s as [|[n v] s IH]; intros Hne Hfin; [contradiction|].
  destruct (is_finite_Fin v) as [rv ->]; [apply (Hfin (n, v)); left; reflexivity|].
  rewrite series_max_cons. cbn [snd is_nan].
  destruct s as [|e' s'].
  - exists rv. split; [reflexivity|]. split; [exists n; left; reflexivity|].
    intros name r' [H|[]]. inversion H. lra.
  - destruct IH as (ra & -> & (na & Hna) & Hbound);
      [discriminate | intros e He; apply Hfin; right; assumption|].
    cbn [is_nan ltb]. unfold Rltb. destruct (Rlt_dec ra rv) as [Hlt|Hge].
    + exists rv. split; [reflexivity|]. split; [exists n; left; reflexivity|].
      intros name r' [H|H]; [inversion H; lra|].
      apply Hbound in H. lra.
    + exists ra. split; [reflexivity|]. split; [exists na; right; assumption|].
      intros name r' [H|H]; [inversion H; subst; lra|].
      eapply Hbound. eassumption.
Qed.

Lemma series_min_finite (s : FSeries) :
  s <> [] ->
  (forall e, In e s -> is_finite (snd e) = true) ->
  exists r,
    series_min s = Fin r /\
    (exists name, In (name, Fin r) s) /\
    forall name r', In (name, Fin r') s -> r <= r'.
Proof.
  induction s as [|[n v] s IH]; intros Hne Hfin; [contradiction|].
  destruct (is_finite_Fin v) as [rv ->]; [apply (Hfin (n, v)); left; reflexivity|].
  rewrite series_min_cons. cbn [snd is_nan].
  destruct s as [|e' s'].
  - exists rv. split; [reflexivity|]. split; [exists n; left; reflexivity|].
    intros name r' [H|[]]. inversion H. lra.
  - destruct IH as (ra & -> & (na & Hna) & Hbound);
      [discriminate | intros e He; apply Hfin; right; assumption|].
    cbn [is_nan ltb]. unfold Rltb. destruct (Rlt_dec rv ra) as [Hlt|Hge].
    + exists rv. split; [reflexivity|]. split; [exists n; left; reflexivity|].
      intros name r' [H|H]; [inversion H; lra|].
      apply Hbound in H. lra.
    + exists ra. split; [reflexivity|]. split; [exists na; right; assumption|].
      intros name r' [H|H]; [inversion H; subst; lra|].
      eapply Hbound. eassumption.
Qed.

Lemma idx_of_finite (s : FSeries) (r : R) :
  (forall e, In e s -> is_finite (snd e) = true) ->
  (exists name, In (name, Fin r) s) ->
  exists name, idx_of (Fin r) s = Ok name /\ In (name, Fin r) s.
Proof.
  intros Hfin [n Hn]. unfold idx_of.
  destruct (find _ s) as [[name v]|] eqn:Ef.
  - apply find_some in Ef. destruct Ef as [Hin Hp].
    destruct (is_finite_Fin v) as [rv ->]; [apply (Hfin _ Hin)|].
    exists name. split; [reflexivity|].
    cbn [snd is_nan ltb negb andb] in Hp. unfold Rltb in Hp.
    destruct (Rlt_dec rv r), (Rlt_dec r rv); try discriminate.
    replace r with rv by lra. assumption.
  - exfalso. pose proof (find_none _ _ Ef _ Hn) as Hp.
    cbn [snd is_nan ltb negb andb] in Hp. unfold Rltb in Hp.
    destruct (Rlt_dec r r); [lra | discriminate].
Qed.

End Extremes.

Lemma in_means (smoker_table : GroupTable) name (v : float) :
  In (name, v)
     (map (fun row : string * GroupStats => (fst row, stat_mean (snd row)))
        smoker_table) ->
  exists row, In (name, row) smoker_table /\ stat_mean row = v.
Proof.
  intros H. apply in_map_iff in H. destruct H as ([n row] & Heq & Hin).
  inversion Heq; subst. eauto.
Qed.

(** X22.  On a bundle whose group statistics hold, for the smoker groups,
    at least two rows with finite means, [generate_insights] returns, and
    under the key [smoking_impact] the high group is a row of greatest
    mean, the low group a row of least mean, the difference is the
    greatest mean minus the least, hence not negative, and the multiplier
    is their quotient as numpy divides. *)
Theorem smoking_impact_extremes :
  forall (self : MedicalInsuranceAnalyzer) (groups : list (string * GroupTable))
         (smoker_table : GroupTable),
    well_formed (analysis_results self) ->
    dict_get "groups" (analysis_results self) = Some (Groups groups) ->
    dict_get "smoker" groups = Some smoker_table ->
    2 <= List.length smoker_table ->
    forallb (fun row => is_finite (stat_mean (snd row))) smoker_table = true ->
    exists ins high low hi lo,
      generate_insights self =
        (with_analysis_results self
           (dict_set "insights" (InsightsResult ins) (analysis_results self)),
         [GeneratingInsights], Ok ins) /\
      dict_get "smoking_impact" ins =
        Some (SmokingImpact (div (Fin hi) (Fin lo)) (Fin (hi - lo)) high low) /\
      (exists row, In (high, row) smoker_table /\ stat_mean row = Fin hi) /\
      (exists row, In (low, row) smoker_table /\ stat_mean row = Fin lo) /\
      (forall name row r,
         In (name, row) smoker_table -> stat_mean row = Fin r ->
         (lo <= r <= hi)%R).
Proof.
  intros self groups smoker_table (Hwc & _ & Hwt) Hgroups Hsmoker Hlen Hfinite.
  assert (Hne : map (fun row : string * GroupStats =>
                       (fst row, stat_mean (snd row))) smoker_table <> []).
  { destruct smoker_table; [simpl in Hlen; lia | discriminate]. }
  assert (Hfin : forall e,
             In e (map (fun row : string * GroupStats =>
                          (fst row, stat_mean (snd row))) smoker_table) ->
             is_finite (snd e) = true).
  { intros e He. apply in_map_iff in He. destruct He as (row & <- & Hrow).
    rewrite forallb_forall in Hfinite. apply (Hfinite _ Hrow). }
  assert (Hlen' : (2 <=? List.length
                           (map (fun row : string * GroupStats =>
                                   (fst row, stat_mean (snd row))) smoker_table))%nat
                  = true).
  { rewrite length_map. apply Nat.leb_le. assumption. }
  destruct (series_max_finite _ Hne Hfin) as (hi & Hmax & Hhi & Hle).
  destruct (series_min_finite _ Hne Hfin) as (lo & Hmin & Hlo & Hge).
  destruct (idx_of_finite _ hi Hfin Hhi) as (high & Hhigh & Hinhigh).
  destruct (idx_of_finite _ lo Hfin Hlo) as (low & Hlow & Hinlow).
  assert (Hidxmax : idxmax (map (fun row : string * GroupStats =>
                                   (fst row, stat_mean (snd row))) smoker_table)
                    = Ok high) by (unfold idxmax; rewrite Hmax; assumption).
  assert (Hidxmin : idxmin (map (fun row : string * GroupStats =>
                                   (fst row, stat_mean (snd row))) smoker_table)
                    = Ok low) by (unfold idxmin; rewrite Hmin; assumption).
  assert (Hrun : exists ins,
             generate_insights self =
               (with_analysis_results self
                  (dict_set "insights" (InsightsResult ins) (analysis_results self)),
                [GeneratingInsights], Ok ins) /\
             dict_get "smoking_impact" ins =
               Some (SmokingImpact (div (Fin hi) (Fin lo)) (Fin (hi - lo)) high low)).
  { destruct (dict_get "correlation" (analysis_results self)) as [v|] eqn:Hc;
      [destruct (Hwc v eq_refl) as [c ->]|];
      (destruct (dict_get "statistical_tests" (analysis_results self)) as [w|] eqn:Ht;
       [destruct (Hwt w eq_refl) as [t ->]|]);
      eexists; (split;
        [run_insights; cbv beta iota zeta;
         rewrite Hc; cbv beta iota delta [as_correlation];
         rewrite Hgroups; cbv beta iota delta [as_groups];
         rewrite Hsmoker, Hlen'; cbv beta iota;
         rewrite Hidxmax, Hidxmin; cbv beta iota;
         rewrite Ht; cbv beta iota delta [as_tests];
         rewrite Hmax, Hmin; reflexivity
        | reflexivity]). }
  destruct Hrun as (ins & Hrun & Hget).
  exists ins, high, low, hi, lo.
  split; [assumption|]. split; [assumption|].
  split; [apply in_means; assumption|].
  split; [apply in_means; assumption|].
  intros name row r Hrow Hr. split.
  - apply (Hge name). apply in_map_iff. exists (name, row). simpl.
    rewrite Hr. auto.
  - apply (Hle name). apply in_map_iff. exists (name, row). simpl.
    rewrite Hr. auto.
Qed.

Lemma smoking_impact_extremes_witness :
  exists ins high low hi lo,
    generate_insights
      (with_analysis_results (init no_charges None)
         [("groups", Groups smoker_groups)]) =
      (with_analysis_results (init no_charges None)
         [("groups", Groups smoker_groups); ("insights", InsightsResult ins)],
       [GeneratingInsights], Ok ins) /\
    dict_get "smoking_impact" ins =
      Some (SmokingImpact (div (Fin hi) (Fin lo)) (Fin (hi - lo)) high low) /\
    (exists row,
       In (high, row) [("no", one_row_group (Fin 10)); ("yes", one_row_group (Fin 30))] /\
       stat_mean row = Fin hi) /\
    (exists row,
       In (low, row) [("no", one_row_group (Fin 10)); ("yes", one_row_group (Fin 30))] /\
       stat_mean row = Fin lo) /\
    (forall name row r,
       In (name, row) [("no", one_row_group (Fin 10)); ("yes", one_row_group (Fin 30))] ->
       stat_mean row = Fin r -> (lo <= r <= hi)%R).
Proof.
  apply (smoking_impact_extremes
           (with_analysis_results (init no_charges None)
              [("groups", Groups smoker_groups)])
           smoker_groups
           [("no", one_row_group (Fin 10)); ("yes", one_row_group (Fin 30))]);
    [ | reflexivity | reflexivity | simpl; lia | reflexivity].
  split; [|split]; intros v H; try discriminate H.
  inversion H. eauto.
Defined.

(** X23.  On a bundle whose group statistics hold no smoker table, or one
    of fewer than two rows, [generate_insights] returns a mapping without
    the key [smoking_impact]: no quotient is taken. *)
Theorem generate_insights_single_group :
  forall (self : MedicalInsuranceAnalyzer) (groups : list (string * GroupTable)),
    well_formed (analysis_results self) ->
    dict_get "groups" (analysis_results self) = Some (Groups groups) ->
    (forall smoker_table,
       dict_get "smoker" groups = Some smoker_table ->
       List.length smoker_table < 2) ->
    exists ins,
      generate_insights self =
        (with_analysis_results self
           (dict_set "insights" (InsightsResult ins) (analysis_results self)),
         [GeneratingInsights], Ok ins) /\
      dict_get "smoking_impact" ins = None.
Proof.
  intros self groups (Hwc & _ & Hwt) Hgroups Hshort.
  destruct (dict_get "smoker" groups) as [smoker_table|] eqn:Hsmoker.
  - assert (Hlen : (2 <=? List.length
                            (map (fun row : string * GroupStats =>
                                    (fst row, stat_mean (snd row))) smoker_table))%nat
                   = false).
    { rewrite length_map. apply Nat.leb_gt. apply Hshort. reflexivity. }
    destruct (dict_get "correlation" (analysis_results self)) as [v|] eqn:Hc;
      [destruct (Hwc v eq_refl) as [c ->]|];
      (destruct (dict_get "statistical_tests" (analysis_results self)) as [w|] eqn:Ht;
       [destruct (Hwt w eq_refl) as [t ->]|]);
      eexists; (split;
        [run_insights; cbv beta iota zeta;
         rewrite Hc; cbv beta iota delta [as_correlation];
         rewrite Hgroups; cbv beta iota delta [as_groups];
         rewrite Hsmoker, Hlen; cbv beta iota;
         rewrite Ht; reflexivity
        | reflexivity]).
  - destruct (dict_get "correlation" (analysis_results self)) as [v|] eqn:Hc;
      [destruct (Hwc v eq_refl) as [c ->]|];
      (destruct (dict_get "statistical_tests" (analysis_results self)) as [w|] eqn:Ht;
       [destruct (Hwt w eq_refl) as [t ->]|]);
      eexists; (split;
        [run_insights; cbv beta iota zeta;
         rewrite Hc; cbv beta iota delta [as_correlation];
         rewrite Hgroups; cbv beta iota delta [as_groups];
         rewrite Hsmoker; cbv beta iota;
         rewrite Ht; reflexivity
        | reflexivity]).
Qed.

Lemma generate_insights_single_group_witness :
  exists ins,
    generate_insights
      (with_analysis_results (init no_charges None)
         [("groups", Groups one_smoker_group)]) =
      (with_analysis_results (init no_charges None)
         [("groups", Groups one_smoker_group); ("insights", InsightsResult ins)],
       [GeneratingInsights], Ok ins) /\
    dict_get "smoking_impact" ins = None.
Proof.
  apply (generate_insights_single_group
           (with_analysis_results (init no_charges None)
              [("groups", Groups one_smoker_group)])
           one_smoker_group); [ | reflexivity | ].
  - split; [|split]; intros v H; try discriminate H.
    inversion H. eauto.
  - intros smoker_table H. inversion H. simpl. lia.
Defined.

(** ** The significant factors *)

Lemma significant_factors_of_named (test_data : list (string * TestResult)) :
  (forall kv, In kv test_data -> In (fst kv) (map fst factor_names)) ->
  Forall2 (fun kv name => In (fst kv, name) factor_names)
    (filter (fun kv => significant (snd kv)) test_data)
    (significant_factors_of test_data).
Proof.
  unfold significant_factors_of.
  induction test_data as [|[key t] td IH]; intros Hkeys; simpl; [constructor|].
  assert (IH' := IH (fun kv H => Hkeys kv (or_intror H))).
  destruct (significant t); [|exact IH'].
  simpl. constructor; [|exact IH'].
  specialize (Hkeys (key, t) (or_introl eq_refl)). simpl in Hkeys.
  destruct Hkeys as [<-|[<-|[<-|[]]]]; vm_compute; auto.
Qed.

(** X24.  When the bundle holds tests under the keys that
    [statistical_tests] stores, the mapping [generate_insights] returns
    holds under [significant_factors] one name for each test found
    significant, in the order of the tests: the key of the test without
    its suffix [_ttest] or [_anova]. *)
Theorem significant_factors_named :
  forall (self self' : MedicalInsuranceAnalyzer) (out : list event)
         (ins : Insights) (test_data : list (string * TestResult)),
    dict_get "statistical_tests" (analysis_results self)
      = Some (StatisticalTests test_data) ->
    (forall kv, In kv test_data -> In (fst kv) (map fst factor_names)) ->
    generate_insights self = (self', out, Ok ins) ->
    exists factors,
      dict_get "significant_factors" ins = Some (SignificantFactors factors) /\
      Forall2 (fun kv name => In (fst kv, name) factor_names)
        (filter (fun kv => significant (snd kv)) test_data) factors.
Proof.
  intros self self' out ins test_data Ht Hkeys Hrun.
  exists (significant_factors_of test_data).
  split; [|apply significant_factors_of_named; assumption].
  revert Hrun. run_insights. cbv beta iota zeta.
  destruct (dict_get "correlation" (analysis_results self)) as [[]|];
    cbv beta iota delta [as_correlation]; try discriminate.
  all: destruct (dict_get "groups" (analysis_results self)) as [[]|];
    cbv beta iota delta [as_groups]; try discriminate.
  all: try (destruct (dict_get "smoker" g) as [smoker_table|]; cbv beta iota).
  all: try (destruct (2 <=? List.length
                              (map (fun row : string * GroupStats =>
                                      (fst row, stat_mean (snd row)))
                                 smoker_table))%nat; cbv beta iota).
  all: try (destruct (idxmax (map (fun row : string * GroupStats =>
                                     (fst row, stat_mean (snd row)))
                                smoker_table)); cbv beta iota;
            try discriminate).
  all: try (destruct (idxmin (map (fun row : string * GroupStats =>
                                     (fst row, stat_mean (snd row)))
                                smoker_table)); cbv beta iota;
            try discriminate).
  all: rewrite Ht; cbv beta iota delta [as_tests].
  all: intros Hrun; inversion Hrun; reflexivity.
Qed.

Lemma significant_factors_named_witness :
  exists factors,
    dict_get "significant_factors"
      [("significant_factors", SignificantFactors ["smoker"])]
      = Some (SignificantFactors factors) /\
    Forall2 (fun kv name => In (fst kv, name) factor_names)
      (filter (fun kv => significant (snd kv)) two_tests) factors.
Proof.
  apply (significant_factors_named
           (with_analysis_results (init no_charges None)
              [("statistical_tests", StatisticalTests two_tests)])
           (with_analysis_results (init no_charges None)
              [("statistical_tests", StatisticalTests two_tests);
               ("insights",
                InsightsResult [("significant_factors",
                                 SignificantFactors ["smoker"])])])
           [GeneratingInsights]
           [("significant_factors", SignificantFactors ["smoker"])]
           two_tests eq_refl); [|reflexivity].
  intros kv [<-|[<-|[]]]; simpl; auto.
Defined.

(** ** From the cleaner to the analysis *)

Lemma labels_set_col name (s s0 : Series) (df : DataFrame) :
  get_col name df = Some s0 -> map fst (set_col name s df) = map fst df.
Proof.
  induction df as [|[n c] df IH]; simpl; [discriminate|].
  destruct (String.eqb_spec n name) as [->|Hn]; simpl; [reflexivity|].
  intros H. rewrite IH by assumption. reflexivity.
Qed.

Lemma cleans_labels str_to_num py_int raw cleaned :
  cleans str_to_num py_int raw cleaned -> map fst cleaned = map fst raw.
Proof.
  intros Hcleans.
  inversion Hcleans as
    [raw_age smoker smoker_num age_int sex sex_int children children_int
       smoker_int region region_int m
       Hage Hsmoker Hmode Hnum Hage_int Hsex Hsex_int Hchildren
       Hchildren_int Hsmoker_int Hregion Hregion_int Hcleaned].
  rewrite (labels_set_col "region" region_int region)
    by (rewrite !get_col_set_col_other by discriminate; assumption).
  rewrite (labels_set_col "smoker" smoker_int smoker_num)
    by (rewrite !get_col_set_col_other by discriminate; apply get_col_set_col_same).
  rewrite (labels_set_col "children" children_int children)
    by (rewrite !get_col_set_col_other by discriminate; assumption).
  rewrite (labels_set_col "sex" sex_int sex)
    by (rewrite !get_col_set_col_other by discriminate; assumption).
  rewrite (labels_set_col "age" age_int (imputed_age str_to_num raw_age))
    by (rewrite !get_col_set_col_other by discriminate; apply get_col_set_col_same).
  rewrite (labels_set_col "smoker" smoker_num smoker)
    by (rewrite !get_col_set_col_other by discriminate; assumption).
  apply (labels_set_col "age" _ raw_age). assumption.
Qed.

Lemma cleans_other_columns str_to_num py_int raw cleaned name :
  cleans str_to_num py_int raw cleaned ->
  ~ In name integer_columns ->
  get_col name cleaned = get_col name raw.
Proof.
  intros Hcleans Hnot. inversion Hcleans; subst.
  unfold integer_columns in Hnot. simpl in Hnot.
  rewrite !get_col_set_col_other; [reflexivity| | | | | | |];
    intros <-; apply Hnot; auto 6.
Qed.

Lemma in_get_col name (col : Series) (df : DataFrame) :
  NoDup (map fst df) -> In (name, col) df -> get_col name df = Some col.
Proof.
  induction df as [|[n c] df IH]; simpl; intros Hnodup Hin; [contradiction|].
  inversion Hnodup as [|x l Hx Hl]; subst.
  destruct Hin as [Heq|Hin].
  - inversion Heq; subst. rewrite String.eqb_refl. reflexivity.
  - destruct (String.eqb_spec n name) as [->|Hn]; [|auto].
    exfalso. apply Hx. apply in_map_iff. exists (name, col). auto.
Qed.

Lemma get_col_in name (col : Series) (df : DataFrame) :
  get_col name df = Some col -> In (name, col) df.
Proof.
  induction df as [|[n c] df IH]; simpl; [discriminate|].
  destruct (String.eqb_spec n name) as [->|Hn].
  - intros H. inversion H. auto.
  - auto.
Qed.

Lemma traverse_ok (A B : Type) (f : A -> result B) (l : list A) :
  (forall x, In x l -> exists y, f x = Ok y) -> exists ys, traverse f l = Ok ys.
Proof.
  induction l as [|a l IH]; simpl; intros H; [eauto|].
  destruct (H a (or_introl eq_refl)) as [y ->].
  destruct IH as [ys ->]; [intros x Hx; apply H; auto|].
  simpl. eauto.
Qed.

Lemma to_float_readable py_float (c : cell) :
  readable py_float c -> exists y, to_float py_float c = Ok y.
Proof.
  destruct c as [q| |s]; simpl; eauto.
  intros H. destruct (py_float s) eqn:E; [eauto|].
  exfalso. apply (H s eq_refl). assumption.
Qed.

Lemma integer_readable py_float (c : cell) : is_integer c -> readable py_float c.
Proof. intros [z ->] s H. discriminate. Qed.

(** X25.  From the cleaner to the analysis.  Let the raw table have
    distinct column names and a column [charges], and let every cell of
    the columns the cleaning leaves alone be a number, a missing value or
    text that [float()] reads.  Then the correlation analysis of a table
    that [clean_data] returned does not fail: it returns a result, stores
    it under the key [correlation], and its strongest predictor is a
    column of the raw table other than [charges]. *)
Theorem clean_then_correlation :
  forall (str_to_num : string -> option Q) (py_int : string -> option Z)
         (py_float : string -> option Q)
         (self self' : MedicalInsuranceDataLoader) (raw cleaned : DataFrame)
         (out : list Loader.event) (labeled : option DataFrame),
    df_raw self = Some raw ->
    clean_data str_to_num py_int self = (self', out, Ok (Some cleaned)) ->
    NoDup (map fst raw) ->
    In "charges" (map fst raw) ->
    (forall name col c,
       In (name, col) raw -> ~ In name integer_columns -> In c col ->
       readable py_float c) ->
    exists res,
      correlation_analysis py_float (init cleaned labeled) =
        (with_analysis_results (init cleaned labeled)
           [("correlation", Correlation res)],
         [PerformingCorrelation], Ok res) /\
      strongest_predictor res <> "charges" /\
      In (strongest_predictor res) (map fst raw).
Proof.
  intros str_to_num py_int py_float self self' raw cleaned out labeled
         Hraw Hrun Hnodup Hcharges Hreadable.
  apply (clean_data_ok_inv _ _ _ raw) in Hrun; [|assumption].
  destruct Hrun as (cleaned' & Heq & Hcleans & _).
  inversion Heq; subst cleaned'. clear Heq.
  pose proof (cleans_labels _ _ _ _ Hcleans) as Hlabels.
  destruct (cleans_integer_columns _ _ _ _ Hcleans)
    as (age & sex & children & smoker & region & Hage & Iage & Hsex & Isex
        & Hchildren & Ichildren & Hsmoker & Ismoker & _ & Hregion & Iregion).
  assert (Hcells : forall name col c,
             In (name, col) cleaned -> In c col -> readable py_float c).
  { intros name col c Hcol Hc.
    apply in_get_col in Hcol; [|rewrite Hlabels; assumption].
    destruct (in_dec string_dec name integer_columns) as [Hin|Hnot].
    - apply integer_readable.
      assert (Hint : Forall is_integer col).
      { simpl in Hin. destruct Hin as [<-|[<-|[<-|[<-|[<-|[]]]]]]; congruence. }
      rewrite Forall_forall in Hint. auto.
    - rewrite (cleans_other_columns _ _ _ _ _ Hcleans Hnot) in Hcol.
      apply get_col_in in Hcol. eapply Hreadable; eassumption. }
  assert (Hcols : exists cols, traverse (to_float_column py_float) cleaned = Ok cols).
  { apply traverse_ok. intros [name col] Hcol. unfold to_float_column. simpl.
    destruct (traverse_ok _ _ (to_float py_float) col) as [xs ->];
      [|simpl; eauto].
    intros c Hc. apply to_float_readable. eapply Hcells; eassumption. }
  destruct Hcols as [cols Hcols].
  assert (Hcorr : corr py_float (df_clean (init cleaned labeled))
                  = Ok (corr_of_floats cols))
    by (unfold corr; simpl; rewrite Hcols; reflexivity).
  pose proof (corr_labels _ _ _ Hcorr) as Hm. simpl in Hm.
  destruct (dict_get "charges" (corr_of_floats cols)) as [charges|] eqn:Hget.
  2: { exfalso. apply dict_get_none in Hget. apply Hget.
       rewrite Hm, Hlabels. assumption. }
  pose proof (corr_column_labels _ _ _ _ _ Hcorr Hget) as Hrows.
  assert (Hagein : In "age" (map fst charges)).
  { rewrite Hrows, Hm. apply get_col_in in Hage.
    apply in_map_iff. exists ("age", age). auto. }
  apply in_map_iff in Hagein. destruct Hagein as (e & He & Hein).
  assert (Hperm := Permutation_sort_values_descending
            (series_abs
               (filter (fun e => negb (String.eqb (fst e) "charges")) charges))).
  destruct (sort_values_descending _) as [|x rest] eqn:Hsort.
  { exfalso. apply Permutation_nil in Hperm.
    assert (Hin : In e (filter (fun e => negb (String.eqb (fst e) "charges"))
                          charges))
      by (apply filter_In; rewrite He; auto).
    unfold series_abs in Hperm. apply map_eq_nil in Hperm.
    rewrite Hperm in Hin. contradiction. }
  eexists. split.
  { apply (correlation_analysis_run _ _ _ _ _ _ Hcorr Hget Hsort). }
  cbn [strongest_predictor].
  assert (Hx : In x (series_abs
                       (filter (fun e => negb (String.eqb (fst e) "charges"))
                          charges)))
    by (apply (Permutation_in _ Hperm); left; reflexivity).
  unfold series_abs in Hx. apply in_map_iff in Hx.
  destruct Hx as (e0 & <- & He0). apply filter_In in He0.
  destruct He0 as [He0 Hne]. simpl. split.
  - intros Heq. rewrite Heq in Hne. discriminate.
  - rewrite <- Hlabels, <- Hm, <- Hrows. apply in_map. assumption.
Qed.

Lemma clean_then_correlation_witness :
  exists res,
    correlation_analysis parse_num
      (init (set_col "smoker" (ints [1; 0; 0; 0]%Z)
               (set_col "age" (ints [30; 30; 40; -1]%Z) fractional_ages))
         None) =
      (with_analysis_results
         (init (set_col "smoker" (ints [1; 0; 0; 0]%Z)
                  (set_col "age" (ints [30; 30; 40; -1]%Z) fractional_ages))
            None)
         [("correlation", Correlation res)],
       [PerformingCorrelation], Ok res) /\
    strongest_predictor res <> "charges" /\
    In (strongest_predictor res) (map fst fractional_ages).
Proof.
  apply (clean_then_correlation parse_num parse_int parse_num
           (loaded fractional_ages) _ fractional_ages _ _ None
           eq_refl fractional_ages_cleaned).
  - repeat constructor; simpl; intuition discriminate.
  - simpl. auto 8.
  - intros name col c Hcol Hnot Hc s ->.
    unfold integer_columns in Hnot. simpl in Hcol, Hnot.
    destruct Hcol as [H|[H|[H|[H|[H|[H|[H|[]]]]]]]]; inversion H; subst;
      try (exfalso; apply Hnot; auto 6; fail);
      simpl in Hc; intuition discriminate.
Defined.

(** * Properties of the statistical tests *)

(** ** The tests on identical groups *)

Section IdenticalGroups.
Local Open Scope R_scope.

Lemma finite_sample_numbers (xs : list R) : finite_sample (map Fin xs) = Some xs.
Proof.
  induction xs as [|x xs IH]; simpl; [reflexivity|]. rewrite IH. reflexivity.
Qed.



Lemma ltb_one_five_percent : ltb (Fin 1) (Fin (5 / 100)) = false.
Proof.
  simpl. unfold Rltb. destruct (Rlt_dec 1 (5 / 100)) as [H|_]; [|reflexivity].
  exfalso. lra.
Qed.



(** The t-test of a sample of one repeated value against itself: 0/0. *)
Lemma t_statistic_constant t_sf (xs : list R) :
  all_equal xs ->
  t_statistic t_sf (map Fin xs) (map Fin xs) = (FNaN, FNaN).
Proof.
  intros Hconst. unfold t_statistic. rewrite finite_sample_numbers.
  destruct ((List.length xs =? 0) || (List.length xs =? 0))%nat; [reflexivity|].
  destruct (List.length xs + List.length xs =? 2)%nat; [reflexivity|].
  cbv zeta. replace (mean xs - mean xs) with 0 by ring.
  rewrite (proj2 (ssqdm_zero_iff xs) Hconst).
  replace ((0 + 0) / (INR (List.length xs) + INR (List.length xs) - 2)
           * (1 / INR (List.length xs) + 1 / INR (List.length xs)))
    with 0 by (unfold Rdiv; ring).
  rewrite sqrt_0. simpl.
  destruct (Req_dec_T 0 0) as [_|H]; [reflexivity | contradiction].
Qed.


Lemma sum_map_zeros (A : Type) (f : A -> R) (l : list A) :
  (forall x, In x l -> f x = 0) -> sum (map f l) = 0.
Proof.
  induction l as [|a l IH]; simpl; intros H; [reflexivity|].
  rewrite (H a) by auto. rewrite IH by auto. lra.
Qed.

Lemma sum_app (l1 l2 : list R) : sum (l1 ++ l2) = sum l1 + sum l2.
Proof.
  induction l1 as [|x l1 IH]; simpl; [lra|]. rewrite IH. lra.
Qed.

Lemma sum_copies (A : Type) (l : list A) (xs : list R) :
  sum (List.concat (map (fun _ => xs) l)) = INR (List.length l) * sum xs.
Proof.
  induction l as [|a l IH]; [simpl; lra|].
  change (List.length (a :: l)) with (S (List.length l)).
  rewrite S_INR. simpl. rewrite sum_app, IH. lra.
Qed.

Lemma length_copies (A : Type) (l : list A) (xs : list R) :
  List.length (List.concat (map (fun _ => xs) l))
  = (List.length l * List.length xs)%nat.
Proof.
  induction l as [|a l IH]; simpl; [reflexivity|].
  rewrite length_app, IH. reflexivity.
Qed.

Lemma mean_copies (A : Type) (l : list A) (xs : list R) :
  l <> [] -> xs <> [] ->
  mean (List.concat (map (fun _ => xs) l)) = mean xs.
Proof.
  intros Hl Hxs. unfold mean. rewrite sum_copies, length_copies, mult_INR.
  assert (Hk : INR (List.length l) <> 0).
  { apply not_0_INR. destruct l; [contradiction | discriminate]. }
  assert (Hn : INR (List.length xs) <> 0).
  { apply not_0_INR. destruct xs; [contradiction | discriminate]. }
  field. auto.
Qed.

Lemma finite_samples_copies (A : Type) (l : list A) (xs : list R) :
  finite_samples (map (fun _ => map Fin xs) l) = Some (map (fun _ => xs) l).
Proof.
  induction l as [|a l IH]; simpl; [reflexivity|].
  rewrite finite_sample_numbers, IH. reflexivity.
Qed.

Lemma traverse_copies (A B : Type) (f : A -> result B) (a : A) (b : B)
  (l : list A) :
  f a = Ok b -> Forall (eq a) l -> traverse f l = Ok (map (fun _ => b) l).
Proof.
  intros Hf. induction 1 as [|x l Hx Hl IH]; simpl; [reflexivity|].
  subst x. rewrite Hf, IH. reflexivity.
Qed.



End IdenticalGroups.

(** ** The runs of [statistical_tests] *)

Lemma getitem_columns_contain name (df : DataFrame) (col : Series) :
  getitem name df = Ok col -> columns_contain name df = true.
Proof.
  unfold getitem, columns_contain.
  induction df as [|[n c] df IH]; simpl; [discriminate|].
  destruct (String.eqb n name); [reflexivity|]. exact IH.
Qed.




(** ** The runs on the tables of the examples *)

Section ExampleGroups.
Local Open Scope R_scope.

Lemma short_all_equal (xs : list R) : (List.length xs <= 1)%nat -> all_equal xs.
Proof.
  destruct xs as [|x [|y l]]; simpl; intros H a b Ha Hb.
  - contradiction.
  - destruct Ha as [<-|[]], Hb as [<-|[]]. reflexivity.
  - exfalso. lia.
Qed.

Lemma varied_length (xs : list R) : ~ all_equal xs -> (2 <= List.length xs)%nat.
Proof.
  intros H. destruct (le_lt_dec (List.length xs) 1) as [Hle|Hlt]; [|lia].
  exfalso. apply H. apply short_all_equal. assumption.
Qed.

Lemma varied_ssqdm (xs : list R) : ~ all_equal xs -> 0 < ssqdm xs.
Proof.
  intros H. destruct (ssqdm_nonneg xs) as [Hlt|Heq]; [assumption|].
  exfalso. apply H. apply ssqdm_zero_iff. symmetry. assumption.
Qed.

Lemma div_zero_by (d : R) : d <> 0 -> div (Fin 0) (Fin d) = Fin 0.
Proof.
  intros Hd. simpl. destruct (Req_dec_T d 0) as [H|_]; [contradiction|].
  f_equal. unfold Rdiv. apply Rmult_0_l.
Qed.

(** In exact arithmetic, the t-test of a sample of different values against
    itself has the statistic 0 and the p-value 1. *)
Lemma t_statistic_varied t_sf (xs : list R) :
  (forall df, t_sf 0 df = 1 / 2) ->
  ~ all_equal xs ->
  t_statistic t_sf (map Fin xs) (map Fin xs) = (Fin 0, Fin 1).
Proof.
  intros Hsf Hvar. pose proof (varied_length xs Hvar) as Hlen.
  pose proof (varied_ssqdm xs Hvar) as Hss.
  unfold t_statistic. rewrite finite_sample_numbers.
  destruct (List.length xs =? 0)%nat eqn:E0; [apply Nat.eqb_eq in E0; lia|].
  cbn [orb].
  destruct (List.length xs + List.length xs =? 2)%nat eqn:E2;
    [apply Nat.eqb_eq in E2; lia|].
  cbv zeta. replace (mean xs - mean xs) with 0 by ring.
  assert (Hn : 2 <= INR (List.length xs)).
  { change 2 with (INR 2). apply le_INR. assumption. }
  rewrite div_zero_by.
  - simpl. rewrite Rabs_R0, Hsf. do 2 f_equal. field.
  - apply Rgt_not_eq. apply sqrt_lt_R0.
    apply Rmult_lt_0_compat.
    + apply Rdiv_lt_0_compat; lra.
    + assert (0 < 1 / INR (List.length xs)) by (apply Rdiv_lt_0_compat; lra).
      lra.
Qed.

Lemma sum_map_positive (A : Type) (f : A -> R) (l : list A) :
  l <> [] -> (forall x, In x l -> 0 < f x) -> 0 < sum (map f l).
Proof.
  intros Hl H. destruct l as [|a l]; [contradiction|]. simpl.
  assert (0 < f a) by (apply H; left; reflexivity).
  assert (0 <= sum (map f l)).
  { apply sum_map_nonneg. intros x Hx. apply Rlt_le. apply H. right. assumption. }
  lra.
Qed.

(** In exact arithmetic, the analysis of variance of at least two groups
    that all hold the same different values has the statistic 0 and the
    p-value 1. *)
Lemma f_statistic_varied f_sf (A : Type) (l : list A) (xs : list R) :
  (forall dfn dfd, f_sf 0 dfn dfd = 1) ->
  (2 <= List.length l)%nat ->
  ~ all_equal xs ->
  f_statistic f_sf (map (fun _ => map Fin xs) l) = (Fin 0, Fin 1).
Proof.
  intros Hsf Hk Hvar. pose proof (varied_length xs Hvar) as Hlen.
  assert (Hxs : xs <> []) by (intros ->; simpl in Hlen; lia).
  assert (Hl : l <> []) by (intros ->; simpl in Hk; lia).
  unfold f_statistic.
  rewrite finite_samples_copies.
  assert (Hex : existsb (fun g : list R => (List.length g =? 0)%nat)
                  (map (fun _ : A => xs) l) = false).
  { apply not_true_is_false. intros H. apply existsb_exists in H.
    destruct H as (g & Hg & Hz). apply in_map_iff in Hg.
    destruct Hg as (x & <- & _). apply Nat.eqb_eq in Hz. lia. }
  rewrite Hex.
  assert (Hssbn :
            sum (map (fun g : list R =>
                        INR (List.length g)
                        * ((mean g - mean (List.concat (map (fun _ : A => xs) l)))
                           * (mean g - mean (List.concat (map (fun _ : A => xs) l)))))
                   (map (fun _ : A => xs) l)) = 0).
  { apply sum_map_zeros. intros g Hg. apply in_map_iff in Hg.
    destruct Hg as (x & <- & _). rewrite (mean_copies A l xs Hl Hxs). ring. }
  assert (Hsswn : 0 < sum (map ssqdm (map (fun _ : A => xs) l))).
  { apply sum_map_positive.
    - destruct l; [contradiction | discriminate].
    - intros g Hg. apply in_map_iff in Hg. destruct Hg as (x & <- & _).
      apply varied_ssqdm. assumption. }
  assert (Hdfwn : 0 < INR (List.length (List.concat (map (fun _ : A => xs) l)))
                      - INR (List.length (map (fun _ : A => xs) l))).
  { rewrite length_copies, length_map. apply Rlt_0_minus. apply lt_INR. nia. }
  cbv zeta. rewrite Hssbn.
  replace (0 / (INR (List.length (map (fun _ : A => xs) l)) - 1)) with 0
    by (unfold Rdiv; ring).
  set (sswn := sum (map ssqdm (map (fun _ : A => xs) l))) in *.
  set (dfwn := INR (List.length (List.concat (map (fun _ : A => xs) l)))
               - INR (List.length (map (fun _ : A => xs) l))) in *.
  assert (Hmsw : div (Fin sswn) (Fin dfwn) = Fin (sswn / dfwn)).
  { simpl. destruct (Req_dec_T dfwn 0) as [H|_]; [exfalso; lra | reflexivity]. }
  rewrite Hmsw. rewrite div_zero_by.
  - cbn [f_pvalue]. rewrite Hsf. reflexivity.
  - apply Rgt_not_eq. apply Rdiv_lt_0_compat; assumption.
Qed.

Lemma Q2R_100 : Q2R 100 = 100.
Proof. unfold Q2R. simpl. lra. Qed.

Lemma Q2R_200 : Q2R 200 = 200.
Proof. unfold Q2R. simpl. lra. Qed.

Lemma Q2R_300 : Q2R 300 = 300.
Proof. unfold Q2R. simpl. lra. Qed.

Lemma varied_example : ~ all_equal [Q2R 100; Q2R 200; Q2R 300].
Proof.
  intros H.
  assert (E : Q2R 100 = Q2R 200) by (apply H; simpl; auto).
  rewrite Q2R_100, Q2R_200 in E. lra.
Qed.

Lemma constant_example : all_equal [Q2R 100; Q2R 100; Q2R 100].
Proof.
  intros a b Ha Hb. simpl in Ha, Hb.
  destruct Ha as [<-|[<-|[<-|[]]]], Hb as [<-|[<-|[<-|[]]]]; reflexivity.
Qed.

End ExampleGroups.

(** The run on the example of the specification: the statistic is 0/0, the
    p-value is nan, whatever the tail functions. *)
Example statistical_tests_constant_groups py_float t_sf f_sf :
  statistical_tests py_float t_sf f_sf (init constant_groups None) =
    (with_analysis_results (init constant_groups None)
       [("statistical_tests",
         StatisticalTests
           [("smoker_ttest",
             {| statistic := FNaN; p_value := FNaN; significant := false |})])],
     [PerformingTests],
     Ok [("smoker_ttest",
          {| statistic := FNaN; p_value := FNaN; significant := false |})]).
Proof.
  assert (Ht : ttest_of t_sf "smoker_label" "yes" "no" constant_groups =
               Ok {| statistic := FNaN; p_value := FNaN; significant := false |}).
  { unfold ttest_of.
    change (charges_where "smoker_label" "yes" constant_groups)
      with (@Ok Series [Num 100; Num 100; Num 100]).
    change (charges_where "smoker_label" "no" constant_groups)
      with (@Ok Series [Num 100; Num 100; Num 100]).
    cbn [result_bind]. unfold ttest_ind.
    change (sample_of [Num 100; Num 100; Num 100])
      with (@Ok (list float) (map Fin [Q2R 100; Q2R 100; Q2R 100])).
    cbn [result_bind].
    rewrite (t_statistic_constant t_sf _ constant_example). reflexivity. }
  unfold statistical_tests, bind, print, get_df_labeled, lift, ret, set_result.
  cbv beta iota zeta.
  change (df_labeled (init constant_groups None)) with constant_groups.
  change (columns_contain "smoker_label" constant_groups) with true.
  change (columns_contain "sex_label" constant_groups) with false.
  change (columns_contain "region_label" constant_groups) with false.
  cbv beta iota. rewrite Ht. reflexivity.
Qed.

(** The run on smokers and non-smokers, and two regions, with the charges
    100, 200, 300 each: statistic 0 and p-value 1.0 in both tests. *)
Example identical_groups_run py_float t_sf f_sf :
  (forall df, t_sf 0%R df = (1 / 2)%R) ->
  (forall dfn dfd, f_sf 0%R dfn dfd = 1%R) ->
  statistical_tests py_float t_sf f_sf (init identical_groups None) =
    (with_analysis_results (init identical_groups None)
       [("statistical_tests",
         StatisticalTests
           [("smoker_ttest",
             {| statistic := Fin 0; p_value := Fin 1; significant := false |});
            ("region_anova",
             {| statistic := Fin 0; p_value := Fin 1; significant := false |})])],
     [PerformingTests],
     Ok [("smoker_ttest",
          {| statistic := Fin 0; p_value := Fin 1; significant := false |});
         ("region_anova",
          {| statistic := Fin 0; p_value := Fin 1; significant := false |})]).
Proof.
  intros Htsf Hfsf.
  assert (Ht : ttest_of t_sf "smoker_label" "yes" "no" identical_groups =
               Ok {| statistic := Fin 0; p_value := Fin 1; significant := false |}).
  { unfold ttest_of.
    change (charges_where "smoker_label" "yes" identical_groups)
      with (@Ok Series [Num 100; Num 200; Num 300]).
    change (charges_where "smoker_label" "no" identical_groups)
      with (@Ok Series [Num 100; Num 200; Num 300]).
    cbn [result_bind]. unfold ttest_ind.
    change (sample_of [Num 100; Num 200; Num 300])
      with (@Ok (list float) (map Fin [Q2R 100; Q2R 200; Q2R 300])).
    cbn [result_bind].
    rewrite (t_statistic_varied t_sf _ Htsf varied_example). cbn [fst snd].
    rewrite ltb_one_five_percent. reflexivity. }
  assert (Ha : anova_of py_float f_sf "region_label" identical_groups =
               Ok {| statistic := Fin 0; p_value := Fin 1; significant := false |}).
  { unfold anova_of.
    change (groupby_charges "region_label" identical_groups)
      with (@Ok (list Series)
              (map (fun _ : unit => [Num 100; Num 200; Num 300]) [tt; tt])).
    cbn [result_bind]. unfold f_oneway.
    change (List.length (map (fun _ : unit => [Num 100; Num 200; Num 300]) [tt; tt])
            <? 2)%nat with false.
    rewrite (traverse_copies _ _ (traverse (to_float py_float))
               [Num 100; Num 200; Num 300]
               (map Fin [Q2R 100; Q2R 200; Q2R 300])
               (map (fun _ : unit => [Num 100; Num 200; Num 300]) [tt; tt]))
      by (try reflexivity; repeat constructor).
    cbn [result_bind]. rewrite map_map.
    rewrite (f_statistic_varied f_sf unit [tt; tt] _ Hfsf (le_n 2) varied_example).
    cbn [fst snd]. rewrite ltb_one_five_percent. reflexivity. }
  unfold statistical_tests, bind, print, get_df_labeled, lift, ret, set_result.
  cbv beta iota zeta.
  change (df_labeled (init identical_groups None)) with identical_groups.
  change (columns_contain "smoker_label" identical_groups) with true.
  cbv beta iota. rewrite Ht. cbv beta iota.
  change (df_labeled (init identical_groups None)) with identical_groups.
  change (columns_contain "sex_label" identical_groups) with false.
  cbv beta iota.
  change (df_labeled (init identical_groups None)) with identical_groups.
  change (columns_contain "region_label" identical_groups) with true.
  cbv beta iota. rewrite Ha. reflexivity.
Qed.




(** ** What a run of the tests stores *)

(** X26.  However a call of [statistical_tests] ends, it prints one line
    and leaves the two tables of the analyzer as they were.  When it
    raises, the analyzer is unchanged: no test is stored, not even those
    computed before the failure.  When it returns, the bundle differs from
    the one before in the key [statistical_tests] only, which holds the
    returned mapping. *)
Theorem statistical_tests_frame :
  forall (py_float : string -> option Q)
         (t_sf : R -> R -> R) (f_sf : R -> R -> R -> R)
         (self self' : MedicalInsuranceAnalyzer) (out : list event)
         (r : result (list (string * TestResult))),
    statistical_tests py_float t_sf f_sf self = (self', out, r) ->
    out = [PerformingTests] /\
    df_clean self' = df_clean self /\
    df_labeled self' = df_labeled self /\
    match r with
    | Ok tests =>
        dict_get "statistical_tests" (analysis_results self')
          = Some (StatisticalTests tests) /\
        forall key, key <> "statistical_tests" ->
          dict_get key (analysis_results self') = dict_get key (analysis_results self)
    | Raise _ => self' = self
    end.
Proof.
  intros py_float t_sf f_sf self self' out r.
  unfold statistical_tests, bind, print, get_df_labeled, lift, ret, set_result.
  cbv beta iota zeta.
  destruct (columns_contain "smoker_label" (df_labeled self));
    [destruct (ttest_of t_sf "smoker_label" "yes" "no" (df_labeled self))
       as [r1|e1]|];
    cbv beta iota;
    try (intros Hrun; inversion Hrun; subst; auto; fail);
    (destruct (columns_contain "sex_label" (df_labeled self));
     [destruct (ttest_of t_sf "sex_label" "male" "female" (df_labeled self))
        as [r2|e2]|]);
    cbv beta iota;
    try (intros Hrun; inversion Hrun; subst; auto; fail);
    (destruct (columns_contain "region_label" (df_labeled self));
     [destruct (anova_of py_float f_sf "region_label" (df_labeled self))
        as [r3|e3]|]);
    cbv beta iota;
    try (intros Hrun; inversion Hrun; subst; auto; fail);
    intros Hrun; inversion Hrun; subst;
    (split; [reflexivity|]); (split; [reflexivity|]); (split; [reflexivity|]);
    cbn [analysis_results with_analysis_results];
    (split; [apply dict_get_set_same|]);
    intros key Hkey; apply dict_get_set_other; congruence.
Qed.

Lemma statistical_tests_frame_witness :
  [PerformingTests] = [PerformingTests] /\
  constant_groups = constant_groups /\
  constant_groups = constant_groups /\
  dict_get "statistical_tests"
    [("statistical_tests",
      StatisticalTests
        [("smoker_ttest",
          {| statistic := FNaN; p_value := FNaN; significant := false |})])]
    = Some (StatisticalTests
              [("smoker_ttest",
                {| statistic := FNaN; p_value := FNaN; significant := false |})]) /\
  forall key, key <> "statistical_tests" ->
    dict_get key
      [("statistical_tests",
        StatisticalTests
          [("smoker_ttest",
            {| statistic := FNaN; p_value := FNaN; significant := false |})])]
    = dict_get key (@nil (string * PhaseResult)).
Proof.
  exact (statistical_tests_frame Loader.parse_num
           (fun _ _ => (1 / 2)%R) (fun _ _ _ => 1%R)
           (init constant_groups None) _ _ _
           (statistical_tests_constant_groups Loader.parse_num
              (fun _ _ => (1 / 2)%R) (fun _ _ _ => 1%R))).
Defined.

(** X27.  The mapping [statistical_tests] returns holds one test for each
    of the columns [smoker_label], [sex_label] and [region_label] that the
    labeled table has, under the keys [smoker_ttest], [sex_ttest] and
    [region_anova], in that order, and no other key. *)
Theorem statistical_tests_keys :
  forall (py_float : string -> option Q)
         (t_sf : R -> R -> R) (f_sf : R -> R -> R -> R)
         (self self' : MedicalInsuranceAnalyzer) (out : list event)
         (tests : list (string * TestResult)),
    statistical_tests py_float t_sf f_sf self = (self', out, Ok tests) ->
    map fst tests =
    map snd (filter (fun lk => columns_contain (fst lk) (df_labeled self))
               test_keys).
Proof.
  intros py_float t_sf f_sf self self' out tests.
  unfold statistical_tests, bind, print, get_df_labeled, lift, ret, set_result.
  cbv beta iota zeta. unfold test_keys. cbn [filter fst].
  destruct (columns_contain "smoker_label" (df_labeled self));
    [destruct (ttest_of t_sf "smoker_label" "yes" "no" (df_labeled self))
       as [r1|e1]; [|discriminate]|];
    cbv beta iota;
    (destruct (columns_contain "sex_label" (df_labeled self));
     [destruct (ttest_of t_sf "sex_label" "male" "female" (df_labeled self))
        as [r2|e2]; [|discriminate]|]);
    cbv beta iota;
    (destruct (columns_contain "region_label" (df_labeled self));
     [destruct (anova_of py_float f_sf "region_label" (df_labeled self))
        as [r3|e3]; [|discriminate]|]);
    cbv beta iota;
    intros Hrun; inversion Hrun; subst; reflexivity.
Qed.

Lemma statistical_tests_keys_witness :
  map fst
    [("smoker_ttest",
      {| statistic := Fin 0; p_value := Fin 1; significant := false |});
     ("region_anova",
      {| statistic := Fin 0; p_value := Fin 1; significant := false |})]
  = map snd (filter (fun lk => columns_contain (fst lk) identical_groups)
               test_keys).
Proof.
  exact (statistical_tests_keys Loader.parse_num
           (fun _ _ => (1 / 2)%R) (fun _ _ _ => 1%R)
           (init identical_groups None) _ _ _
           (identical_groups_run Loader.parse_num
              (fun _ _ => (1 / 2)%R) (fun _ _ _ => 1%R)
              (fun _ => eq_refl) (fun _ _ => eq_refl))).
Defined.

Lemma traverse_length (A B : Type) (f : A -> result B) (l : list A) (l' : list B) :
  traverse f l = Ok l' -> List.length l' = List.length l.
Proof.
  revert l'. induction l as [|a l IH]; simpl; intros l' H.
  - inversion H. reflexivity.
  - destruct (f a) as [b|e]; [|discriminate]. simpl in H.
    destruct (traverse f l) as [bs|e]; [|discriminate]. simpl in H.
    inversion H. simpl. rewrite (IH bs eq_refl). reflexivity.
Qed.

Lemma anova_of_few_groups py_float f_sf label (df : DataFrame) (labels : Series) :
  get_col label df = Some labels ->
  List.length (group_keys labels) < 2 ->
  exists e, anova_of py_float f_sf label df = Raise e.
Proof.
  intros Hget Hfew. unfold anova_of, groupby_charges, getitem. rewrite Hget.
  cbn [result_bind].
  destruct (traverse _ (group_keys labels)) as [groups|e] eqn:E;
    cbn [result_bind]; [|eauto].
  apply traverse_length in E. unfold f_oneway.
  destruct (List.length groups <? 2) eqn:Hk.
  - cbn [result_bind]. eauto.
  - apply Nat.ltb_ge in Hk. exfalso. lia.
Qed.

Lemma get_col_columns_contain name (df : DataFrame) (col : Series) :
  get_col name df = Some col -> columns_contain name df = true.
Proof.
  intros H. apply (getitem_columns_contain name df col).
  unfold getitem. rewrite H. reflexivity.
Qed.

(** X28.  The analysis of variance needs two regions.  On a labeled table
    whose column [region_label] holds fewer than two distinct labels (one
    region only, or missing values only), [statistical_tests] never returns
    a mapping: it ends with an exception and stores nothing, whatever the
    t-tests before it gave. *)
Theorem statistical_tests_one_region :
  forall (py_float : string -> option Q)
         (t_sf : R -> R -> R) (f_sf : R -> R -> R -> R)
         (self : MedicalInsuranceAnalyzer) (labels : Series),
    get_col "region_label" (df_labeled self) = Some labels ->
    List.length (group_keys labels) < 2 ->
    exists e,
      statistical_tests py_float t_sf f_sf self
        = (self, [PerformingTests], Raise e).
Proof.
  intros py_float t_sf f_sf self labels Hget Hfew.
  destruct (anova_of_few_groups py_float f_sf _ _ _ Hget Hfew) as [e He].
  pose proof (get_col_columns_contain _ _ _ Hget) as Hregion.
  unfold statistical_tests, bind, print, get_df_labeled, lift, ret, set_result.
  cbv beta iota zeta.
  destruct (columns_contain "smoker_label" (df_labeled self));
    [destruct (ttest_of t_sf "smoker_label" "yes" "no" (df_labeled self))
       as [r1|e1]|];
    cbv beta iota; try (eexists; reflexivity);
    (destruct (columns_contain "sex_label" (df_labeled self));
     [destruct (ttest_of t_sf "sex_label" "male" "female" (df_labeled self))
        as [r2|e2]|]);
    cbv beta iota; try (eexists; reflexivity);
    rewrite Hregion, He; cbv beta iota; eexists; reflexivity.
Qed.

Lemma statistical_tests_one_region_witness :
  exists e,
    statistical_tests Loader.parse_num (fun _ _ => (1 / 2)%R) (fun _ _ _ => 1%R)
      (init one_region None)
    = (init one_region None, [PerformingTests], Raise e).
Proof.
  apply (statistical_tests_one_region Loader.parse_num
           (fun _ _ => (1 / 2)%R) (fun _ _ _ => 1%R)
           (init one_region None)
           [Str "northeast"; Str "northeast"; Str "northeast"] eq_refl).
  vm_compute. lia.
Defined.
